(** * Tile-generation pipeline of [chunk_reproject_3857_tiles.py]

  A shallow embedding of [chunk_reproject_to_3857_png] and of the helpers it
  calls, followed by the properties of the tile grid, the classifier, the
  manifest store and the resumable driver.

  Conventions of the embedding:
  - Python [int] is [Z]; [//] is [Z.div] (both round towards minus infinity);
  - a [float32] pixel is a [spec_float] (IEEE 754, precision 24, emax 128);
    the classifier only compares pixels, which is exact;
  - a geographic coordinate (a Python [float]) is a [spec_float] too
    (precision 53, emax 1024); the affine arithmetic of rasterio is done
    with the rounding operations of [SpecFloat], in the order in which the
    library performs them;
  - a Python [str] is a [string] whose characters are the code points
    below 256; text with higher code points is outside the embedding;
  - a Python [dict] is an association list in insertion order;
  - an exception is a value of [exn]; effects on the output directory and
    on standard output are threaded through a state-and-exception monad in
    which the state survives a raised exception. *)

From Stdlib Require Import ZArith List String Ascii Bool Lia QArith Qround.
From Stdlib Require Import Permutation DecimalString DecimalN.
From Stdlib Require Import Floats.SpecFloat.
Import ListNotations.

Set Implicit Arguments.
Set Warnings "-register-all".

(* ================================================================= *)
(** ** Python values, exceptions *)

Module Py.

Inductive exn : Type :=
| ZeroDivisionError
| TypeError
| AttributeError
| KeyError
| ValueError
| JSONDecodeError
| RasterioIOError
| CRSError
| OSError.

Inductive result (A : Type) : Type :=
| Ok (a : A)
| Raise (e : exn).

Arguments Ok {A} a.
Arguments Raise {A} e.

Definition rbind {A B} (r : result A) (k : A -> result B) : result B :=
  match r with
  | Ok a => k a
  | Raise e => Raise e
  end.

(** [range(n)] *)
Definition range (n : Z) : list Z := map Z.of_nat (seq 0 (Z.to_nat n)).

(** [a // b] *)
Definition floordiv (a b : Z) : result Z :=
  if (b =? 0)%Z then Raise ZeroDivisionError else Ok (a / b)%Z.

(** [int(x)] of a float: truncation towards zero. *)
Definition int_of (x : Q) : Z := Z.quot (Qnum x) (Zpos (Qden x)).

(** [np.clip] on integers. *)
Definition clip_int (x lo hi : Z) : Z := Z.min (Z.max x lo) hi.

End Py.
Export Py.

(* ================================================================= *)
(** ** JSON documents as [json.load] returns them *)

Module Json.

Inductive json : Type :=
| JNull
| JBool (b : bool)
| JNum (q : Q)
| JStr (s : string)
| JArr (items : list json)
| JObj (fields : list (string * json)).

(** [obj.get(name)] on the parsed object; [None] when the key is absent. *)
Fixpoint obj_get (name : string) (fields : list (string * json)) : option json :=
  match fields with
  | [] => None
  | (k, v) :: rest => if String.eqb k name then Some v else obj_get name rest
  end.

(** Truth value of a Python object, as tested by [if fn:]. *)
Definition truthy (j : json) : bool :=
  match j with
  | JNull => false
  | JBool b => b
  | JNum q => negb (Qeq_bool q 0)
  | JStr s => negb (String.eqb s "")
  | JArr l => match l with [] => false | _ => true end
  | JObj l => match l with [] => false | _ => true end
  end.

(** Keys of a Python dict coming from JSON scalars.  Python identifies
    [True], [1] and [1.0] as keys; numbers are kept in lowest terms so that
    key equality is structural. *)
Inductive pykey : Type :=
| KNone
| KStr (s : string)
| KNum (q : Q).

(** [hash(j)]: lists and dicts are unhashable. *)
Definition as_key (j : json) : result pykey :=
  match j with
  | JNull => Ok KNone
  | JBool b => Ok (KNum (if b then 1 else 0))
  | JNum q => Ok (KNum (Qred q))
  | JStr s => Ok (KStr s)
  | JArr _ | JObj _ => Raise TypeError
  end.

Definition Q_eqb (p q : Q) : bool :=
  (Qnum p =? Qnum q)%Z && (Qden p =? Qden q)%positive.

Definition key_eqb (a b : pykey) : bool :=
  match a, b with
  | KNone, KNone => true
  | KStr s, KStr t => String.eqb s t
  | KNum p, KNum q => Q_eqb p q
  | _, _ => false
  end.

(** [a < b] between two sort keys; Python refuses to order a string
    against a number, and [None] against anything. *)
Definition key_lt (a b : pykey) : result bool :=
  match a, b with
  | KStr s, KStr t => Ok (String.ltb s t)
  | KNum p, KNum q => Ok (Qnum p * Zpos (Qden q) <? Qnum q * Zpos (Qden p))%Z
  | _, _ => Raise TypeError
  end.

End Json.
Export Json.

(* ================================================================= *)
(** ** The in-memory manifest: a Python dict *)

Module Dict.

Definition pydict : Type := list (pykey * json).

(** [d[k] = v]: an existing key keeps its place, a new key goes last. *)
Fixpoint dict_set (k : pykey) (v : json) (d : pydict) : pydict :=
  match d with
  | [] => [(k, v)]
  | (k', v') :: rest =>
      if key_eqb k' k then (k', v) :: rest
      else (k', v') :: dict_set k v rest
  end.

Fixpoint dict_get (k : pykey) (d : pydict) : option json :=
  match d with
  | [] => None
  | (k', v') :: rest => if key_eqb k' k then Some v' else dict_get k rest
  end.

Definition dict_keys (d : pydict) : list pykey := map fst d.

(** [list(d.values())] *)
Definition dict_values (d : pydict) : list json := map snd d.

End Dict.
Export Dict.

(* ================================================================= *)
(** ** Manifest store: loading and sorting *)

Module Manifest.

(** Bytes of [tile_manifest.json], identified with what [json.load] makes of
    them: a decoding error, or the decoded document.  [json.dump] is a
    function of the document, so two files written by the pipeline are
    byte-identical exactly when their documents are equal. *)
Inductive manifest_bytes : Type :=
| NotJson
| JsonText (doc : json).

(** Messages on standard output that the properties below speak about. *)
Inductive event : Type :=
| LoadedManifest (entries : nat)
| WarnManifest (e : exn)
| WarnSourceCRS (crs : string)
| Writing (tile_name : string).

(** [for entry in existing:] iterates a list by element, a dict by key and
    a string by character; other JSON values are not iterable. *)
Definition iter_items (existing : json) : result (list json) :=
  match existing with
  | JArr items => Ok items
  | JObj fields => Ok (map (fun kv => JStr (fst kv)) fields)
  | JStr s => Ok (map (fun c => JStr (String c EmptyString)) (list_ascii_of_string s))
  | JNull | JBool _ | JNum _ => Raise TypeError
  end.

(** One iteration of the loading loop, lines 59-61:
    [fn = entry.get("filename")], [if fn: tile_manifest[fn] = entry].
    Only a JSON object has [.get]; an unhashable [fn] cannot be a key. *)
Definition load_entry (entry : json) (d : pydict) : result pydict :=
  match entry with
  | JObj fields =>
      let fn := match obj_get "filename" fields with
                | Some v => v
                | None => JNull
                end in
      if truthy fn
      then rbind (as_key fn) (fun k => Ok (dict_set k entry d))
      else Ok d
  | _ => Raise AttributeError
  end.

(** The loop mutates [tile_manifest] in place, so what was stored before an
    exception stays stored: the dict is returned in both outcomes. *)
Fixpoint load_entries (items : list json) (d : pydict) : pydict * option exn :=
  match items with
  | [] => (d, None)
  | entry :: rest =>
      match load_entry entry d with
      | Ok d' => load_entries rest d'
      | Raise e => (d, Some e)
      end
  end.

(** Lines 53-64: the manifest file is missing ([None]), undecodable, or
    decoded and iterated inside the [try]. *)
Definition load_manifest (file : option manifest_bytes) : pydict * list event :=
  match file with
  | None => ([], [])
  | Some NotJson => ([], [WarnManifest JSONDecodeError])
  | Some (JsonText existing) =>
      match iter_items existing with
      | Raise e => ([], [WarnManifest e])
      | Ok items =>
          match load_entries items [] with
          | (d, None) => (d, [LoadedManifest (List.length d)])
          | (d, Some e) => (d, [WarnManifest e])
          end
      end
  end.

(** [e["filename"]], the sort key of line 251, as a comparable key.  A
    list or dict under ["filename"] is given no order here; no stored entry
    has one, since such an entry cannot be stored (see [load_entry]). *)
Definition sort_key (e : json) : result pykey :=
  match e with
  | JObj fields =>
      match obj_get "filename" fields with
      | Some v => as_key v
      | None => Raise KeyError
      end
  | _ => Raise TypeError
  end.

(** [list.sort] is stable and only uses [<]; it is modelled by a stable
    insertion sort on (key, value) pairs that fails on the first comparison
    Python refuses. *)
Fixpoint insert_by_key (x : pykey * json) (sorted : list (pykey * json))
  : result (list (pykey * json)) :=
  match sorted with
  | [] => Ok [x]
  | y :: rest =>
      rbind (key_lt (fst y) (fst x)) (fun y_first =>
        if y_first
        then rbind (insert_by_key x rest) (fun r => Ok (y :: r))
        else Ok (x :: y :: rest))
  end.

Fixpoint sort_pairs (l : list (pykey * json)) : result (list (pykey * json)) :=
  match l with
  | [] => Ok []
  | x :: rest => rbind (sort_pairs rest) (insert_by_key x)
  end.

Fixpoint keyed (l : list json) : result (list (pykey * json)) :=
  match l with
  | [] => Ok []
  | e :: rest =>
      rbind (sort_key e) (fun k =>
      rbind (keyed rest) (fun r => Ok ((k, e) :: r)))
  end.

(** [manifest_list.sort(key=lambda e: e["filename"])] *)
Definition sort_by_filename (l : list json) : result (list json) :=
  rbind (keyed l) (fun kl =>
  rbind (sort_pairs kl) (fun s => Ok (map snd s))).

(** The entry is a JSON object whose ["filename"] is truthy and hashes to
    [k]: it is stored under [k] when loaded and sorted under [k]. *)
Definition keyed_by (k : pykey) (e : json) : Prop :=
  exists fields fn,
    e = JObj fields /\ obj_get "filename" fields = Some fn /\
    truthy fn = true /\ as_key fn = Ok k.

(** What every dict built by the pipeline satisfies: keys are distinct and
    each value carries its own key as filename. *)
Definition wf_dict (d : pydict) : Prop :=
  NoDup (dict_keys d) /\ Forall (fun kv => keyed_by (fst kv) (snd kv)) d.

(** Neighbours are in order: the later one is not below the earlier one. *)
Fixpoint key_sorted (l : list (pykey * json)) : Prop :=
  match l with
  | [] => True
  | x :: rest =>
      match rest with
      | [] => True
      | y :: _ => key_lt (fst y) (fst x) = Ok false
      end /\ key_sorted rest
  end.

(** The list of entries is in filename order. *)
Definition filename_sorted (l : list json) : Prop :=
  exists kl, keyed l = Ok kl /\ key_sorted kl.

End Manifest.
Export Manifest.

(* ================================================================= *)
(** ** Tile grid planner *)

Module Grid.

(** [rasterio.windows.Window(col_off, row_off, width, height)] *)
Record Window : Type := mkWindow {
  col_off : Z;
  row_off : Z;
  win_width : Z;
  win_height : Z
}.

(** Lines 96-97: [(size + tile_size - 1) // tile_size]. *)
Definition n_tiles (size tile_size : Z) : result Z :=
  floordiv (size + tile_size - 1) tile_size.

(** Lines 145-146: the nested [for ty in range(n_tiles_y): for tx in
    range(n_tiles_x)] visits these (ty, tx) in this order. *)
Definition tile_coords (n_tiles_y n_tiles_x : Z) : list (Z * Z) :=
  flat_map (fun ty => map (fun tx => (ty, tx)) (range n_tiles_x)) (range n_tiles_y).

(** Lines 149-158: the window of tile (ty, tx), or [None] when the loop
    takes the [w <= 0 or h <= 0] branch and continues. *)
Definition tile_window (width height tile_size ty tx : Z) : option Window :=
  let col_off := (tx * tile_size)%Z in
  let row_off := (ty * tile_size)%Z in
  let w := Z.min tile_size (width - col_off) in
  let h := Z.min tile_size (height - row_off) in
  if (w <=? 0)%Z || (h <=? 0)%Z then None
  else Some (mkWindow col_off row_off w h).

(** Pixel (x, y) lies in the window. *)
Definition in_window (win : Window) (x y : Z) : Prop :=
  (col_off win <= x < col_off win + win_width win)%Z /\
  (row_off win <= y < row_off win + win_height win)%Z.

(** The spec's [ceil(size/edge)], on the exact fraction. *)
Definition ceil_div (size edge : Z) : Z := Qceiling (size # Z.to_pos edge).

End Grid.
Export Grid.

(* ================================================================= *)
(** ** Georeferencing (rasterio / affine), in binary64 *)

Module Geo.

(** A Python [float]. *)
Definition f64 : Type := spec_float.

(** [+], [-] and [*] on floats: IEEE 754 binary64, round to nearest even. *)
Definition f64_add : f64 -> f64 -> f64 := SFadd 53 1024.
Definition f64_sub : f64 -> f64 -> f64 := SFsub 53 1024.
Definition f64_mul : f64 -> f64 -> f64 := SFmul 53 1024.

(** The float an [int] operand becomes in mixed arithmetic: the nearest
    float.  Offsets and sizes of windows lie within the raster, whose
    width and height GDAL keeps in 32 bits, far below the magnitude at which
    Python refuses the conversion. *)
Definition f64_of_int (n : Z) : f64 := binary_normalize 53 1024 n 0 false.

Definition f64_0 : f64 := S754_zero false.
Definition f64_1 : f64 := S754_finite false 4503599627370496 (-52).

(** [affine.Affine(a, b, c, d, e, f)]: x' = a x + b y + c, y' = d x + e y + f. *)
Record Affine : Type := mkAffine {
  af_a : f64; af_b : f64; af_c : f64;
  af_d : f64; af_e : f64; af_f : f64
}.

(** [transform * (vx, vy)], that is
    [(vx * sa + vy * sb + sc, vx * sd + vy * se + sf)]. *)
Definition apply (t : Affine) (vx vy : f64) : f64 * f64 :=
  (f64_add (f64_add (f64_mul vx (af_a t)) (f64_mul vy (af_b t))) (af_c t),
   f64_add (f64_add (f64_mul vx (af_d t)) (f64_mul vy (af_e t))) (af_f t)).

(** [Affine.translation(xoff, yoff)] *)
Definition translation (xoff yoff : f64) : Affine :=
  mkAffine f64_1 f64_0 xoff f64_0 f64_1 yoff.

(** [s * o] for two transforms, as [Affine.__mul__] writes it out. *)
Definition compose (s o : Affine) : Affine :=
  mkAffine
    (f64_add (f64_mul (af_a s) (af_a o)) (f64_mul (af_b s) (af_d o)))
    (f64_add (f64_mul (af_a s) (af_b o)) (f64_mul (af_b s) (af_e o)))
    (f64_add (f64_add (f64_mul (af_a s) (af_c o)) (f64_mul (af_b s) (af_f o))) (af_c s))
    (f64_add (f64_mul (af_d s) (af_a o)) (f64_mul (af_e s) (af_d o)))
    (f64_add (f64_mul (af_d s) (af_b o)) (f64_mul (af_e s) (af_e o)))
    (f64_add (f64_add (f64_mul (af_d s) (af_c o)) (f64_mul (af_e s) (af_f o))) (af_f s)).

(** [vrt.window_transform(window)]:
    [x, y = transform * (col_off, row_off)], then
    [Affine.translation(x - transform.c, y - transform.f) * transform]. *)
Definition window_transform (t : Affine) (win : Window) : Affine :=
  let (x, y) := apply t (f64_of_int (col_off win)) (f64_of_int (row_off win)) in
  compose (translation (f64_sub x (af_c t)) (f64_sub y (af_f t))) t.

(** [min] and [max] of a 4-tuple of floats: the first element is replaced
    by each later one that compares below (above) it. *)
Definition py_min (xs : f64 * f64 * f64 * f64) : f64 :=
  let '(x0, x1, x2, x3) := xs in
  fold_left (fun m x => if SFltb x m then x else m) [x1; x2; x3] x0.

Definition py_max (xs : f64 * f64 * f64 * f64) : f64 :=
  let '(x0, x1, x2, x3) := xs in
  fold_left (fun m x => if SFltb m x then x else m) [x1; x2; x3] x0.

(** [rasterio.transform.array_bounds(height, width, transform)], returning
    (west, south, east, north): for [b == d == 0] these are
    [c, f + e * height, c + a * width, f], otherwise the extremes of the
    four corners. *)
Definition array_bounds (height width : Z) (t : Affine) : f64 * f64 * f64 * f64 :=
  if SFeqb (af_b t) (af_d t) && SFeqb (af_d t) (f64_of_int 0)
  then (af_c t,
        f64_add (af_f t) (f64_mul (af_e t) (f64_of_int height)),
        f64_add (af_c t) (f64_mul (af_a t) (f64_of_int width)),
        af_f t)
  else
    let '(c1x, c1y) := apply t (f64_of_int 0) (f64_of_int height) in
    let '(c2x, c2y) := apply t (f64_of_int width) (f64_of_int height) in
    let '(c3x, c3y) := apply t (f64_of_int width) (f64_of_int 0) in
    (py_min (af_c t, c1x, c2x, c3x), py_min (af_f t, c1y, c2y, c3y),
     py_max (af_c t, c1x, c2x, c3x), py_max (af_f t, c1y, c2y, c3y)).

(** The number a float stands for.  [json.dump] writes a finite float so
    that [json.load] reads the same float back, and the manifest document
    holds this value, in lowest terms.  A float that is not finite, which
    takes a geotransform that is not finite or overflows, would be written
    as one of the tokens [NaN], [Infinity]; these are not JSON and have no
    counterpart in [json]: such a float is given 0 here. *)
Definition Q_of_f64 (x : f64) : Q :=
  match x with
  | S754_finite s m e =>
      Qred (match e with
            | Z0 => inject_Z (cond_Zopp s (Zpos m))
            | Zpos p => inject_Z (cond_Zopp s (Zpos m) * Z.pow_pos 2 p)
            | Zneg p => cond_Zopp s (Zpos m) # Pos.pow 2 p
            end)
  | _ => 0
  end.

End Geo.
Export Geo.

(* ================================================================= *)
(** ** Tile names, URLs and descriptors *)

Module Naming.

Local Open Scope string_scope.

(** [str.zfill]-style left padding with zeros up to [width] characters. *)
Definition zfill (width : nat) (digits : string) : string :=
  string_of_list_ascii (repeat "0"%char (width - String.length digits)) ++ digits.

(** [f"{n}"] for an integer. *)
Definition format_d (n : Z) : string := NilZero.string_of_int (Z.to_int n).

(** [f"{n:04d}"]: sign-aware zero padding to four characters. *)
Definition format_04d (n : Z) : string :=
  if (n <? 0)%Z
  then "-" ++ zfill 3 (NilZero.string_of_uint (N.to_uint (Z.to_N (Z.abs n))))
  else zfill 4 (NilZero.string_of_uint (N.to_uint (Z.to_N n))).

(** Lines 161-164. *)
Definition tile_name (stem : string) (target_res : Q) (ty tx : Z) : string :=
  stem ++ "_3857_res" ++ format_d (int_of target_res) ++ "m_"
       ++ "tile_y" ++ format_04d ty ++ "_x" ++ format_04d tx ++ ".png".

(** [s.rstrip("/")] *)
Fixpoint rstrip_slash (s : string) : string :=
  match s with
  | EmptyString => EmptyString
  | String c rest =>
      match rstrip_slash rest with
      | EmptyString => if Ascii.eqb c "/" then EmptyString else String c EmptyString
      | r => String c r
      end
  end.

(** Lines 173-177: [if base_url:] is false for [None] and for [""]. *)
Definition tile_url (base_url : option string) (rel_path : string) : string :=
  match base_url with
  | Some b =>
      if String.eqb b "" then rel_path
      else rstrip_slash b ++ "/" ++ rel_path
  | None => rel_path
  end.

(** Lines 179-189. *)
Definition make_entry (rel_path url : string) (bbox : Q * Q * Q * Q) : json :=
  let '(west, south, east, north) := bbox in
  JObj [("filename", JStr rel_path);
        ("url", JStr url);
        ("bbox", JArr [JNum west; JNum south; JNum east; JNum north]);
        ("crs", JStr "EPSG:3857")].

End Naming.
Export Naming.

(* ================================================================= *)
(** ** Classifier / colorizer *)

Module Classifier.

(** A [float32] value. *)
Definition f32 : Type := spec_float.

Definition f32_pos (m : positive) (e : Z) : f32 := S754_finite false m e.

(** The [float32] nearest to each decimal literal of the source. *)
Definition f32_0 : f32 := S754_zero false.
Definition f32_1 : f32 := f32_pos 8388608 (-23).
Definition f32_0_001 : f32 := f32_pos 8589935 (-33).
Definition f32_0_15 : f32 := f32_pos 10066330 (-26).

(** Lines 129-132: [bins], as [float32]. *)
Definition bins : list f32 :=
  [ f32_0;
    f32_pos 13421773 (-27);   (* 0.1 *)
    f32_pos 13421773 (-26);   (* 0.2 *)
    f32_pos 10066330 (-25);   (* 0.3 *)
    f32_pos 13421773 (-25);   (* 0.4 *)
    f32_pos 8388608 (-24);    (* 0.5 *)
    f32_pos 10066330 (-24);   (* 0.6 *)
    f32_pos 11744051 (-24);   (* 0.7 *)
    f32_pos 13421773 (-24);   (* 0.8 *)
    f32_pos 15099494 (-24);   (* 0.9 *)
    f32_pos 8389447 (-23) ].  (* 1.0001 *)

Definition rgb : Type := (Z * Z * Z)%type.

(** Value of one hexadecimal digit.  Among the code points below 256 the
    digits that [int(_, 16)] reads are the ASCII ones. *)
Definition hex_digit (c : ascii) : option Z :=
  let n := Z.of_nat (nat_of_ascii c) in
  if (48 <=? n)%Z && (n <=? 57)%Z then Some (n - 48)%Z
  else if (97 <=? n)%Z && (n <=? 102)%Z then Some (n - 87)%Z
  else if (65 <=? n)%Z && (n <=? 70)%Z then Some (n - 55)%Z
  else None.

(** Whitespace that [int] strips: tab, line feed, vertical tab, form
    feed, carriage return and space, and the two spaces above ASCII, next
    line (133) and no-break space (160), which [int] turns into a space
    before parsing.  The separators 28 to 31 are not stripped: they are
    ASCII, and [int] leaves ASCII text as it is. *)
Definition is_space (c : ascii) : bool :=
  let n := Z.of_nat (nat_of_ascii c) in
  ((9 <=? n)%Z && (n <=? 13)%Z) || (n =? 32)%Z || (n =? 133)%Z || (n =? 160)%Z.

(** [int(h[i:i+2], 16)] on a slice, which has at most two characters:
    one or two hexadecimal digits, or one digit with a sign in front or
    with whitespace on either side; anything else is a [ValueError]. *)
Definition int16 (slice : string) : result Z :=
  match slice with
  | String c EmptyString =>
      match hex_digit c with
      | Some h => Ok h
      | None => Raise ValueError
      end
  | String c1 (String c2 EmptyString) =>
      match hex_digit c1, hex_digit c2 with
      | Some h, Some l => Ok (16 * h + l)%Z
      | Some h, None => if is_space c2 then Ok h else Raise ValueError
      | None, Some l =>
          if is_space c1 || Ascii.eqb c1 "+" then Ok l
          else if Ascii.eqb c1 "-" then Ok (- l)%Z
          else Raise ValueError
      | None, None => Raise ValueError
      end
  | _ => Raise ValueError
  end.

(** [h.lstrip("#")] *)
Fixpoint lstrip_hash (h : string) : string :=
  match h with
  | String c rest => if Ascii.eqb c "#" then lstrip_hash rest else h
  | EmptyString => EmptyString
  end.

(** Lines 15-18. *)
Definition hex_to_rgb (h : string) : result rgb :=
  let h := lstrip_hash h in
  rbind (int16 (substring 0 2 h)) (fun r =>
  rbind (int16 (substring 2 2 h)) (fun g =>
  rbind (int16 (substring 4 2 h)) (fun b => Ok (r, g, b)))).

Definition hex_colors : list string :=
  [ "#e0f3db"; "#f7fcf5"; "#e5f5e0"; "#c7e9c0"; "#a1d99b";
    "#74c476"; "#41ab5d"; "#238b45"; "#006d2c"; "#00441b" ]%string.

Fixpoint map_result {A B} (f : A -> result B) (l : list A) : result (list B) :=
  match l with
  | [] => Ok []
  | x :: rest => rbind (f x) (fun y => rbind (map_result f rest) (fun r => Ok (y :: r)))
  end.

Definition or_default {A} (r : result A) (d : A) : A :=
  match r with Ok a => a | Raise _ => d end.

(** Line 113 and line 128; both conversions succeed, see
    [ocean_color_parsed] and [palette_parsed]. *)
Definition ocean_color : rgb := or_default (hex_to_rgb "#1f78b4") (0, 0, 0)%Z.
Definition palette : list rgb := or_default (map_result hex_to_rgb hex_colors) [].

Definition is_nan (x : f32) : bool :=
  match x with S754_nan => true | _ => false end.

(** [np.isfinite] *)
Definition is_finite (x : f32) : bool :=
  match x with
  | S754_nan | S754_infinity _ => false
  | S754_zero _ | S754_finite _ _ _ => true
  end.

(** [np.maximum] and [np.minimum]: a NaN operand is returned. *)
Definition np_maximum (x y : f32) : f32 :=
  if is_nan x then x else if is_nan y then y else if SFltb x y then y else x.

Definition np_minimum (x y : f32) : f32 :=
  if is_nan x then x else if is_nan y then y else if SFltb y x then y else x.

(** [np.clip(x, lo, hi)] = [np.minimum(np.maximum(x, lo), hi)]. *)
Definition np_clip (x lo hi : f32) : f32 := np_minimum (np_maximum x lo) hi.

(** [np.digitize(x, bins)] for increasing [bins] and [right=False]: the
    index [i] with [bins[i-1] <= x < bins[i]], that is the position of the
    first bin above [x], or [len(bins)] when there is none. *)
Fixpoint digitize (x : f32) (bs : list f32) : Z :=
  match bs with
  | [] => 0
  | b :: rest => if SFltb x b then 0 else (1 + digitize x rest)
  end%Z.

(** One cell of the masked array returned by [vrt.read(1, window=window,
    masked=True)], converted to [float32]: rasterio sets the mask where the
    pixel is outside the source coverage or equals the no-data value. *)
Record sample : Type := mkSample {
  value : f32;
  masked : bool
}.

(** Lines 233-234 for one pixel: the palette index. *)
Definition bucket_index (data : f32) : Z :=
  clip_int (digitize data bins - 1) 0 (Z.of_nat (List.length palette) - 1).

(** Lines 202-235, element-wise. *)
Definition classify_pixel (s : sample) : rgb :=
  let data := if masked s then S754_nan else value s in
  let nodata_mask := masked s || negb (is_finite data) in
  let data := np_clip data f32_0 f32_1 in
  let ocean_mask := nodata_mask || SFltb data f32_0_001 in
  if ocean_mask then ocean_color
  else nth (Z.to_nat (bucket_index data)) palette (0, 0, 0)%Z.

Definition block : Type := list (list sample).
Definition image : Type := list (list rgb).

Definition classify_block (data : block) : image := map (map classify_pixel) data.

End Classifier.
Export Classifier.

(* ================================================================= *)
(** ** Pipeline driver *)

Module Pipeline.

(** The output directory: the manifest file and the other files by name.
    Files that the pipeline did not write may hold anything; only their
    presence is ever tested. *)
Record outdir : Type := mkOutdir {
  manifest_file : option manifest_bytes;
  tile_files : list (string * image)
}.

(** State of a run: the output directory and what was printed so far. *)
Definition state : Type := (outdir * list event)%type.

(** Computations that read and write the state and may raise; the state
    reached when the exception was raised is kept. *)
Definition M (A : Type) : Type := state -> result A * state.

Definition ret {A} (a : A) : M A := fun s => (Ok a, s).

Definition bind {A B} (c : M A) (k : A -> M B) : M B :=
  fun s =>
    match c s with
    | (Ok a, s') => k a s'
    | (Raise e, s') => (Raise e, s')
    end.

Definition lift {A} (r : result A) : M A := fun s => (r, s).

Declare Scope pipeline_scope.
Delimit Scope pipeline_scope with pipeline.
Notation "x <- c ;; k" := (bind c (fun x => k))
  (at level 61, c at next level, right associativity) : pipeline_scope.
Notation "c ;;; k" := (bind c (fun _ => k))
  (at level 61, right associativity) : pipeline_scope.
Local Open Scope pipeline_scope.

(** [print(...)] *)
Definition emit (ev : event) : M unit :=
  fun s => (Ok tt, (fst s, snd s ++ [ev])).

Definition emit_all (evs : list event) : M unit :=
  fun s => (Ok tt, (fst s, snd s ++ evs)).

Fixpoint lookup_file (name : string) (files : list (string * image)) : option image :=
  match files with
  | [] => None
  | (n, img) :: rest => if String.eqb n name then Some img else lookup_file name rest
  end.

(** [out_path.exists()] *)
Definition path_exists (name : string) : M bool :=
  fun s =>
    (Ok (match lookup_file name (tile_files (fst s)) with Some _ => true | None => false end), s).

Definition read_manifest_file : M (option manifest_bytes) :=
  fun s => (Ok (manifest_file (fst s)), s).

(** [open(manifest_path, "w")] followed by [json.dump(manifest_list, f)]:
    the previous content is replaced. *)
Definition write_manifest (manifest_list : list json) : M unit :=
  fun s =>
    (Ok tt, (mkOutdir (Some (JsonText (JArr manifest_list))) (tile_files (fst s)), snd s)).

(** The source raster as opened by [rasterio.open]. *)
Record Source : Type := mkSource {
  src_crs : option string;
  src_nodata : option Q
}.

(** Whether the band's dtype is one of the integer types or a floating
    (or complex) type. *)
Inductive dtype_kind : Type :=
| IntegerKind
| InexactKind.

(** The warped virtual raster. *)
Record VRT : Type := mkVRT {
  vrt_width : Z;
  vrt_height : Z;
  vrt_transform : Affine;
  vrt_dtype : dtype_kind;
  vrt_read : Window -> result block
}.

(** Line 202, [data_ma.filled(np.nan)]: numpy checks the fill value
    against the array's dtype before filling, and NaN cannot be converted
    to an integer type; the masked array that rasterio returns always
    carries a mask array, so the check is always made. *)
Definition filled_nan (kind : dtype_kind) (data_ma : block) : result block :=
  match kind with
  | IntegerKind => Raise TypeError
  | InexactKind => Ok data_ma
  end.

(** Collaborators outside the repository: opening the raster, building the
    reprojection view (from the source, the no-data value and the target
    resolution), encoding an image.  [png_save] answers whether the encoder
    succeeds; the tile writer is atomic, a failed write leaves no file. *)
Record Env : Type := mkEnv {
  rasterio_open : result Source;
  warped_vrt : Source -> Q -> Q -> result VRT;
  png_save : string -> image -> result unit
}.

(** Arguments of [chunk_reproject_to_3857_png]; [in_stem] is
    [in_path.stem]. *)
Record Job : Type := mkJob {
  in_stem : string;
  tile_size : Z;
  target_res : Q;
  base_url : option string
}.

(** [Image.fromarray(rgb).save(out_path)] *)
Definition save_tile (env : Env) (name : string) (img : image) : M unit :=
  fun s =>
    match png_save env name img with
    | Ok _ => (Ok tt, (mkOutdir (manifest_file (fst s)) ((name, img) :: tile_files (fst s)), snd s))
    | Raise e => (Raise e, s)
    end.

(** Lines 182-187: the four floats of the box as the numbers of the
    manifest document. *)
Definition box_values (bbox : f64 * f64 * f64 * f64) : Q * Q * Q * Q :=
  let '(left3857, bottom3857, right3857, top3857) := bbox in
  (Q_of_f64 left3857, Q_of_f64 bottom3857, Q_of_f64 right3857, Q_of_f64 top3857).

(** Lines 158-189: name and descriptor of a tile with a window. *)
Definition tile_entry (job : Job) (vrt : VRT) (ty tx : Z) (window : Window)
  : string * json :=
  let name := tile_name (in_stem job) (target_res job) ty tx in
  let transform := window_transform (vrt_transform vrt) window in
  let bbox := array_bounds (win_height window) (win_width window) transform in
  (name, make_entry name (tile_url (base_url job) name) (box_values bbox)).

(** Body of the nested loops, lines 147-246.  The progress bar and the
    statistics printed for the first three tiles only report; they are
    left out. *)
Definition process_tile (env : Env) (job : Job) (vrt : VRT)
           (tile_manifest : pydict) (t : Z * Z) : M pydict :=
  let '(ty, tx) := t in
  match tile_window (vrt_width vrt) (vrt_height vrt) (tile_size job) ty tx with
  | None => ret tile_manifest
  | Some window =>
      let '(rel_path, entry) := tile_entry job vrt ty tx window in
      let tile_manifest := dict_set (KStr rel_path) entry tile_manifest in
      present <- path_exists rel_path ;;
      if present then ret tile_manifest
      else
        data_ma <- lift (vrt_read vrt window) ;;
        data <- lift (filled_nan (vrt_dtype vrt) data_ma) ;;
        let rgb := classify_block data in
        save_tile env rel_path rgb ;;;
        emit (Writing rel_path) ;;;
        ret tile_manifest
  end.

Fixpoint tile_loop (env : Env) (job : Job) (vrt : VRT)
         (tiles : list (Z * Z)) (tile_manifest : pydict) : M pydict :=
  match tiles with
  | [] => ret tile_manifest
  | t :: rest =>
      m <- process_tile env job vrt tile_manifest t ;;
      tile_loop env job vrt rest m
  end.

(** Lines 52-64: load the existing manifest, printing what happened. *)
Definition load_step : M pydict :=
  file <- read_manifest_file ;;
  let '(tile_manifest, msgs) := load_manifest file in
  emit_all msgs ;;;
  ret tile_manifest.

(** Lines 248-254: sort the values by filename and rewrite the manifest. *)
Definition persist (tile_manifest : pydict) : M unit :=
  manifest_list <- lift (sort_by_filename (dict_values tile_manifest)) ;;
  write_manifest manifest_list.

(** Line 67: [src.crs or "EPSG:4326"]. *)
Definition source_crs_label (src : Source) : string :=
  match src_crs src with
  | Some c => if String.eqb c "" then "EPSG:4326"%string else c
  | None => "EPSG:4326"%string
  end.

(** Line 77. *)
Definition nodata_value (src : Source) : Q :=
  match src_nodata src with
  | Some v => v
  | None => (-999 # 1)
  end.

(** [chunk_reproject_to_3857_png], lines 50-254.  The output directory is
    taken to exist and the manifest file to be writable. *)
Definition chunk_reproject_to_3857_png (env : Env) (job : Job) : M unit :=
  tile_manifest <- load_step ;;
  src <- lift (rasterio_open env) ;;
  let crs := source_crs_label src in
  (if String.eqb crs "EPSG:4326" then ret tt else emit (WarnSourceCRS crs)) ;;;
  vrt <- lift (warped_vrt env src (nodata_value src) (target_res job)) ;;
  n_tiles_x <- lift (n_tiles (vrt_width vrt) (tile_size job)) ;;
  n_tiles_y <- lift (n_tiles (vrt_height vrt) (tile_size job)) ;;
  tile_manifest <- tile_loop env job vrt (tile_coords n_tiles_y n_tiles_x) tile_manifest ;;
  persist tile_manifest.

(** One invocation on an output directory: the outcome, the directory left
    behind and the messages printed. *)
Definition run (env : Env) (job : Job) (dir : outdir) : result unit * outdir * list event :=
  let '(r, (dir', out)) := chunk_reproject_to_3857_png env job (dir, []) in
  (r, dir', out).

(** The upserts the loop performs, in order: one per visited tile that has
    a window, whether or not its image exists. *)
Fixpoint planned_upserts (job : Job) (vrt : VRT) (tiles : list (Z * Z))
  : list (string * json) :=
  match tiles with
  | [] => []
  | (ty, tx) :: rest =>
      match tile_window (vrt_width vrt) (vrt_height vrt) (tile_size job) ty tx with
      | None => planned_upserts job vrt rest
      | Some window => tile_entry job vrt ty tx window :: planned_upserts job vrt rest
      end
  end.

Fixpoint apply_upserts (us : list (string * json)) (m : pydict) : pydict :=
  match us with
  | [] => m
  | (name, entry) :: rest => apply_upserts rest (dict_set (KStr name) entry m)
  end.

(** The last entry upserted under key [k], if any. *)
Fixpoint latest (k : pykey) (us : list (string * json)) : option json :=
  match us with
  | [] => None
  | (name, entry) :: rest =>
      match latest k rest with
      | Some e => Some e
      | None => if key_eqb (KStr name) k then Some entry else None
      end
  end.

(** Names of the tiles a run reported as written, in order. *)
Definition written_names (out : list event) : list string :=
  flat_map (fun ev => match ev with Writing n => [n] | _ => [] end) out.

Definition file_present (name : string) (files : list (string * image)) : bool :=
  match lookup_file name files with Some _ => true | None => false end.

End Pipeline.
Export Pipeline.

(* ================================================================= *)
(** ** The sibling one-shot script [globio_lu_to_png.py] *)

Module WorldSquare.

(** Lines 74-76 of [reproject_to_world_square]: the guard on the source
    CRS, the only part of that function the properties below refer to.
    The result is the CRS handed to the reprojection. *)
Definition reproject_to_world_square_crs (src : Source) : result string :=
  match src_crs src with
  | None => Raise ValueError
  | Some c => Ok c
  end.

End WorldSquare.
Export WorldSquare.

(* ================================================================= *)
(** ** Colour mapping of [globio_lu_to_png.py] *)

Module LandUse.

Definition rgba : Type := (Z * Z * Z * Z)%type.

(** Lines 15-32. *)
Definition ADVANCED_COLORS : list (Z * rgba) :=
  [ (1, (0, 69, 41, 255));
    (2, (0, 104, 55, 255));
    (3, (35, 132, 67, 255));
    (4, (65, 171, 93, 255));
    (5, (120, 198, 121, 255));
    (6, (173, 221, 142, 255));
    (7, (217, 240, 163, 255));
    (8, (254, 224, 139, 255));
    (9, (254, 196, 79, 255));
    (10, (236, 112, 20, 255)) ]%Z.

(** Lines 35-39. *)
Definition OCEAN : rgba := (25, 118, 174, 255)%Z.
Definition SNOW : rgba := (255, 255, 255, 255)%Z.
Definition URBAN : rgba := (90, 90, 90, 255)%Z.
Definition NO_DATA_COLOR : rgba := OCEAN.

(** Lines 42-56, in insertion order, which is the order in which
    [LU_TO_ADV.items()] yields them. *)
Definition LU_TO_ADV : list (Z * option Z) :=
  [ (10, Some 1); (90, Some 3); (100, Some 4);
    (20, Some 5); (30, Some 6); (70, Some 2);
    (50, Some 8); (80, None); (40, None); (60, None) ]%Z.

(** One cell of the land-use raster: a number, an infinity or NaN.  An
    integer raster has numbers only. *)
Inductive cell : Type :=
| Fin (q : Q)
| Inf (negative : bool)
| NaN.

(** Element of [arr == v]: NaN equals nothing. *)
Definition cell_eqb (a b : cell) : bool :=
  match a, b with
  | Fin p, Fin q => Qeq_bool p q
  | Inf s, Inf s' => Bool.eqb s s'
  | _, _ => false
  end.

(** Element of [np.isfinite(arr)]. *)
Definition cell_isfinite (c : cell) : bool :=
  match c with Fin _ => true | _ => false end.

Definition raster : Type := list (list cell).
Definition rgba_image : Type := list (list rgba).
Definition mask : Type := list (list bool).

(** [arr == v] *)
Definition eq_mask (arr : raster) (v : cell) : mask :=
  map (map (fun c => cell_eqb c v)) arr.

(** Lines 128-132; [nodata], when given, is the no-data value as the
    comparison with the raster sees it. *)
Definition nodata_mask (arr : raster) (nodata : option cell) : mask :=
  match nodata with
  | Some nd => map (map (fun c => cell_eqb c nd || negb (cell_isfinite c))) arr
  | None => map (map (fun c => negb (cell_isfinite c))) arr
  end.

(** [rgba[mask] = color]; mask and image have the shape of the raster. *)
Fixpoint assign_row (m : list bool) (color : rgba) (row : list rgba) : list rgba :=
  match m, row with
  | b :: m', p :: row' => (if b then color else p) :: assign_row m' color row'
  | _, _ => row
  end.

Fixpoint assign (m : mask) (color : rgba) (img : rgba_image) : rgba_image :=
  match m, img with
  | r :: m', row :: img' => assign_row r color row :: assign m' color img'
  | _, _ => img
  end.

Fixpoint lookup_level {A : Type} (k : Z) (d : list (Z * A)) : option A :=
  match d with
  | [] => None
  | (k', v) :: rest => if (k' =? k)%Z then Some v else lookup_level k rest
  end.

(** One turn of the loop of lines 148-159. *)
Definition paint_class (arr : raster) (img : rgba_image) (item : Z * option Z)
  : rgba_image :=
  let '(lu_value, adv_level) := item in
  match adv_level with
  | None => img
  | Some level =>
      match lookup_level level ADVANCED_COLORS with
      | None => img
      | Some color => assign (eq_mask arr (Fin (lu_value # 1))) color img
      end
  end.

(** [landuse_to_rgba], lines 117-164. *)
Definition landuse_to_rgba (arr : raster) (nodata : option cell) : rgba_image :=
  let rgba := map (map (fun _ => OCEAN)) arr in
  let nodata_mask := nodata_mask arr nodata in
  let rgba := assign (eq_mask arr (Fin (80 # 1))) SNOW rgba in
  let rgba := assign (eq_mask arr (Fin (40 # 1))) URBAN rgba in
  let rgba := assign (eq_mask arr (Fin (60 # 1))) OCEAN rgba in
  let rgba := fold_left (paint_class arr) LU_TO_ADV rgba in
  assign nodata_mask NO_DATA_COLOR rgba.

End LandUse.
Export LandUse.

(* ================================================================= *)
(** ** Concrete inputs used in the examples below *)

Module Scenarios.

(** A manifest that is a JSON list whose first element is a proper entry
    and whose second element is a string. *)
Definition half_good_manifest : manifest_bytes :=
  JsonText (JArr [JObj [("filename"%string, JStr "a.png")]; JStr "oops"]).

(** The same with a first entry whose filename is the number 5. *)
Definition numeric_half_good_manifest : manifest_bytes :=
  JsonText (JArr [JObj [("filename"%string, JNum (5 # 1))]; JStr "oops"]).

(** A 3 by 2 warped raster, cut with tile edge 2 into two tiles; every
    pixel read is 0.15. *)
Definition flat_read (w : Window) : result block :=
  Ok (repeat (repeat (mkSample f32_0_15 false) (Z.to_nat (win_width w)))
             (Z.to_nat (win_height w))).

(** The same raster, unreadable in its second column of tiles. *)
Definition failing_read (w : Window) : result block :=
  if (col_off w =? 2)%Z then Raise RasterioIOError else flat_read w.

Definition small_vrt (read : Window -> result block) : VRT :=
  mkVRT 3 2
        (mkAffine (f64_of_int 150) f64_0 (f64_of_int (-1000))
                  f64_0 (f64_of_int (-150)) (f64_of_int 2000))
        InexactKind read.

(** A source raster that carries no CRS and no no-data value. *)
Definition nocrs_source : Source := mkSource None None.

Definition small_env (read : Window -> result block) : Env :=
  mkEnv (Ok nocrs_source) (fun _ _ _ => Ok (small_vrt read)) (fun _ _ => Ok tt).

(** A raster of the same size with an integer band; every pixel is 1. *)
Definition ones_read (w : Window) : result block :=
  Ok (repeat (repeat (mkSample f32_1 false) (Z.to_nat (win_width w)))
             (Z.to_nat (win_height w))).

Definition integer_vrt : VRT :=
  mkVRT 3 2
        (mkAffine (f64_of_int 150) f64_0 (f64_of_int (-1000))
                  f64_0 (f64_of_int (-150)) (f64_of_int 2000))
        IntegerKind ones_read.

Definition integer_env : Env :=
  mkEnv (Ok nocrs_source) (fun _ _ _ => Ok integer_vrt) (fun _ _ => Ok tt).

Definition small_job : Job := mkJob "msa" 2 (150 # 1) (Some "http://h/geo/"%string).

(** The floats 150.0, 150.1 and 20037508.342789244, the half width of the
    Web Mercator world in metres. *)
Definition f64_150 : f64 := S754_finite false 5277655813324800 (-45).
Definition f64_150_1 : f64 := S754_finite false 5281174250533683 (-45).
Definition mercator_origin : f64 := S754_finite false 5378777689100435 (-28).

(** A 2048 by 2048 north-up view of the Web Mercator world with square
    pixels of the given size. *)
Definition mercator_vrt (pixel : f64) : VRT :=
  mkVRT 2048 2048
        (mkAffine pixel f64_0 (SFopp mercator_origin)
                  f64_0 (SFopp pixel) mercator_origin)
        InexactKind flat_read.

Definition mercator_job : Job := mkJob "msa" 1024 (150 # 1) None.

Definition empty_dir : outdir := mkOutdir None [].

(** An output directory without manifest in which the first tile's image
    is already there. *)
Definition one_tile_dir : outdir :=
  mkOutdir None [("msa_3857_res150m_tile_y0000_x0000.png"%string, [])].

End Scenarios.
Export Scenarios.

(* ================================================================= *)
(** ** Notions used by the further properties *)

Module Notions.

(** Every character is a decimal digit. *)
Fixpoint all_digits (s : string) : Prop :=
  match s with
  | EmptyString => True
  | String c rest =>
      (exists u, uint_of_char c (Some Decimal.Nil) = Some u) /\ all_digits rest
  end.

(** The key under which the loading loop stores an entry, when it stores
    it: the entry is an object with a truthy, hashable ["filename"]. *)
Definition entry_key (e : json) : option pykey :=
  match e with
  | JObj fields =>
      match obj_get "filename" fields with
      | Some fn =>
          if truthy fn
          then match as_key fn with Ok k => Some k | Raise _ => None end
          else None
      | None => None
      end
  | _ => None
  end.

(** The last entry of a list that is stored under [k]. *)
Fixpoint last_under (k : pykey) (items : list json) : option json :=
  match items with
  | [] => None
  | e :: rest =>
      match last_under k rest with
      | Some e' => Some e'
      | None =>
          match entry_key e with
          | Some k' => if key_eqb k' k then Some e else None
          | None => None
          end
      end
  end.

(** Removing a file from the output directory. *)
Definition delete_file (name : string) (dir : outdir) : outdir :=
  mkOutdir (manifest_file dir)
           (filter (fun f => negb (String.eqb (fst f) name)) (tile_files dir)).

(** Thresholds are a positive zero or a positive finite number. *)
Definition nonneg_threshold (b : f32) : Prop :=
  match b with
  | S754_zero false | S754_finite false _ _ => True
  | _ => False
  end.

(** Whether a cell counts as no-data for the colour mapping. *)
Definition is_nodata (nodata : option cell) (c : cell) : bool :=
  match nodata with
  | Some nd => cell_eqb c nd || negb (cell_isfinite c)
  | None => negb (cell_isfinite c)
  end.

(** The colour of a land-use cell, as a table of the class codes. *)
Definition class_colour (nodata : option cell) (c : cell) : rgba :=
  if is_nodata nodata c then OCEAN
  else match c with
       | Fin q =>
           if Qeq_bool q (80 # 1) then SNOW
           else if Qeq_bool q (40 # 1) then URBAN
           else if Qeq_bool q (10 # 1) then (0, 69, 41, 255)%Z
           else if Qeq_bool q (70 # 1) then (0, 104, 55, 255)%Z
           else if Qeq_bool q (90 # 1) then (35, 132, 67, 255)%Z
           else if Qeq_bool q (100 # 1) then (65, 171, 93, 255)%Z
           else if Qeq_bool q (20 # 1) then (120, 198, 121, 255)%Z
           else if Qeq_bool q (30 # 1) then (173, 221, 142, 255)%Z
           else if Qeq_bool q (50 # 1) then (254, 224, 139, 255)%Z
           else OCEAN
       | _ => OCEAN
       end.

End Notions.
Export Notions.

(* ================================================================= *)
(** * Properties *)

Unset Implicit Arguments.

(* ----------------------------------------------------------------- *)
(** ** Classifier *)

Section ClassifierFacts.

Lemma ocean_color_parsed : hex_to_rgb "#1f78b4" = Ok ocean_color.
Proof. reflexivity. Qed.

Lemma palette_parsed : map_result hex_to_rgb hex_colors = Ok palette.
Proof. reflexivity. Qed.

Lemma palette_length : List.length palette = 10%nat.
Proof. reflexivity. Qed.

Lemma bins_are_float32 : forallb (valid_binary 24 128) bins = true.
Proof. reflexivity. Qed.

(** IEEE equality with a finite non-zero number is structural equality. *)
Lemma SFeqb_finite_eq (v : f32) (s : bool) (m : positive) (e : Z) :
  SFeqb v (S754_finite s m e) = true -> v = S754_finite s m e.
Proof.
  unfold SFeqb, SFcompare.
  destruct v as [s0 | s0 | | s0 m0 e0]; try (destruct s0; discriminate);
    try discriminate.
  - destruct s; discriminate.
  - destruct s0, s; try discriminate;
      destruct (Z.compare_spec e0 e) as [He | He | He]; try discriminate;
      subst e0;
      change (Pos.compare_cont Eq m0 m) with (Pos.compare m0 m);
      destruct (Pos.compare_spec m0 m) as [Hm | Hm | Hm]; simpl;
      try discriminate; subst; reflexivity.
Qed.

Lemma bucket_index_range (data : f32) : (0 <= bucket_index data <= 9)%Z.
Proof.
  unfold bucket_index, clip_int. rewrite palette_length.
  change (Z.of_nat 10 - 1)%Z with 9%Z. lia.
Qed.

(** A finite value below the significance threshold stays below it after
    clipping to [0, 1]. *)
Lemma clip_below_threshold (v : f32) :
  is_finite v = true ->
  SFltb v f32_0_001 = true ->
  SFltb (np_clip v f32_0 f32_1) f32_0_001 = true.
Proof.
  destruct v as [s | s | | s m e]; try discriminate; intros _ Hlt.
  - destruct s; reflexivity.
  - destruct s; [reflexivity |].
    unfold np_clip, np_maximum, np_minimum; simpl.
    destruct (SFltb f32_1 (S754_finite false m e)) eqn:H1; [| exact Hlt].
    exfalso. revert Hlt H1.
    unfold SFltb, SFcompare, f32_0_001, f32_1, f32_pos.
    destruct (Z.compare_spec e (-33)) as [He | He | He];
      destruct (Z.compare_spec (-23) e) as [He' | He' | He'];
      try discriminate; try lia.
Qed.

Lemma background_pixel (s : sample) :
  masked s = true \/ is_finite (value s) = false \/ SFltb (value s) f32_0_001 = true ->
  classify_pixel s = ocean_color.
Proof.
  unfold classify_pixel. intros [Hm | [Hf | Hlt]].
  - rewrite Hm. reflexivity.
  - destruct (masked s); [reflexivity |]. simpl. rewrite Hf. reflexivity.
  - destruct (masked s); [reflexivity |]. simpl.
    destruct (is_finite (value s)) eqn:Hf; [| reflexivity]. simpl.
    rewrite (clip_below_threshold (value s) Hf Hlt). reflexivity.
Qed.

Lemma classify_block_nth (data : block) (i j : nat) (row : list sample) (s : sample) :
  nth_error data i = Some row ->
  nth_error row j = Some s ->
  exists out_row,
    nth_error (classify_block data) i = Some out_row /\
    nth_error out_row j = Some (classify_pixel s).
Proof.
  intros Hi Hj. exists (map classify_pixel row). split.
  - unfold classify_block. now apply map_nth_error.
  - now apply map_nth_error.
Qed.

End ClassifierFacts.

(** C5. Classification bucketing and boundary convention: a valid value
    that compares equal to one of the nine interior thresholds of [bins]
    lies in the interval that starts at this threshold and gets the colour
    of that (higher) bucket; 0.15 falls into bucket 1 and 1.0 into the last
    bucket, 9; whatever the value, the index is clamped to 0..9. *)
Theorem C5_boundary_convention :
  (forall (k : nat) (v : f32),
      (1 <= k <= 9)%nat ->
      SFeqb v (nth k bins S754_nan) = true ->
      bucket_index (np_clip v f32_0 f32_1) = Z.of_nat k /\
      classify_pixel (mkSample v false) = nth k palette (0, 0, 0)%Z /\
      SFleb (nth k bins S754_nan) v = true /\
      SFltb v (nth (S k) bins S754_nan) = true) /\
  bucket_index (np_clip f32_0_15 f32_0 f32_1) = 1%Z /\
  classify_pixel (mkSample f32_0_15 false) = nth 1 palette (0, 0, 0)%Z /\
  SFleb (nth 1 bins S754_nan) f32_0_15 = true /\
  SFltb f32_0_15 (nth 2 bins S754_nan) = true /\
  bucket_index (np_clip f32_1 f32_0 f32_1) = 9%Z /\
  classify_pixel (mkSample f32_1 false) = nth 9 palette (0, 0, 0)%Z /\
  SFleb (nth 9 bins S754_nan) f32_1 = true /\
  SFltb f32_1 (nth 10 bins S754_nan) = true /\
  (forall v : f32, (0 <= bucket_index (np_clip v f32_0 f32_1) <= 9)%Z).
Proof.
  split; [| repeat split; try reflexivity; apply bucket_index_range].
  intros k v [Hlo Hhi] Heq.
  destruct k as [| [| [| [| [| [| [| [| [| [| k]]]]]]]]]]; try lia;
    apply SFeqb_finite_eq in Heq; subst v; repeat split; reflexivity.
Qed.

Lemma C5_boundary_convention_witness :
  bucket_index (np_clip (nth 3 bins S754_nan) f32_0 f32_1) = 3%Z /\
  classify_pixel (mkSample (nth 3 bins S754_nan) false) = (199, 233, 192)%Z.
Proof.
  destruct (proj1 C5_boundary_convention 3%nat (nth 3 bins S754_nan)) as (Hb & Hc & _).
  - lia.
  - reflexivity.
  - split; [exact Hb | exact Hc].
Defined.

(** C6. Background folding: a pixel that is masked (outside the source
    coverage or equal to the no-data value), non-finite, or below the
    significance threshold 0.001 is rendered in the ocean colour,
    whatever bucket its raw value would fall into; this holds in every
    position of a classified block, and classification is a total
    function, so NaN and infinities are handled without an error. *)
Theorem C6_background_folding :
  forall (data : block) (i j : nat) (row : list sample) (s : sample),
    nth_error data i = Some row ->
    nth_error row j = Some s ->
    masked s = true \/ is_finite (value s) = false \/ SFltb (value s) f32_0_001 = true ->
    classify_pixel s = ocean_color /\
    exists out_row,
      nth_error (classify_block data) i = Some out_row /\
      nth_error out_row j = Some ocean_color.
Proof.
  intros data i j row s Hi Hj Hbg.
  pose proof (background_pixel s Hbg) as Hpx. split; [exact Hpx |].
  destruct (classify_block_nth data i j row s Hi Hj) as (out_row & H1 & H2).
  exists out_row. rewrite <- Hpx. auto.
Qed.

Lemma C6_background_folding_witness :
  classify_pixel (mkSample (S754_infinity false) false) = (31, 120, 180)%Z.
Proof.
  apply (C6_background_folding
           [[mkSample f32_1 false; mkSample (S754_infinity false) false]] 0 1
           [mkSample f32_1 false; mkSample (S754_infinity false) false]
           (mkSample (S754_infinity false) false)).
  - reflexivity.
  - reflexivity.
  - right; left; reflexivity.
Defined.

(* ----------------------------------------------------------------- *)
(** ** Tile grid *)

Section GridFacts.

Local Open Scope Z_scope.

Lemma in_range (n z : Z) : In z (range n) <-> 0 <= z < n.
Proof.
  unfold range. rewrite in_map_iff. split.
  - intros (i & <- & Hi). apply in_seq in Hi. lia.
  - intros Hz. exists (Z.to_nat z). split; [lia |]. apply in_seq. lia.
Qed.

Lemma range_length (n : Z) : List.length (range n) = Z.to_nat n.
Proof. unfold range. now rewrite length_map, length_seq. Qed.

Lemma range_NoDup (n : Z) : NoDup (range n).
Proof.
  unfold range. apply Finite.Injective_map_NoDup; [| apply seq_NoDup].
  intros i j Hij. lia.
Qed.

Lemma in_tile_coords (ny nx ty tx : Z) :
  In (ty, tx) (tile_coords ny nx) <-> 0 <= ty < ny /\ 0 <= tx < nx.
Proof.
  unfold tile_coords. rewrite in_flat_map. split.
  - intros (y & Hy & Hin). apply in_map_iff in Hin.
    destruct Hin as (x & Heq & Hx). inversion Heq; subst.
    apply in_range in Hy. apply in_range in Hx. auto.
  - intros [Hy Hx]. exists ty. split; [now apply in_range |].
    apply in_map_iff. exists tx. split; [reflexivity | now apply in_range].
Qed.

Lemma tile_coords_length (ny nx : Z) :
  List.length (tile_coords ny nx) = (Z.to_nat ny * Z.to_nat nx)%nat.
Proof.
  unfold tile_coords.
  assert (Hgen : forall l : list Z,
             List.length (flat_map (fun ty => map (fun tx => (ty, tx)) (range nx)) l)
             = (List.length l * Z.to_nat nx)%nat).
  { induction l as [| y l IH]; simpl; [reflexivity |].
    now rewrite length_app, length_map, range_length, IH. }
  now rewrite Hgen, range_length.
Qed.

Lemma tile_coords_NoDup (ny nx : Z) : NoDup (tile_coords ny nx).
Proof.
  unfold tile_coords.
  assert (Hgen : forall l : list Z, NoDup l ->
             NoDup (flat_map (fun ty => map (fun tx => (ty, tx)) (range nx)) l)).
  { induction l as [| y l IH]; intros Hnd; simpl; [constructor |].
    inversion Hnd as [| ? ? Hy Hl]; subst.
    apply NoDup_app.
    - apply Finite.Injective_map_NoDup; [| apply range_NoDup].
      intros a b Hab. now inversion Hab.
    - now apply IH.
    - intros [ty tx] H1 H2. apply in_map_iff in H1.
      destruct H1 as (x & Heq & _). inversion Heq; subst.
      apply in_flat_map in H2. destruct H2 as (y' & Hy' & Hin).
      apply in_map_iff in Hin. destruct Hin as (x' & Heq' & _).
      inversion Heq'; subst. contradiction. }
  apply Hgen, range_NoDup.
Qed.

(** The integer expression of lines 96-97 is the ceiling of the fraction. *)
Lemma n_tiles_is_ceiling (size edge : Z) :
  1 <= edge -> n_tiles size edge = Ok (ceil_div size edge).
Proof.
  intros He. unfold n_tiles, floordiv, ceil_div, Qceiling, Qfloor.
  destruct (Z.eqb_spec edge 0) as [H0 | _]; [lia |]. f_equal. simpl.
  rewrite Z2Pos.id by lia.
  pose proof (Z.div_mod (- size) edge ltac:(lia)) as Hdm.
  pose proof (Z.mod_pos_bound (- size) edge ltac:(lia)) as Hb.
  symmetry. apply (Z.div_unique _ _ _ (size + edge - 1 + edge * (- size / edge))).
  - left. nia.
  - nia.
Qed.

Lemma ceil_div_bounds (size edge : Z) :
  1 <= edge ->
  (ceil_div size edge - 1) * edge < size <= ceil_div size edge * edge.
Proof.
  intros He.
  pose proof (n_tiles_is_ceiling size edge He) as Hn.
  unfold n_tiles, floordiv in Hn.
  destruct (Z.eqb_spec edge 0) as [H0 | _]; [lia |].
  injection Hn as Hq. rewrite <- Hq.
  pose proof (Z.div_mod (size + edge - 1) edge ltac:(lia)) as Hdm.
  pose proof (Z.mod_pos_bound (size + edge - 1) edge ltac:(lia)) as Hb.
  nia.
Qed.

(** Inside the grid the clipped extents are positive (lines 151-156). *)
Lemma window_extent_positive (size edge t : Z) :
  1 <= size -> 1 <= edge -> 0 <= t < ceil_div size edge ->
  1 <= Z.min edge (size - t * edge).
Proof.
  intros Hs He Ht. pose proof (ceil_div_bounds size edge He) as Hb. nia.
Qed.

Lemma tile_window_inside (W H E ty tx : Z) :
  1 <= W -> 1 <= H -> 1 <= E ->
  0 <= ty < ceil_div H E -> 0 <= tx < ceil_div W E ->
  tile_window W H E ty tx =
    Some (mkWindow (tx * E) (ty * E) (Z.min E (W - tx * E)) (Z.min E (H - ty * E))).
Proof.
  intros HW HH HE Hy Hx. unfold tile_window.
  pose proof (window_extent_positive W E tx HW HE Hx).
  pose proof (window_extent_positive H E ty HH HE Hy).
  destruct (Z.leb_spec (Z.min E (W - tx * E)) 0); [lia |].
  destruct (Z.leb_spec (Z.min E (H - ty * E)) 0); [lia |].
  reflexivity.
Qed.

End GridFacts.

(** C2. Tiling completeness: for a raster of width [W >= 1] and height
    [H >= 1] and a tile edge [E >= 1], the planner computes
    [ceil(W/E)] and [ceil(H/E)], enumerates exactly
    [ceil(W/E) * ceil(H/E)] distinct coordinates, gives tile (row, col) the
    window [(col*E, row*E, min(E, W - col*E), min(E, H - row*E))], and the
    windows cover [[0,W) x [0,H)] exactly, each pixel lying in the window of
    one tile only. *)
Theorem C2_tiling_completeness :
  forall W H E : Z,
    (1 <= W)%Z -> (1 <= H)%Z -> (1 <= E)%Z ->
    let nx := ceil_div W E in
    let ny := ceil_div H E in
    let coords := tile_coords ny nx in
    n_tiles W E = Ok nx /\
    n_tiles H E = Ok ny /\
    List.length coords = Z.to_nat (nx * ny) /\
    NoDup coords /\
    (forall ty tx, In (ty, tx) coords ->
       tile_window W H E ty tx =
         Some (mkWindow (tx * E) (ty * E)
                        (Z.min E (W - tx * E)) (Z.min E (H - ty * E)))) /\
    (forall x y,
       (0 <= x < W /\ 0 <= y < H)%Z <->
       exists ty tx win,
         In (ty, tx) coords /\ tile_window W H E ty tx = Some win /\
         in_window win x y) /\
    (forall ty tx ty' tx' win win' x y,
       In (ty, tx) coords -> In (ty', tx') coords ->
       tile_window W H E ty tx = Some win ->
       tile_window W H E ty' tx' = Some win' ->
       in_window win x y -> in_window win' x y ->
       (ty, tx) = (ty', tx')).
Proof.
  intros W H E HW HH HE nx ny coords.
  pose proof (ceil_div_bounds W E HE) as HbW.
  pose proof (ceil_div_bounds H E HE) as HbH.
  fold nx in HbW. fold ny in HbH.
  assert (Hwin : forall ty tx, In (ty, tx) coords ->
            tile_window W H E ty tx =
              Some (mkWindow (tx * E) (ty * E)
                             (Z.min E (W - tx * E)) (Z.min E (H - ty * E)))).
  { intros ty tx Hin. apply in_tile_coords in Hin.
    now apply tile_window_inside. }
  split; [now apply n_tiles_is_ceiling |].
  split; [now apply n_tiles_is_ceiling |].
  split; [unfold coords; rewrite tile_coords_length; lia |].
  split; [apply tile_coords_NoDup |].
  split; [exact Hwin |]. split.
  - intros x y. split.
    + intros [Hx Hy].
      exists (y / E)%Z, (x / E)%Z.
      pose proof (Z.div_mod x E ltac:(lia)) as Hdx.
      pose proof (Z.mod_pos_bound x E ltac:(lia)) as Hmx.
      pose proof (Z.div_mod y E ltac:(lia)) as Hdy.
      pose proof (Z.mod_pos_bound y E ltac:(lia)) as Hmy.
      assert (Hin : In ((y / E)%Z, (x / E)%Z) coords).
      { apply in_tile_coords. split.
        - split; [apply Z.div_pos; lia |].
          apply Z.div_lt_upper_bound; lia.
        - split; [apply Z.div_pos; lia |].
          apply Z.div_lt_upper_bound; lia. }
      eexists. split; [exact Hin |]. split; [apply (Hwin _ _ Hin) |].
      unfold in_window; simpl. lia.
    + intros (ty & tx & win & Hin & Hw & [Hc Hr]).
      rewrite (Hwin _ _ Hin) in Hw. injection Hw as <-. simpl in Hc, Hr.
      apply in_tile_coords in Hin. split; nia.
  - intros ty tx ty' tx' win win' x y Hin Hin' Hw Hw' [Hc Hr] [Hc' Hr'].
    rewrite (Hwin _ _ Hin) in Hw. injection Hw as <-.
    rewrite (Hwin _ _ Hin') in Hw'. injection Hw' as <-.
    simpl in *.
    assert (tx = tx') by nia. assert (ty = ty') by nia. congruence.
Qed.

Lemma C2_tiling_completeness_witness :
  n_tiles 5 2 = Ok 3%Z /\ List.length (tile_coords 2 3) = 6%nat.
Proof.
  destruct (C2_tiling_completeness 5%Z 3%Z 2%Z) as (Hx & _ & Hlen & _); try lia.
  split; [exact Hx | exact Hlen].
Defined.

(** The scenario of C4 as it is worded: a 2048 wide, 1024 high raster with
    edge 1024 would have the four tiles (0,0), (0,1), (1,0), (1,1) and tile
    (1,1) the unclipped window (1024, 1024, 1024, 1024).  The grid has one
    row only, and the loop would skip tile (1,1) had it been visited. *)
Lemma C4_counterexample :
  ~ (exists nx ny,
       n_tiles 2048 1024 = Ok nx /\ n_tiles 1024 1024 = Ok ny /\
       tile_coords ny nx = [(0, 0); (0, 1); (1, 0); (1, 1)]%Z /\
       tile_window 2048 1024 1024 1 1 = Some (mkWindow 1024 1024 1024 1024)).
Proof.
  intros (nx & ny & _ & _ & _ & Hwin). vm_compute in Hwin. discriminate.
Qed.

(** C4 (amended). Concrete tiling scenario: a 2048 wide, 1024 high raster
    with edge 1024 yields the tiles (0,0), (0,1) only; a 2048 by 2048
    raster yields (0,0), (0,1), (1,0), (1,1) and the window of (1,1) is
    (1024, 1024, 1024, 1024), unclipped.  The bounding box recorded in the
    descriptor of tile (1,1) is, when the window transform is north-up, the
    origin of the window transform (west, north) and that origin plus 1024
    pixel widths and heights (east, south), each operation rounded to
    binary64.  For the Web Mercator world at 150 m per pixel this is
    exactly the transform of the raster applied to the pixel corners
    (1024,1024) and (2048,2048); at 150.1 m per pixel it differs from that
    in the last binary place. *)
Theorem C4_concrete_scenario :
  (exists nx ny,
     n_tiles 2048 1024 = Ok nx /\ n_tiles 1024 1024 = Ok ny /\
     tile_coords ny nx = [(0, 0); (0, 1)]%Z) /\
  (exists nx ny,
     n_tiles 2048 1024 = Ok nx /\ n_tiles 2048 1024 = Ok ny /\
     tile_coords ny nx = [(0, 0); (0, 1); (1, 0); (1, 1)]%Z) /\
  tile_window 2048 2048 1024 1 1 = Some (mkWindow 1024 1024 1024 1024) /\
  (forall (job : Job) (vrt : VRT),
      let win := mkWindow 1024 1024 1024 1024 in
      let wt := window_transform (vrt_transform vrt) win in
      let name := tile_name (in_stem job) (target_res job) 1 1 in
      SFeqb (af_b wt) (af_d wt) = true -> SFeqb (af_d wt) f64_0 = true ->
      tile_entry job vrt 1 1 win
      = (name,
         make_entry name (tile_url (base_url job) name)
           (Q_of_f64 (af_c wt),
            Q_of_f64 (f64_add (af_f wt) (f64_mul (af_e wt) (f64_of_int 1024))),
            Q_of_f64 (f64_add (af_c wt) (f64_mul (af_a wt) (f64_of_int 1024))),
            Q_of_f64 (af_f wt)))) /\
  (let t := vrt_transform (mercator_vrt f64_150) in
   let name := tile_name "msa" (150 # 1) 1 1 in
   snd (tile_entry mercator_job (mercator_vrt f64_150) 1 1
                   (mkWindow 1024 1024 1024 1024))
   = make_entry name name
       (Q_of_f64 (fst (apply t (f64_of_int 1024) (f64_of_int 1024))),
        Q_of_f64 (snd (apply t (f64_of_int 2048) (f64_of_int 2048))),
        Q_of_f64 (fst (apply t (f64_of_int 2048) (f64_of_int 2048))),
        Q_of_f64 (snd (apply t (f64_of_int 1024) (f64_of_int 1024))))) /\
  (let t := vrt_transform (mercator_vrt f64_150_1) in
   let name := tile_name "msa" (150 # 1) 1 1 in
   snd (tile_entry mercator_job (mercator_vrt f64_150_1) 1 1
                   (mkWindow 1024 1024 1024 1024))
   = make_entry name name
       (-5337518515268141 # 268435456, 5296259341435847 # 268435456,
        -5296259341435847 # 268435456, 5337518515268141 # 268435456) /\
   Q_of_f64 (fst (apply t (f64_of_int 1024) (f64_of_int 1024)))
     = -5337518515268141 # 268435456 /\
   Q_of_f64 (snd (apply t (f64_of_int 1024) (f64_of_int 1024)))
     = 5337518515268141 # 268435456 /\
   Q_of_f64 (fst (apply t (f64_of_int 2048) (f64_of_int 2048)))
     = -2648129670717923 # 134217728 /\
   Q_of_f64 (snd (apply t (f64_of_int 2048) (f64_of_int 2048)))
     = 2648129670717923 # 134217728).
Proof.
  split; [exists 2%Z, 1%Z; repeat split; reflexivity |].
  split; [exists 2%Z, 2%Z; repeat split; reflexivity |].
  split; [reflexivity |].
  split; [| split].
  - intros job vrt win wt name Hbd Hd0. unfold tile_entry. fold name.
    change (window_transform (vrt_transform vrt) win) with wt.
    unfold array_bounds. change (f64_of_int 0) with f64_0.
    rewrite Hbd, Hd0. reflexivity.
  - vm_compute. reflexivity.
  - vm_compute. repeat split; reflexivity.
Qed.

Lemma C4_concrete_scenario_witness :
  tile_entry mercator_job (mercator_vrt f64_150) 1 1 (mkWindow 1024 1024 1024 1024)
  = ("msa_3857_res150m_tile_y0001_x0001.png"%string,
     make_entry "msa_3857_res150m_tile_y0001_x0001.png"
                "msa_3857_res150m_tile_y0001_x0001.png"
                (-5337546003058835 # 268435456, 5296314317017235 # 268435456,
                 -5296314317017235 # 268435456, 5337546003058835 # 268435456)).
Proof.
  destruct C4_concrete_scenario as (_ & _ & _ & Hbox & _).
  rewrite (Hbox mercator_job (mercator_vrt f64_150) eq_refl eq_refl).
  vm_compute. reflexivity.
Defined.


(* ----------------------------------------------------------------- *)
(** ** Dict and manifest store *)

Section DictFacts.

Lemma Q_eqb_eq (p q : Q) : Q_eqb p q = true <-> p = q.
Proof.
  unfold Q_eqb. destruct p as [pn pd], q as [qn qd]; simpl.
  rewrite andb_true_iff, Z.eqb_eq, Pos.eqb_eq. split.
  - intros [-> ->]. reflexivity.
  - intros Heq. inversion Heq. auto.
Qed.

Lemma key_eqb_eq (a b : pykey) : key_eqb a b = true <-> a = b.
Proof.
  destruct a as [| s | p], b as [| t | q]; simpl;
    try (split; [discriminate | intros Heq; discriminate Heq]).
  - split; reflexivity.
  - rewrite String.eqb_eq. split; [intros -> | intros Heq; inversion Heq]; reflexivity.
  - rewrite Q_eqb_eq. split; [intros -> | intros Heq; inversion Heq]; reflexivity.
Qed.

Lemma key_eqb_refl (a : pykey) : key_eqb a a = true.
Proof. now apply key_eqb_eq. Qed.

Lemma key_eqb_neq (a b : pykey) : key_eqb a b = false <-> a <> b.
Proof.
  destruct (key_eqb a b) eqn:Hab.
  - apply key_eqb_eq in Hab. split; [discriminate | contradiction].
  - split; [| reflexivity]. intros _ Heq. apply key_eqb_eq in Heq. congruence.
Qed.

Lemma dict_get_set_same (k : pykey) (v : json) (d : pydict) :
  dict_get k (dict_set k v d) = Some v.
Proof.
  induction d as [| [k' v'] d IH]; simpl.
  - now rewrite key_eqb_refl.
  - destruct (key_eqb k' k) eqn:Hk; simpl; rewrite Hk; [reflexivity | exact IH].
Qed.

Lemma dict_get_set_other (k k' : pykey) (v : json) (d : pydict) :
  k <> k' -> dict_get k' (dict_set k v d) = dict_get k' d.
Proof.
  intros Hne. induction d as [| [k0 v0] d IH]; simpl.
  - apply key_eqb_neq in Hne. now rewrite Hne.
  - destruct (key_eqb k0 k) eqn:Hk; simpl.
    + apply key_eqb_eq in Hk. subst k0.
      apply key_eqb_neq in Hne. now rewrite Hne.
    + now rewrite IH.
Qed.

Lemma dict_set_keys_present (k : pykey) (v : json) (d : pydict) :
  In k (dict_keys d) -> dict_keys (dict_set k v d) = dict_keys d.
Proof.
  induction d as [| [k0 v0] d IH]; simpl; [contradiction |].
  intros [Heq | Hin].
  - subst k0. now rewrite key_eqb_refl.
  - destruct (key_eqb k0 k); simpl; [reflexivity |]. now rewrite IH.
Qed.

Lemma dict_set_absent (k : pykey) (v : json) (d : pydict) :
  ~ In k (dict_keys d) -> dict_set k v d = d ++ [(k, v)].
Proof.
  induction d as [| [k0 v0] d IH]; simpl; [reflexivity |].
  intros Hnin. destruct (key_eqb k0 k) eqn:Hk.
  - apply key_eqb_eq in Hk. tauto.
  - rewrite IH by tauto. reflexivity.
Qed.

Lemma dict_get_none (k : pykey) (d : pydict) :
  dict_get k d = None <-> ~ In k (dict_keys d).
Proof.
  induction d as [| [k0 v0] d IH]; simpl; [tauto |].
  destruct (key_eqb k0 k) eqn:Hk.
  - apply key_eqb_eq in Hk. split; [discriminate | tauto].
  - apply key_eqb_neq in Hk. rewrite IH. tauto.
Qed.

Lemma dict_get_in (k : pykey) (v : json) (d : pydict) :
  dict_get k d = Some v -> In (k, v) d.
Proof.
  induction d as [| [k0 v0] d IH]; simpl; [discriminate |].
  destruct (key_eqb k0 k) eqn:Hk.
  - apply key_eqb_eq in Hk. intros Heq. injection Heq as ->. subst. now left.
  - auto.
Qed.

Lemma dict_in_get (k : pykey) (v : json) (d : pydict) :
  NoDup (dict_keys d) -> In (k, v) d -> dict_get k d = Some v.
Proof.
  induction d as [| [k0 v0] d IH]; simpl; [contradiction |].
  intros Hnd [Heq | Hin].
  - injection Heq as -> ->. now rewrite key_eqb_refl.
  - inversion Hnd as [| ? ? Hk0 Hd]; subst.
    destruct (key_eqb k0 k) eqn:Hk; [| auto].
    apply key_eqb_eq in Hk. subst k0. exfalso. apply Hk0.
    unfold dict_keys. change k with (fst (k, v)). now apply in_map.
Qed.

Lemma dict_get_some_key (k : pykey) (v : json) (d : pydict) :
  dict_get k d = Some v -> In k (dict_keys d).
Proof.
  intros Hget. apply dict_get_in in Hget.
  unfold dict_keys. change k with (fst (k, v)). now apply in_map.
Qed.

Lemma dict_set_keys_NoDup (k : pykey) (v : json) (d : pydict) :
  NoDup (dict_keys d) -> NoDup (dict_keys (dict_set k v d)).
Proof.
  intros Hnd. destruct (dict_get k d) as [v0 |] eqn:Hget.
  - apply dict_get_some_key in Hget. now rewrite dict_set_keys_present.
  - apply dict_get_none in Hget. rewrite dict_set_absent by assumption.
    unfold dict_keys. rewrite map_app. simpl.
    apply NoDup_app; [exact Hnd | repeat constructor; intros [] |].
    intros a Ha [<- | []]. contradiction.
Qed.

(** Two dicts with the same distinct keys in the same order and the same
    value under each key are the same dict. *)
Lemma dict_ext (d d' : pydict) :
  NoDup (dict_keys d) ->
  dict_keys d = dict_keys d' ->
  (forall k, dict_get k d = dict_get k d') ->
  d = d'.
Proof.
  revert d'. induction d as [| [k v] d IH]; intros [| [k' v'] d'] Hnd Hkeys Hget;
    simpl in Hkeys; try discriminate; [reflexivity |].
  injection Hkeys as <- Hkeys.
  inversion Hnd as [| ? ? Hk Hd]; subst.
  pose proof (Hget k) as Hk0. simpl in Hk0. rewrite key_eqb_refl in Hk0.
  injection Hk0 as <-. f_equal. apply IH; [assumption | assumption |].
  intros k0. pose proof (Hget k0) as Hk0. simpl in Hk0.
  destruct (key_eqb k k0) eqn:Heq; [| exact Hk0].
  apply key_eqb_eq in Heq. subst k0.
  assert (H1 : dict_get k d = None) by now apply dict_get_none.
  assert (H2 : dict_get k d' = None).
  { apply dict_get_none. unfold dict_keys in *. now rewrite <- Hkeys. }
  now rewrite H1, H2.
Qed.

End DictFacts.

Section ManifestFacts.

Lemma keyed_by_load (k : pykey) (e : json) (d : pydict) :
  keyed_by k e -> load_entry e d = Ok (dict_set k e d).
Proof.
  intros (fields & fn & -> & Hget & Htruthy & Hkey).
  unfold load_entry. rewrite Hget, Htruthy, Hkey. reflexivity.
Qed.

Lemma keyed_by_sort_key (k : pykey) (e : json) :
  keyed_by k e -> sort_key e = Ok k.
Proof.
  intros (fields & fn & -> & Hget & _ & Hkey).
  unfold sort_key. now rewrite Hget.
Qed.

Lemma keyed_by_unique (k k' : pykey) (e : json) :
  keyed_by k e -> keyed_by k' e -> k = k'.
Proof.
  intros H H'. apply keyed_by_sort_key in H. apply keyed_by_sort_key in H'.
  congruence.
Qed.

Lemma load_entry_cases (e : json) (d d' : pydict) :
  load_entry e d = Ok d' ->
  d' = d \/ exists k, keyed_by k e /\ d' = dict_set k e d.
Proof.
  unfold load_entry. destruct e as [| b | q | s | items | fields]; try discriminate.
  destruct (obj_get "filename" fields) as [fn |] eqn:Hget; simpl.
  - destruct (truthy fn) eqn:Htruthy.
    + destruct (as_key fn) as [k | ex] eqn:Hkey; simpl; [| discriminate].
      intros Heq. injection Heq as <-. right. exists k. split; [| reflexivity].
      exists fields, fn. auto.
    + intros Heq. injection Heq as <-. now left.
  - intros Heq. injection Heq as <-. now left.
Qed.

Lemma make_entry_keyed (name url : string) (bbox : Q * Q * Q * Q) :
  name <> ""%string -> keyed_by (KStr name) (make_entry name url bbox).
Proof.
  intros Hne. destruct bbox as [[[west south] east] north].
  eexists _, (JStr name). split; [reflexivity |]. split; [reflexivity |].
  split; [| reflexivity]. simpl. apply String.eqb_neq in Hne. now rewrite Hne.
Qed.

Lemma tile_name_nonempty (stem : string) (res : Q) (ty tx : Z) :
  tile_name stem res ty tx <> ""%string.
Proof. unfold tile_name. destruct stem; discriminate. Qed.

Lemma wf_dict_nil : wf_dict [].
Proof. split; constructor. Qed.

Lemma wf_dict_set (k : pykey) (e : json) (d : pydict) :
  wf_dict d -> keyed_by k e -> wf_dict (dict_set k e d).
Proof.
  intros [Hnd Hall] Hk. split; [now apply dict_set_keys_NoDup |].
  clear Hnd. induction d as [| [k0 v0] d IH]; simpl.
  - repeat constructor. exact Hk.
  - inversion Hall as [| ? ? H0 Hd]; subst.
    destruct (key_eqb k0 k) eqn:Heq.
    + apply key_eqb_eq in Heq. subst k0. constructor; assumption.
    + constructor; [assumption | now apply IH].
Qed.

Lemma load_entries_wf (items : list json) (d : pydict) :
  wf_dict d -> wf_dict (fst (load_entries items d)).
Proof.
  revert d. induction items as [| e items IH]; intros d Hwf; simpl; [exact Hwf |].
  destruct (load_entry e d) as [d' | ex] eqn:Hload; [| exact Hwf].
  apply IH. destruct (load_entry_cases _ _ _ Hload) as [-> | (k & Hk & ->)];
    [exact Hwf | now apply wf_dict_set].
Qed.

Lemma load_manifest_wf (file : option manifest_bytes) :
  wf_dict (fst (load_manifest file)).
Proof.
  destruct file as [[| doc] |]; simpl; try apply wf_dict_nil.
  destruct (iter_items doc) as [items | ex]; simpl; [| apply wf_dict_nil].
  pose proof (load_entries_wf items [] wf_dict_nil) as Hwf.
  destruct (load_entries items []) as [d [ex |]]; exact Hwf.
Qed.

Lemma keyed_values (d : pydict) :
  Forall (fun kv => keyed_by (fst kv) (snd kv)) d -> keyed (dict_values d) = Ok d.
Proof.
  induction d as [| [k v] d IH]; intros Hall; [reflexivity |].
  inversion Hall as [| ? ? Hk Hd]; subst. simpl in Hk.
  change (keyed (dict_values ((k, v) :: d)))
    with (rbind (sort_key v) (fun k0 =>
          rbind (keyed (dict_values d)) (fun r => Ok ((k0, v) :: r)))).
  rewrite (keyed_by_sort_key k v Hk), (IH Hd). reflexivity.
Qed.

Lemma key_lt_asym (a b : pykey) :
  key_lt a b = Ok true -> key_lt b a = Ok false.
Proof.
  destruct a as [| s | p], b as [| t | q]; simpl; try discriminate; intros Hlt;
    injection Hlt as Hlt; f_equal.
  - unfold String.ltb in *. rewrite String.compare_antisym.
    destruct (String.compare s t); simpl; try discriminate; reflexivity.
  - apply Z.ltb_lt in Hlt. apply Z.ltb_ge. lia.
Qed.

Lemma insert_by_key_perm (x : pykey * json) (l r : list (pykey * json)) :
  insert_by_key x l = Ok r -> Permutation (x :: l) r.
Proof.
  revert r. induction l as [| y l IH]; intros r; simpl.
  - intros Heq. injection Heq as <-. reflexivity.
  - destruct (key_lt (fst y) (fst x)) as [[|] | ex]; simpl; try discriminate.
    + destruct (insert_by_key x l) as [r' | ex]; simpl; [| discriminate].
      intros Heq. injection Heq as <-.
      rewrite perm_swap. constructor. now apply IH.
    + intros Heq. injection Heq as <-. reflexivity.
Qed.

Lemma sort_pairs_perm (l r : list (pykey * json)) :
  sort_pairs l = Ok r -> Permutation l r.
Proof.
  revert r. induction l as [| x l IH]; intros r; simpl.
  - intros Heq. injection Heq as <-. reflexivity.
  - destruct (sort_pairs l) as [s | ex]; simpl; [| discriminate].
    intros Hins. apply insert_by_key_perm in Hins.
    rewrite <- Hins. constructor. now apply IH.
Qed.

Lemma insert_by_key_head (x : pykey * json) (l r : list (pykey * json)) :
  insert_by_key x l = Ok r ->
  (exists t, r = x :: t) \/ (exists z t t', l = z :: t /\ r = z :: t').
Proof.
  destruct l as [| y l]; simpl.
  - intros Heq. injection Heq as <-. left. now exists [].
  - destruct (key_lt (fst y) (fst x)) as [[|] | ex]; simpl; try discriminate.
    + destruct (insert_by_key x l) as [r' | ex]; simpl; [| discriminate].
      intros Heq. injection Heq as <-. right. now exists y, l, r'.
    + intros Heq. injection Heq as <-. left. now exists (y :: l).
Qed.

Lemma insert_by_key_sorted (x : pykey * json) (l r : list (pykey * json)) :
  key_sorted l -> insert_by_key x l = Ok r -> key_sorted r.
Proof.
  revert r. induction l as [| y l IH]; intros r Hs; simpl.
  - intros Heq. injection Heq as <-. simpl. auto.
  - destruct (key_lt (fst y) (fst x)) as [[|] | ex] eqn:Hlt; simpl; try discriminate.
    + destruct (insert_by_key x l) as [r' | ex] eqn:Hins; simpl; [| discriminate].
      intros Heq. injection Heq as <-.
      destruct Hs as [Hhead Hs].
      pose proof (IH _ Hs eq_refl) as Hr'.
      split; [| exact Hr'].
      destruct (insert_by_key_head _ _ _ Hins) as [(t & ->) | (z & t & t' & -> & ->)].
      * now apply key_lt_asym.
      * exact Hhead.
    + intros Heq. injection Heq as <-. split; [exact Hlt | exact Hs].
Qed.

Lemma sort_pairs_sorted (l r : list (pykey * json)) :
  sort_pairs l = Ok r -> key_sorted r.
Proof.
  revert r. induction l as [| x l IH]; intros r; simpl.
  - intros Heq. injection Heq as <-. exact I.
  - destruct (sort_pairs l) as [s | ex]; simpl; [| discriminate].
    apply insert_by_key_sorted. now apply IH.
Qed.

(** Sorting a sorted list changes nothing. *)
Lemma sort_pairs_sorted_id (l : list (pykey * json)) :
  key_sorted l -> sort_pairs l = Ok l.
Proof.
  induction l as [| x l IH]; simpl; [reflexivity |].
  intros [Hhead Hs]. rewrite (IH Hs). simpl.
  destruct l as [| y l]; simpl; [reflexivity |]. now rewrite Hhead.
Qed.

(** Sorting the values of a well-formed dict: a sorted rearrangement of
    its items. *)
Lemma sort_by_filename_wf (d : pydict) (L : list json) :
  wf_dict d ->
  sort_by_filename (dict_values d) = Ok L ->
  exists s, sort_pairs d = Ok s /\ L = map snd s /\ Permutation d s /\ key_sorted s.
Proof.
  intros [_ Hall]. unfold sort_by_filename. rewrite (keyed_values d Hall). simpl.
  destruct (sort_pairs d) as [s | ex] eqn:Hs; simpl; [| discriminate].
  intros Heq. injection Heq as <-. exists s.
  split; [reflexivity |]. split; [reflexivity |].
  split; [now apply sort_pairs_perm | now apply (sort_pairs_sorted d)].
Qed.

(** Loading the entries of a dict with distinct keys rebuilds the dict. *)
Lemma load_entries_rebuild (s d0 : pydict) :
  NoDup (dict_keys (d0 ++ s)) ->
  Forall (fun kv => keyed_by (fst kv) (snd kv)) s ->
  load_entries (dict_values s) d0 = (d0 ++ s, None).
Proof.
  revert d0. induction s as [| [k v] s IH]; intros d0 Hnd Hall; simpl.
  - now rewrite app_nil_r.
  - inversion Hall as [| ? ? Hk Hs]; subst. simpl in Hk.
    rewrite (keyed_by_load k v d0 Hk).
    assert (Hnin : ~ In k (dict_keys d0)).
    { unfold dict_keys in *. rewrite map_app in Hnd. simpl in Hnd.
      apply NoDup_remove_2 in Hnd. intros Hin. apply Hnd. apply in_or_app. now left. }
    rewrite (dict_set_absent k v d0 Hnin).
    replace (d0 ++ (k, v) :: s) with ((d0 ++ [(k, v)]) ++ s)
      by now rewrite <- app_assoc.
    apply IH; [| exact Hs]. now rewrite <- app_assoc.
Qed.

End ManifestFacts.

(** C7. Manifest key uniqueness and sorted persistence: after two upserts
    under the same filename the persisted manifest holds exactly one entry
    with that filename, the later one; the persisted document is the list
    of all values of the mapping, each filename once, in filename order,
    and it replaces whatever the manifest file held before. *)
Theorem C7_manifest_key_uniqueness :
  forall (d : pydict) (k : pykey) (e1 e2 : json) (L : list json)
         (dir : outdir) (out : list event),
    wf_dict d -> keyed_by k e1 -> keyed_by k e2 ->
    sort_by_filename (dict_values (dict_set k e2 (dict_set k e1 d))) = Ok L ->
    In e2 L /\
    (forall e, In e L -> sort_key e = Ok k -> e = e2) /\
    (e1 <> e2 -> ~ In e1 L) /\
    NoDup (map sort_key L) /\
    Permutation (dict_values (dict_set k e2 (dict_set k e1 d))) L /\
    filename_sorted L /\
    persist (dict_set k e2 (dict_set k e1 d)) (dir, out)
      = (Ok tt, (mkOutdir (Some (JsonText (JArr L))) (tile_files dir), out)).
Proof.
  intros d k e1 e2 L dir out Hwf Hk1 Hk2 Hsort.
  set (d' := dict_set k e2 (dict_set k e1 d)) in *.
  assert (Hwf' : wf_dict d') by (apply wf_dict_set; [apply wf_dict_set |]; assumption).
  destruct (sort_by_filename_wf d' _ Hwf' Hsort) as (s & Hs & -> & Hperm & Hsorted).
  destruct Hwf' as [Hnd Hall].
  assert (Halls : Forall (fun kv => keyed_by (fst kv) (snd kv)) s).
  { rewrite Forall_forall in *. intros kv Hin. apply Hall.
    now apply (Permutation_in _ (Permutation_sym Hperm)). }
  assert (Hone : forall e, In e (map snd s) -> sort_key e = Ok k -> e = e2).
  { intros e Hin Hkey. apply in_map_iff in Hin. destruct Hin as ([k0 e0] & <- & Hin).
    simpl in *. rewrite Forall_forall in Halls. pose proof (Halls _ Hin) as Hk0.
    simpl in Hk0. apply keyed_by_sort_key in Hk0.
    assert (k0 = k) by congruence. subst k0.
    apply (Permutation_in _ (Permutation_sym Hperm)) in Hin.
    apply (dict_in_get _ _ _ Hnd) in Hin.
    unfold d' in Hin. rewrite dict_get_set_same in Hin. congruence. }
  split; [| split; [exact Hone | split; [| split; [| split; [| split]]]]].
  - apply in_map_iff. exists (k, e2). split; [reflexivity |].
    apply (Permutation_in _ Hperm). apply dict_get_in. apply dict_get_set_same.
  - intros Hne Hin. apply Hne. apply Hone; [exact Hin | now apply keyed_by_sort_key].
  - assert (Hmap : map sort_key (map snd s) = map (@Ok pykey) (map fst s)).
    { clear - Halls. induction s as [| [k0 e0] s IH]; simpl; [reflexivity |].
      inversion Halls as [| ? ? H0 Hs]; subst. simpl in H0.
      now rewrite (keyed_by_sort_key _ _ H0), (IH Hs). }
    rewrite Hmap. apply Finite.Injective_map_NoDup; [intros a b Hab; congruence |].
    apply (Permutation_NoDup (l := dict_keys d')); [| exact Hnd].
    unfold dict_keys. now apply Permutation_map.
  - unfold dict_values. now apply Permutation_map.
  - exists s. split; [now apply (keyed_values s) | exact Hsorted].
  - unfold persist, bind, lift, write_manifest. rewrite Hsort. reflexivity.
Qed.

Lemma C7_manifest_key_uniqueness_witness :
  let e1 := make_entry "t.png" "t.png" (0, 0, 1, 1) in
  let e2 := make_entry "t.png" "t.png" (0, 0, 2, 2) in
  let other := make_entry "a.png" "a.png" (0, 0, 1, 1) in
  persist (dict_set (KStr "t.png") e2 (dict_set (KStr "t.png") e1
             [(KStr "t.png", e1); (KStr "a.png", other)]))
          (mkOutdir (Some NotJson) [], [])
  = (Ok tt, (mkOutdir (Some (JsonText (JArr [other; e2]))) [], [])).
Proof.
  intros e1 e2 other.
  apply (C7_manifest_key_uniqueness
           [(KStr "t.png", e1); (KStr "a.png", other)] (KStr "t.png") e1 e2
           [other; e2] (mkOutdir (Some NotJson) []) []).
  - split.
    + repeat constructor; simpl; intuition discriminate.
    + repeat constructor; simpl; eexists _, _; repeat split; reflexivity.
  - eexists _, _; repeat split; reflexivity.
  - eexists _, _; repeat split; reflexivity.
  - reflexivity.
Defined.

Lemma load_entries_stops (good rest : list json) (bad : json)
      (d0 dg : pydict) (e : exn) :
  load_entries good d0 = (dg, None) ->
  load_entry bad dg = Raise e ->
  load_entries (good ++ bad :: rest) d0 = (dg, Some e).
Proof.
  revert d0. induction good as [| g good IH]; intros d0; simpl.
  - intros Heq Hbad. injection Heq as <-. now rewrite Hbad.
  - destruct (load_entry g d0) as [d1 | ex]; [| discriminate]. apply IH.
Qed.

(** C8 (code defect). Manifest load tolerance.  A missing manifest gives
    the empty mapping and no warning.  A manifest that cannot be decoded,
    whose document cannot be iterated, or whose document (a list, a
    non-empty object or a non-empty string) is malformed at its first
    element gives a warning and the empty mapping, and the load step always
    returns normally and leaves the output directory, tile images included,
    as it was.  But the loading loop fills the mapping in place inside the
    [try]: a document that is malformed at a later element gives the
    warning and the mapping of the entries read before that element, not
    the empty mapping.  The entry kept from
    [[{"filename": "a.png"}, "oops"]] is persisted by the run, and the
    entry kept from [[{"filename": 5}, "oops"]] makes the run stop with
    [TypeError] in the final sort, after the tiles were written. *)
Theorem C8_manifest_load_tolerance :
  load_manifest None = ([], []) /\
  load_manifest (Some NotJson) = ([], [WarnManifest JSONDecodeError]) /\
  (forall doc e,
      iter_items doc = Raise e ->
      load_manifest (Some (JsonText doc)) = ([], [WarnManifest e])) /\
  (forall doc bad rest e,
      iter_items doc = Ok (bad :: rest) ->
      load_entry bad [] = Raise e ->
      load_manifest (Some (JsonText doc)) = ([], [WarnManifest e])) /\
  (forall field fields,
      load_manifest (Some (JsonText (JObj (field :: fields))))
      = ([], [WarnManifest AttributeError])) /\
  (forall c s,
      load_manifest (Some (JsonText (JStr (String c s))))
      = ([], [WarnManifest AttributeError])) /\
  (forall (dir : outdir) (out : list event),
      load_step (dir, out)
        = (Ok (fst (load_manifest (manifest_file dir))),
           (dir, out ++ snd (load_manifest (manifest_file dir))))) /\
  (forall doc good bad rest dg e,
      iter_items doc = Ok (good ++ bad :: rest) ->
      load_entries good [] = (dg, None) ->
      load_entry bad dg = Raise e ->
      load_manifest (Some (JsonText doc)) = (dg, [WarnManifest e])) /\
  load_manifest (Some half_good_manifest)
    = ([(KStr "a.png", JObj [("filename"%string, JStr "a.png")])],
       [WarnManifest AttributeError]) /\
  (exists dir' out L,
      run (small_env flat_read) small_job (mkOutdir (Some half_good_manifest) [])
        = (Ok tt, dir', out) /\
      manifest_file dir' = Some (JsonText (JArr L)) /\
      In (JObj [("filename"%string, JStr "a.png")]) L) /\
  (exists dir' out,
      run (small_env flat_read) small_job
          (mkOutdir (Some numeric_half_good_manifest) [])
        = (Raise TypeError, dir', out) /\
      manifest_file dir' = Some numeric_half_good_manifest /\
      written_names out = ["msa_3857_res150m_tile_y0000_x0000.png";
                           "msa_3857_res150m_tile_y0000_x0001.png"]%string).
Proof.
  assert (Hfirst : forall doc bad rest e,
             iter_items doc = Ok (bad :: rest) ->
             load_entry bad [] = Raise e ->
             load_manifest (Some (JsonText doc)) = ([], [WarnManifest e])).
  { intros doc bad rest e Hiter Hbad. cbn [load_manifest]. rewrite Hiter.
    cbn [load_entries]. now rewrite Hbad. }
  split; [reflexivity |]. split; [reflexivity |].
  split; [intros doc e Hiter; cbn [load_manifest]; now rewrite Hiter |].
  split; [exact Hfirst |].
  split; [intros [k v] fields; now apply (Hfirst _ (JStr k) (map (fun kv => JStr (fst kv)) fields)) |].
  split.
  { intros c s.
    now apply (Hfirst _ (JStr (String c EmptyString))
                 (map (fun c => JStr (String c EmptyString)) (list_ascii_of_string s))). }
  split.
  { intros dir out. unfold load_step, bind, read_manifest_file; simpl.
    destruct (load_manifest (manifest_file dir)) as [m msgs]. reflexivity. }
  split.
  { intros doc good bad rest dg e Hiter Hgood Hbad. cbn [load_manifest].
    rewrite Hiter. now rewrite (load_entries_stops good rest bad [] dg e Hgood Hbad). }
  split; [reflexivity |].
  split.
  - eexists _, _, _. split; [vm_compute; reflexivity |].
    split; [reflexivity |]. now left.
  - eexists _, _. split; [vm_compute; reflexivity |]. split; reflexivity.
Qed.

Lemma C8_manifest_load_tolerance_witness :
  load_manifest (Some (JsonText (JNum 3))) = ([], [WarnManifest TypeError]) /\
  load_manifest (Some (JsonText (JArr [JNull; JObj [("filename"%string, JStr "a.png")]])))
    = ([], [WarnManifest AttributeError]) /\
  load_manifest (Some (JsonText (JObj [("tiles"%string, JArr [])])))
    = ([], [WarnManifest AttributeError]) /\
  load_manifest (Some numeric_half_good_manifest)
    = ([(KNum (5 # 1), JObj [("filename"%string, JNum (5 # 1))])],
       [WarnManifest AttributeError]).
Proof.
  destruct C8_manifest_load_tolerance
    as (_ & _ & Hiter & Hfirst & Hobj & _ & _ & Hmid & _).
  split; [| split; [| split]].
  - apply Hiter. reflexivity.
  - apply (Hfirst _ JNull [JObj [("filename"%string, JStr "a.png")]]); reflexivity.
  - apply Hobj.
  - apply (Hmid _ [JObj [("filename"%string, JNum (5 # 1))]] (JStr "oops") []);
      reflexivity.
Defined.

(* ----------------------------------------------------------------- *)
(** ** Pipeline driver *)

Section PipelineFacts.

Variable env : Env.
Variable job : Job.
Variable vrt : VRT.

Lemma written_names_app (a b : list event) :
  written_names (a ++ b) = written_names a ++ written_names b.
Proof. unfold written_names. apply flat_map_app. Qed.

(** The three ways a tile step can end. *)
Lemma process_tile_cases (m : pydict) (ty tx : Z) (dir : outdir) (out : list event) :
  match tile_window (vrt_width vrt) (vrt_height vrt) (tile_size job) ty tx with
  | None => process_tile env job vrt m (ty, tx) (dir, out) = (Ok m, (dir, out))
  | Some window =>
      let name := fst (tile_entry job vrt ty tx window) in
      let entry := snd (tile_entry job vrt ty tx window) in
      let m' := dict_set (KStr name) entry m in
      if file_present name (tile_files dir)
      then process_tile env job vrt m (ty, tx) (dir, out) = (Ok m', (dir, out))
      else
        match rbind (vrt_read vrt window) (filled_nan (vrt_dtype vrt)) with
        | Raise e => process_tile env job vrt m (ty, tx) (dir, out) = (Raise e, (dir, out))
        | Ok data =>
            match png_save env name (classify_block data) with
            | Raise e =>
                process_tile env job vrt m (ty, tx) (dir, out) = (Raise e, (dir, out))
            | Ok _ =>
                process_tile env job vrt m (ty, tx) (dir, out)
                = (Ok m',
                   (mkOutdir (manifest_file dir)
                             ((name, classify_block data) :: tile_files dir),
                    out ++ [Writing name]))
            end
        end
  end.
Proof.
  unfold process_tile.
  destruct (tile_window (vrt_width vrt) (vrt_height vrt) (tile_size job) ty tx)
    as [window |]; [| reflexivity].
  destruct (tile_entry job vrt ty tx window) as [name entry] eqn:Hte. simpl.
  unfold bind, path_exists, file_present, lift, save_tile, emit, ret. simpl.
  destruct (lookup_file name (tile_files dir)); [reflexivity |].
  destruct (vrt_read vrt window) as [data_ma | e]; [| reflexivity]. cbn [rbind].
  destruct (filled_nan (vrt_dtype vrt) data_ma) as [data | e]; [| reflexivity].
  destruct (png_save env name (classify_block data)) as [u | e]; reflexivity.
Qed.

(** A block of a floating raster passes the fill unchanged. *)
Lemma read_filled_inexact (window : Window) :
  vrt_dtype vrt = InexactKind ->
  rbind (vrt_read vrt window) (filled_nan (vrt_dtype vrt)) = vrt_read vrt window.
Proof.
  intros ->. destruct (vrt_read vrt window); reflexivity.
Qed.

(** A tile step never touches the manifest file, only adds files, and
    reports each file it adds. *)
Lemma process_tile_effect (m : pydict) (t : Z * Z) (dir dir' : outdir)
      (out out' : list event) (r : result pydict) :
  process_tile env job vrt m t (dir, out) = (r, (dir', out')) ->
  manifest_file dir' = manifest_file dir /\
  exists written,
    tile_files dir' = written ++ tile_files dir /\
    out' = out ++ map Writing (rev (map fst written)).
Proof.
  destruct t as [ty tx]. pose proof (process_tile_cases m ty tx dir out) as Hc.
  destruct (tile_window (vrt_width vrt) (vrt_height vrt) (tile_size job) ty tx)
    as [window |].
  - cbv zeta in Hc.
    destruct (file_present _ (tile_files dir)).
    + rewrite Hc. intros Heq. injection Heq as <- <- <-.
      split; [reflexivity |]. exists []. now rewrite app_nil_r.
    + destruct (rbind (vrt_read vrt window) (filled_nan (vrt_dtype vrt))) as [data | e].
      * destruct (png_save env _ (classify_block data)) as [u | e].
        -- rewrite Hc. intros Heq. injection Heq as <- <- <-.
           split; [reflexivity |]. eexists [_]. split; reflexivity.
        -- rewrite Hc. intros Heq. injection Heq as <- <- <-.
           split; [reflexivity |]. exists []. now rewrite app_nil_r.
      * rewrite Hc. intros Heq. injection Heq as <- <- <-.
        split; [reflexivity |]. exists []. now rewrite app_nil_r.
  - rewrite Hc. intros Heq. injection Heq as <- <- <-.
    split; [reflexivity |]. exists []. now rewrite app_nil_r.
Qed.

Lemma tile_loop_effect (tiles : list (Z * Z)) (m : pydict) (dir dir' : outdir)
      (out out' : list event) (r : result pydict) :
  tile_loop env job vrt tiles m (dir, out) = (r, (dir', out')) ->
  manifest_file dir' = manifest_file dir /\
  exists written,
    tile_files dir' = written ++ tile_files dir /\
    out' = out ++ map Writing (rev (map fst written)).
Proof.
  revert m dir out. induction tiles as [| t tiles IH]; intros m dir out; simpl.
  - unfold ret. intros Heq. injection Heq as <- <- <-.
    split; [reflexivity |]. exists []. now rewrite app_nil_r.
  - unfold bind.
    destruct (process_tile env job vrt m t (dir, out)) as [[m1 | e] [dir1 out1]] eqn:Hstep;
      apply process_tile_effect in Hstep; destruct Hstep as (Hm1 & w1 & Hf1 & Ho1).
    + intros Hloop. apply IH in Hloop. destruct Hloop as (Hm2 & w2 & Hf2 & Ho2).
      split; [congruence |]. exists (w2 ++ w1). split.
      * rewrite Hf2, Hf1. now rewrite app_assoc.
      * rewrite Ho2, Ho1, map_app, rev_app_distr, map_app, app_assoc. reflexivity.
    + intros Heq. injection Heq as <- <- <-. split; [exact Hm1 |]. now exists w1.
Qed.

End PipelineFacts.

Section ReplayFacts.

Lemma apply_upserts_get (k : pykey) (us : list (string * json)) (m : pydict) :
  dict_get k (apply_upserts us m)
  = match latest k us with
    | Some e => Some e
    | None => dict_get k m
    end.
Proof.
  revert m. induction us as [| [n e] us IH]; intros m; [reflexivity |].
  cbn [apply_upserts latest].
  rewrite IH. destruct (latest k us) as [e' |]; [reflexivity |].
  destruct (key_eqb (KStr n) k) eqn:Hk.
  - apply key_eqb_eq in Hk. subst k. apply dict_get_set_same.
  - apply key_eqb_neq in Hk. now apply dict_get_set_other.
Qed.

Lemma latest_in (n : string) (e : json) (us : list (string * json)) :
  In (n, e) us -> exists e', latest (KStr n) us = Some e'.
Proof.
  induction us as [| [n0 e0] us IH]; [contradiction |].
  cbn [latest In]. intros [Heq | Hin].
  - injection Heq as -> ->. destruct (latest (KStr n) us) as [e' |]; [now exists e' |].
    rewrite key_eqb_refl. now exists e.
  - destruct (IH Hin) as (e' & ->). now exists e'.
Qed.

Lemma apply_upserts_keys (us : list (string * json)) (m : pydict) :
  (forall n e, In (n, e) us -> In (KStr n) (dict_keys m)) ->
  dict_keys (apply_upserts us m) = dict_keys m.
Proof.
  revert m. induction us as [| [n e] us IH]; intros m Hin; simpl; [reflexivity |].
  assert (Hn : In (KStr n) (dict_keys m)) by (apply (Hin n e); now left).
  rewrite IH.
  - now apply dict_set_keys_present.
  - intros n' e' Hin'. rewrite (dict_set_keys_present (KStr n) e m Hn).
    apply (Hin n' e'). now right.
Qed.

Lemma apply_upserts_wf (us : list (string * json)) (m : pydict) :
  wf_dict m ->
  Forall (fun ne => keyed_by (KStr (fst ne)) (snd ne)) us ->
  wf_dict (apply_upserts us m).
Proof.
  revert m. induction us as [| [n e] us IH]; intros m Hwf Hall; simpl; [exact Hwf |].
  inversion Hall as [| ? ? Hk Hus]; subst. apply IH; [| exact Hus].
  now apply wf_dict_set.
Qed.

Lemma planned_upserts_keyed (job : Job) (vrt : VRT) (tiles : list (Z * Z)) :
  Forall (fun ne => keyed_by (KStr (fst ne)) (snd ne)) (planned_upserts job vrt tiles).
Proof.
  induction tiles as [| [ty tx] tiles IH]; simpl; [constructor |].
  destruct (tile_window (vrt_width vrt) (vrt_height vrt) (tile_size job) ty tx)
    as [window |]; [| exact IH].
  constructor; [| exact IH]. unfold tile_entry; simpl.
  apply make_entry_keyed, tile_name_nonempty.
Qed.

(** Rearranging the items of a dict with distinct keys does not change
    what is stored under a key. *)
Lemma dict_get_perm (k : pykey) (d s : pydict) :
  NoDup (dict_keys d) -> Permutation d s -> dict_get k s = dict_get k d.
Proof.
  intros Hnd Hperm.
  assert (Hnds : NoDup (dict_keys s)).
  { apply (Permutation_NoDup (l := dict_keys d)); [| exact Hnd].
    unfold dict_keys. now apply Permutation_map. }
  destruct (dict_get k d) as [v |] eqn:Hget.
  - apply dict_get_in in Hget. apply (Permutation_in _ Hperm) in Hget.
    now apply dict_in_get.
  - apply dict_get_none. apply dict_get_none in Hget. intros Hin. apply Hget.
    unfold dict_keys in *.
    apply (Permutation_in _ (Permutation_map fst (Permutation_sym Hperm))). exact Hin.
Qed.

(** Upserting again, in the same order, what a dict already absorbed
    leaves any rearrangement of that dict untouched. *)
Lemma apply_upserts_replay (us : list (string * json)) (d0 s : pydict) :
  NoDup (dict_keys (apply_upserts us d0)) ->
  Permutation (apply_upserts us d0) s ->
  apply_upserts us s = s.
Proof.
  intros Hnd Hperm.
  assert (Hnds : NoDup (dict_keys s)).
  { apply (Permutation_NoDup (l := dict_keys (apply_upserts us d0))); [| exact Hnd].
    unfold dict_keys. now apply Permutation_map. }
  assert (Hkeys : dict_keys (apply_upserts us s) = dict_keys s).
  { apply apply_upserts_keys. intros n e Hin.
    destruct (latest_in n e us Hin) as (e' & Hlatest).
    pose proof (apply_upserts_get (KStr n) us d0) as Hget. rewrite Hlatest in Hget.
    apply dict_get_some_key in Hget. unfold dict_keys in *.
    apply (Permutation_in _ (Permutation_map fst Hperm)). exact Hget. }
  apply dict_ext.
  - now rewrite Hkeys.
  - exact Hkeys.
  - intros k. rewrite apply_upserts_get.
    destruct (latest k us) as [e |] eqn:Hlatest; [| reflexivity].
    rewrite (dict_get_perm k _ s Hnd Hperm), apply_upserts_get, Hlatest. reflexivity.
Qed.

End ReplayFacts.

Section LoopFacts.

Variable env : Env.
Variable job : Job.
Variable vrt : VRT.

Lemma file_present_app (n : string) (w files : list (string * image)) :
  file_present n files = true -> file_present n (w ++ files) = true.
Proof.
  unfold file_present. induction w as [| [n0 img] w IH]; simpl; [auto |].
  intros Hp. destruct (String.eqb n0 n); [reflexivity | auto].
Qed.

(** A completed loop performed exactly the planned upserts, and every
    tile with a window has its image in the directory afterwards. *)
Lemma tile_loop_ok (tiles : list (Z * Z)) (m m' : pydict) (dir dir' : outdir)
      (out out' : list event) :
  tile_loop env job vrt tiles m (dir, out) = (Ok m', (dir', out')) ->
  m' = apply_upserts (planned_upserts job vrt tiles) m /\
  (forall n e, In (n, e) (planned_upserts job vrt tiles) ->
               file_present n (tile_files dir') = true).
Proof.
  revert m dir out. induction tiles as [| [ty tx] tiles IH]; intros m dir out.
  - simpl. unfold ret. intros Heq. injection Heq as <- <- <-.
    split; [reflexivity | contradiction].
  - cbn [tile_loop planned_upserts]. unfold bind.
    pose proof (process_tile_cases env job vrt m ty tx dir out) as Hc.
    destruct (tile_window (vrt_width vrt) (vrt_height vrt) (tile_size job) ty tx)
      as [window |].
    + cbv zeta in Hc.
      destruct (tile_entry job vrt ty tx window) as [name entry] eqn:Hte.
      cbn [fst snd] in Hc.
      destruct (file_present name (tile_files dir)) eqn:Hp.
      * rewrite Hc. intros Hloop. pose proof (tile_loop_effect env job vrt _ _ _ _ _ _ _ Hloop) as He.
        apply IH in Hloop. destruct Hloop as [-> Hfiles].
        split; [reflexivity |]. intros n e [Heq | Hin]; [| eauto].
        injection Heq as <- <-. destruct He as (_ & w & -> & _).
        now apply file_present_app.
      * destruct (rbind (vrt_read vrt window) (filled_nan (vrt_dtype vrt))) as [data | ex];
          [| rewrite Hc; discriminate].
        destruct (png_save env name (classify_block data)) as [u | ex];
          [| rewrite Hc; discriminate].
        rewrite Hc. intros Hloop.
        pose proof (tile_loop_effect env job vrt _ _ _ _ _ _ _ Hloop) as He.
        apply IH in Hloop. destruct Hloop as [-> Hfiles].
        split; [reflexivity |]. intros n e [Heq | Hin]; [| eauto].
        injection Heq as <- <-. destruct He as (_ & w & -> & _).
        apply file_present_app. unfold file_present; simpl.
        now rewrite String.eqb_refl.
    + rewrite Hc. apply IH.
Qed.

(** When every planned image is already there, the loop reads nothing,
    writes nothing and prints nothing. *)
Lemma tile_loop_all_present (tiles : list (Z * Z)) (m : pydict) (dir : outdir)
      (out : list event) :
  (forall n e, In (n, e) (planned_upserts job vrt tiles) ->
               file_present n (tile_files dir) = true) ->
  tile_loop env job vrt tiles m (dir, out)
  = (Ok (apply_upserts (planned_upserts job vrt tiles) m), (dir, out)).
Proof.
  revert m. induction tiles as [| [ty tx] tiles IH]; intros m Hall; [reflexivity |].
  cbn [tile_loop planned_upserts] in *. unfold bind.
  pose proof (process_tile_cases env job vrt m ty tx dir out) as Hc.
  destruct (tile_window (vrt_width vrt) (vrt_height vrt) (tile_size job) ty tx)
    as [window |].
  - cbv zeta in Hc.
    destruct (tile_entry job vrt ty tx window) as [name entry] eqn:Hte.
    cbn [fst snd] in Hc.
    rewrite (Hall name entry (or_introl eq_refl)) in Hc. rewrite Hc.
    cbn [apply_upserts]. apply IH. intros n e Hin. apply (Hall n e). now right.
  - rewrite Hc. now apply IH.
Qed.

(** The loop stops at the first tile step that raises. *)
Lemma tile_loop_abort (before after : list (Z * Z)) (t : Z * Z) (m m1 : pydict)
      (s s1 s2 : state) (e : exn) :
  tile_loop env job vrt before m s = (Ok m1, s1) ->
  process_tile env job vrt m1 t s1 = (Raise e, s2) ->
  tile_loop env job vrt (before ++ t :: after) m s = (Raise e, s2).
Proof.
  revert m s. induction before as [| b before IH]; intros m s; simpl.
  - unfold ret, bind. intros Heq Hstep. injection Heq as <- <-. now rewrite Hstep.
  - unfold bind. destruct (process_tile env job vrt m b s) as [[m0 | ex] s0];
      [apply IH | discriminate].
Qed.

End LoopFacts.

Section RunFacts.

Variable env : Env.
Variable job : Job.

(** The driver, step by step. *)
Lemma run_unfold (dir : outdir) :
  run env job dir =
  let m0 := fst (load_manifest (manifest_file dir)) in
  let msgs := snd (load_manifest (manifest_file dir)) in
  match rasterio_open env with
  | Raise e => (Raise e, dir, msgs)
  | Ok src =>
      let out1 :=
        if String.eqb (source_crs_label src) "EPSG:4326" then msgs
        else msgs ++ [WarnSourceCRS (source_crs_label src)] in
      match warped_vrt env src (nodata_value src) (target_res job) with
      | Raise e => (Raise e, dir, out1)
      | Ok vrt =>
          match n_tiles (vrt_width vrt) (tile_size job) with
          | Raise e => (Raise e, dir, out1)
          | Ok nx =>
              match n_tiles (vrt_height vrt) (tile_size job) with
              | Raise e => (Raise e, dir, out1)
              | Ok ny =>
                  match tile_loop env job vrt (tile_coords ny nx) m0 (dir, out1) with
                  | (Raise e, (dir', out')) => (Raise e, dir', out')
                  | (Ok m1, (dir', out')) =>
                      match sort_by_filename (dict_values m1) with
                      | Raise e => (Raise e, dir', out')
                      | Ok L =>
                          (Ok tt,
                           mkOutdir (Some (JsonText (JArr L))) (tile_files dir'),
                           out')
                      end
                  end
              end
          end
      end
  end.
Proof.
  unfold run, chunk_reproject_to_3857_png, load_step, persist, bind, lift,
    read_manifest_file, emit_all, write_manifest, ret, emit.
  cbn [fst snd app].
  destruct (load_manifest (manifest_file dir)) as [m0 msgs]. cbn [fst snd].
  destruct (rasterio_open env) as [src | e]; [| reflexivity].
  destruct (String.eqb (source_crs_label src) "EPSG:4326"); cbn [fst snd];
    (destruct (warped_vrt env src (nodata_value src) (target_res job)) as [vrt | e];
     [| reflexivity];
     destruct (n_tiles (vrt_width vrt) (tile_size job)) as [nx | e]; [| reflexivity];
     destruct (n_tiles (vrt_height vrt) (tile_size job)) as [ny | e]; [| reflexivity];
     destruct (tile_loop env job vrt (tile_coords ny nx) m0 _)
       as [[m1 | e] [dir' out']]; [| reflexivity];
     destruct (sort_by_filename (dict_values m1)) as [L | e]; reflexivity).
Qed.

Lemma written_names_load (file : option manifest_bytes) :
  written_names (snd (load_manifest file)) = [].
Proof.
  destruct file as [[| doc] |]; simpl; try reflexivity.
  destruct (iter_items doc) as [items | e]; [| reflexivity].
  destruct (load_entries items []) as [d [e |]]; reflexivity.
Qed.

Lemma written_names_writing (names : list string) :
  written_names (map Writing names) = names.
Proof.
  induction names as [| n names IH]; simpl; [reflexivity | now rewrite IH].
Qed.

(** Reading back what [persist] wrote for a dict in sorted order. *)
Lemma load_manifest_persisted (s : pydict) :
  NoDup (dict_keys s) ->
  Forall (fun kv => keyed_by (fst kv) (snd kv)) s ->
  load_manifest (Some (JsonText (JArr (dict_values s))))
  = (s, [LoadedManifest (List.length s)]).
Proof.
  intros Hnd Hall. simpl.
  rewrite (load_entries_rebuild s [] Hnd Hall). reflexivity.
Qed.

End RunFacts.

(** What a run, whatever its outcome, did to the tile images. *)
Lemma run_files (env : Env) (job : Job) (dir dir' : outdir)
      (r : result unit) (out : list event) :
  run env job dir = (r, dir', out) ->
  exists written,
    tile_files dir' = written ++ tile_files dir /\
    written_names out = rev (map fst written) /\
    (r <> Ok tt -> manifest_file dir' = manifest_file dir).
Proof.
  rewrite run_unfold. cbv zeta.
  pose proof (written_names_load (manifest_file dir)) as Hmsgs.
  set (m0 := fst (load_manifest (manifest_file dir))) in *.
  set (msgs := snd (load_manifest (manifest_file dir))) in *.
  assert (Hnil : forall e, (Raise e, dir, msgs) = (r, dir', out) ->
            exists written,
              tile_files dir' = written ++ tile_files dir /\
              written_names out = rev (map fst written) /\
              (r <> Ok tt -> manifest_file dir' = manifest_file dir)).
  { intros e Heq. injection Heq as <- <- <-. exists []. auto. }
  destruct (rasterio_open env) as [src | e]; [| apply Hnil].
  set (out1 := if String.eqb (source_crs_label src) "EPSG:4326" then msgs
               else msgs ++ [WarnSourceCRS (source_crs_label src)]).
  assert (Hout1 : written_names out1 = []).
  { unfold out1. destruct (String.eqb (source_crs_label src) "EPSG:4326");
      [exact Hmsgs |]. rewrite written_names_app, Hmsgs. reflexivity. }
  assert (Hnil1 : forall e, (Raise e, dir, out1) = (r, dir', out) ->
            exists written,
              tile_files dir' = written ++ tile_files dir /\
              written_names out = rev (map fst written) /\
              (r <> Ok tt -> manifest_file dir' = manifest_file dir)).
  { intros e Heq. injection Heq as <- <- <-. exists []. auto. }
  destruct (warped_vrt env src (nodata_value src) (target_res job)) as [vrt | e];
    [| apply Hnil1].
  destruct (n_tiles (vrt_width vrt) (tile_size job)) as [nx | e]; [| apply Hnil1].
  destruct (n_tiles (vrt_height vrt) (tile_size job)) as [ny | e]; [| apply Hnil1].
  destruct (tile_loop env job vrt (tile_coords ny nx) m0 (dir, out1))
    as [rl [dirL outL]] eqn:Hloop.
  apply tile_loop_effect in Hloop. destruct Hloop as (Hman & written & Hfiles & Hout).
  assert (Hnames : written_names outL = rev (map fst written)).
  { rewrite Hout, written_names_app, Hout1, written_names_writing. reflexivity. }
  destruct rl as [m1 | e].
  - destruct (sort_by_filename (dict_values m1)) as [L | e].
    + intros Heq. injection Heq as <- <- <-. exists written.
      split; [exact Hfiles |]. split; [exact Hnames |]. intros Hne. now elim Hne.
    + intros Heq. injection Heq as <- <- <-. exists written. auto.
  - intros Heq. injection Heq as <- <- <-. exists written. auto.
Qed.

(** C9. Atomicity of the on-disk manifest under per-tile failure: the
    manifest is written once, after the loop.  A run that ends with an
    exception leaves the manifest file exactly as it found it, and the
    directory holds, besides what was there, only the images written before
    the failure; a tile step that raises ends the loop and the run there,
    with no later tile visited. *)
Theorem C9_manifest_untouched_on_failure :
  forall (env : Env) (job : Job) (dir : outdir),
    (forall e dir' out,
        run env job dir = (Raise e, dir', out) ->
        manifest_file dir' = manifest_file dir /\
        exists written,
          tile_files dir' = written ++ tile_files dir /\
          written_names out = rev (map fst written)) /\
    (forall src vrt nx ny before t after m1 s1 s2 e,
        rasterio_open env = Ok src ->
        warped_vrt env src (nodata_value src) (target_res job) = Ok vrt ->
        n_tiles (vrt_width vrt) (tile_size job) = Ok nx ->
        n_tiles (vrt_height vrt) (tile_size job) = Ok ny ->
        tile_coords ny nx = before ++ t :: after ->
        tile_loop env job vrt before
                  (fst (load_manifest (manifest_file dir)))
                  (dir, if String.eqb (source_crs_label src) "EPSG:4326"
                        then snd (load_manifest (manifest_file dir))
                        else snd (load_manifest (manifest_file dir))
                               ++ [WarnSourceCRS (source_crs_label src)])
          = (Ok m1, s1) ->
        process_tile env job vrt m1 t s1 = (Raise e, s2) ->
        s2 = s1 /\ run env job dir = (Raise e, fst s1, snd s1)).
Proof.
  intros env job dir. split.
  - intros e dir' out Hrun. apply run_files in Hrun.
    destruct Hrun as (written & Hfiles & Hnames & Hman).
    split; [apply Hman; discriminate |]. now exists written.
  - intros src vrt nx ny before t after m1 s1 s2 e Hopen Hvrt Hnx Hny Hcoords Hloop Hstep.
    assert (Hs : s2 = s1).
    { destruct t as [ty tx], s1 as [d1 o1].
      pose proof (process_tile_cases env job vrt m1 ty tx d1 o1) as Hc.
      destruct (tile_window (vrt_width vrt) (vrt_height vrt) (tile_size job) ty tx)
        as [window |]; [| congruence].
      cbv zeta in Hc.
      destruct (file_present _ (tile_files d1)); [congruence |].
      destruct (rbind (vrt_read vrt window) (filled_nan (vrt_dtype vrt))) as [data | ex]; [| congruence].
      destruct (png_save env _ (classify_block data)) as [u | ex]; congruence. }
    split; [exact Hs |]. subst s2.
    rewrite run_unfold. cbv zeta. rewrite Hopen, Hvrt, Hnx, Hny, Hcoords.
    rewrite (tile_loop_abort env job vrt before after t _ m1 _ s1 s1 e Hloop Hstep).
    destruct s1 as [d1 o1]. reflexivity.
Qed.

Lemma C9_manifest_untouched_on_failure_witness :
  (exists dir' out,
      run (small_env failing_read) small_job (mkOutdir (Some NotJson) [])
        = (Raise RasterioIOError, dir', out) /\
      manifest_file dir' = Some NotJson /\
      map fst (tile_files dir') = ["msa_3857_res150m_tile_y0000_x0000.png"%string]) /\
  (exists s1,
      run (small_env failing_read) small_job (mkOutdir (Some NotJson) [])
        = (Raise RasterioIOError, fst s1, snd s1)).
Proof.
  split.
  - destruct (proj1 (C9_manifest_untouched_on_failure
                       (small_env failing_read) small_job (mkOutdir (Some NotJson) []))
                RasterioIOError
                (fst (snd (process_tile (small_env failing_read) small_job
                             (small_vrt failing_read) [] (0, 0)%Z
                             (mkOutdir (Some NotJson) [],
                              [WarnManifest JSONDecodeError]))))
                [WarnManifest JSONDecodeError;
                 Writing "msa_3857_res150m_tile_y0000_x0000.png"]
                eq_refl)
      as (Hman & written & Hfiles & _).
    eexists _, _. split; [reflexivity |]. split; [exact Hman | reflexivity].
  - eexists.
    eapply (proj2 (C9_manifest_untouched_on_failure
                     (small_env failing_read) small_job (mkOutdir (Some NotJson) []))
              nocrs_source (small_vrt failing_read) 2%Z 1%Z
              [(0, 0)%Z] (0, 1)%Z []).
    + reflexivity.
    + reflexivity.
    + reflexivity.
    + reflexivity.
    + reflexivity.
    + lazy. reflexivity.
    + lazy. reflexivity.
Defined.

Section Resumability.

Variable env : Env.
Variable job : Job.

(** A completed run, taken apart. *)
Lemma run_ok_inv (dir dir1 : outdir) (out1 : list event) :
  run env job dir = (Ok tt, dir1, out1) ->
  exists src vrt nx ny dirL L,
    rasterio_open env = Ok src /\
    warped_vrt env src (nodata_value src) (target_res job) = Ok vrt /\
    n_tiles (vrt_width vrt) (tile_size job) = Ok nx /\
    n_tiles (vrt_height vrt) (tile_size job) = Ok ny /\
    (forall n e, In (n, e) (planned_upserts job vrt (tile_coords ny nx)) ->
                 file_present n (tile_files dirL) = true) /\
    sort_by_filename
      (dict_values (apply_upserts (planned_upserts job vrt (tile_coords ny nx))
                                  (fst (load_manifest (manifest_file dir))))) = Ok L /\
    dir1 = mkOutdir (Some (JsonText (JArr L))) (tile_files dirL).
Proof.
  rewrite run_unfold. cbv zeta.
  destruct (rasterio_open env) as [src | e] eqn:Hopen; [| discriminate].
  destruct (warped_vrt env src (nodata_value src) (target_res job))
    as [vrt | e] eqn:Hvrt; [| discriminate].
  destruct (n_tiles (vrt_width vrt) (tile_size job)) as [nx | e] eqn:Hnx;
    [| discriminate].
  destruct (n_tiles (vrt_height vrt) (tile_size job)) as [ny | e] eqn:Hny;
    [| discriminate].
  destruct (tile_loop env job vrt (tile_coords ny nx) _ _)
    as [[m1 | e] [dirL outL]] eqn:Hloop; [| discriminate].
  apply tile_loop_ok in Hloop. destruct Hloop as [-> Hfiles].
  destruct (sort_by_filename _) as [L | e] eqn:Hsort; [| discriminate].
  intros Heq. injection Heq as <- <-.
  exists src, vrt, nx, ny, dirL, L. repeat split; assumption.
Qed.

End Resumability.

Lemma planned_upserts_in (job : Job) (vrt : VRT) (tiles : list (Z * Z))
      (ty tx : Z) (window : Window) :
  In (ty, tx) tiles ->
  tile_window (vrt_width vrt) (vrt_height vrt) (tile_size job) ty tx = Some window ->
  In (tile_entry job vrt ty tx window) (planned_upserts job vrt tiles).
Proof.
  intros Hin Hwin. induction tiles as [| [y x] tiles IH]; [contradiction |].
  cbn [planned_upserts]. destruct Hin as [Heq | Hin].
  - injection Heq as -> ->. rewrite Hwin. now left.
  - destruct (tile_window (vrt_width vrt) (vrt_height vrt) (tile_size job) y x);
      [right |]; auto.
Qed.

(** C10. The skip branch for non-positive windows is unreachable: with
    width, height and edge at least 1, every tile the loops enumerate has a
    window at least one pixel wide and high, so [tile_window] never answers
    [None] there, its step upserts the tile's descriptor, and after a
    completed loop every enumerated tile has a descriptor in the manifest. *)
Theorem C10_skip_branch_unreachable :
  forall (W H E ty tx : Z),
    (1 <= W)%Z -> (1 <= H)%Z -> (1 <= E)%Z ->
    In (ty, tx) (tile_coords (ceil_div H E) (ceil_div W E)) ->
    n_tiles W E = Ok (ceil_div W E) /\
    n_tiles H E = Ok (ceil_div H E) /\
    (1 <= Z.min E (W - tx * E))%Z /\
    (1 <= Z.min E (H - ty * E))%Z /\
    tile_window W H E ty tx
      = Some (mkWindow (tx * E) (ty * E) (Z.min E (W - tx * E)) (Z.min E (H - ty * E))) /\
    (forall env job vrt m s m' s',
        vrt_width vrt = W -> vrt_height vrt = H -> tile_size job = E ->
        process_tile env job vrt m (ty, tx) s = (Ok m', s') ->
        dict_get (KStr (tile_name (in_stem job) (target_res job) ty tx)) m'
        = Some (snd (tile_entry job vrt ty tx
                       (mkWindow (tx * E) (ty * E)
                                 (Z.min E (W - tx * E)) (Z.min E (H - ty * E)))))) /\
    (forall env job vrt m s m' s',
        vrt_width vrt = W -> vrt_height vrt = H -> tile_size job = E ->
        tile_loop env job vrt (tile_coords (ceil_div H E) (ceil_div W E)) m s
          = (Ok m', s') ->
        exists entry,
          dict_get (KStr (tile_name (in_stem job) (target_res job) ty tx)) m'
          = Some entry).
Proof.
  intros W H E ty tx HW HH HE Hin.
  pose proof Hin as Hrange. apply in_tile_coords in Hrange. destruct Hrange as [Hy Hx].
  pose proof (tile_window_inside W H E ty tx HW HH HE Hy Hx) as Hwin.
  split; [now apply n_tiles_is_ceiling |]. split; [now apply n_tiles_is_ceiling |].
  split; [now apply window_extent_positive |].
  split; [now apply window_extent_positive |].
  split; [exact Hwin |]. split.
  - intros env job vrt m [dir out] m' s' <- <- <- Hstep.
    pose proof (process_tile_cases env job vrt m ty tx dir out) as Hc.
    rewrite Hwin in Hc. cbv zeta in Hc.
    destruct (file_present _ (tile_files dir)).
    + rewrite Hc in Hstep. injection Hstep as <- _. apply dict_get_set_same.
    + destruct (rbind (vrt_read vrt _) _) as [data | e]; [| congruence].
      destruct (png_save env _ (classify_block data)) as [u | e]; [| congruence].
      rewrite Hc in Hstep. injection Hstep as <- _. apply dict_get_set_same.
  - intros env job vrt m [dir out] m' [dir' out'] <- <- <- Hloop.
    apply tile_loop_ok in Hloop. destruct Hloop as [-> _].
    pose proof (planned_upserts_in job vrt _ ty tx _ Hin Hwin) as Hplanned.
    unfold tile_entry in Hplanned. cbn zeta in Hplanned.
    destruct (latest_in _ _ _ Hplanned) as (entry & Hlatest).
    exists entry. now rewrite apply_upserts_get, Hlatest.
Qed.

Lemma C10_skip_branch_unreachable_witness :
  tile_window 2049 1024 1024 0 2 = Some (mkWindow 2048 0 1 1024).
Proof.
  destruct (C10_skip_branch_unreachable 2049 1024 1024 0 2) as (_ & _ & _ & _ & Hwin & _).
  - lia.
  - lia.
  - lia.
  - vm_compute. auto.
  - exact Hwin.
Defined.

(** The loop consults the collaborators for image encoding only. *)
Lemma tile_loop_env_ext (env env' : Env) (job : Job) (vrt : VRT)
      (tiles : list (Z * Z)) (m : pydict) (s : state) :
  png_save env' = png_save env ->
  tile_loop env' job vrt tiles m s = tile_loop env job vrt tiles m s.
Proof.
  intros Hsave. revert m s. induction tiles as [| [ty tx] tiles IH]; intros m s;
    [reflexivity |].
  cbn [tile_loop]. unfold bind.
  assert (Hstep : process_tile env' job vrt m (ty, tx) s
                  = process_tile env job vrt m (ty, tx) s).
  { unfold process_tile, save_tile. now rewrite Hsave. }
  rewrite Hstep. destruct (process_tile env job vrt m (ty, tx) s) as [[m1 | e] s1];
    [apply IH | reflexivity].
Qed.

(** C3 at a source without CRS.  The sibling script refuses such a source
    with [ValueError]; the tile pipeline has no such guard: it labels the
    source EPSG:4326, prints no warning, behaves as it does for a source
    that declares EPSG:4326, and, when the reprojection view can be built,
    goes on to write tiles and the manifest. *)
Theorem C3_missing_crs_not_rejected :
  reproject_to_world_square_crs nocrs_source = Raise ValueError /\
  (forall (env : Env) (job : Job) (dir : outdir) (src : Source),
      rasterio_open env = Ok src ->
      src_crs src = None ->
      source_crs_label src = "EPSG:4326"%string /\
      run env job dir
      = run (mkEnv (Ok (mkSource (Some "EPSG:4326"%string) (src_nodata src)))
                   (fun _ => warped_vrt env src)
                   (png_save env))
            job dir) /\
  (exists dir' out,
      run (small_env flat_read) small_job empty_dir = (Ok tt, dir', out) /\
      written_names out = ["msa_3857_res150m_tile_y0000_x0000.png";
                           "msa_3857_res150m_tile_y0000_x0001.png"]%string /\
      (forall crs, ~ In (WarnSourceCRS crs) out)).
Proof.
  split; [reflexivity |]. split.
  - intros env job dir src Hopen Hcrs.
    assert (Hlabel : source_crs_label src = "EPSG:4326"%string).
    { unfold source_crs_label. now rewrite Hcrs. }
    split; [exact Hlabel |].
    rewrite !run_unfold. cbv zeta. cbn [rasterio_open warped_vrt png_save].
    rewrite Hopen.
    change (source_crs_label (mkSource (Some "EPSG:4326"%string) (src_nodata src)))
      with "EPSG:4326"%string.
    rewrite Hlabel.
    change (nodata_value (mkSource (Some "EPSG:4326"%string) (src_nodata src)))
      with (nodata_value src).
    destruct (warped_vrt env src (nodata_value src) (target_res job)) as [vrt | e];
      [| reflexivity].
    destruct (n_tiles (vrt_width vrt) (tile_size job)) as [nx | e]; [| reflexivity].
    destruct (n_tiles (vrt_height vrt) (tile_size job)) as [ny | e]; [| reflexivity].
    rewrite (tile_loop_env_ext env
               (mkEnv (Ok (mkSource (Some "EPSG:4326"%string) (src_nodata src)))
                      (fun _ => warped_vrt env src) (png_save env))
               job vrt _ _ _ eq_refl).
    reflexivity.
  - eexists _, _. split; [vm_compute; reflexivity |].
    split; [reflexivity |].
    intros crs [Heq | [Heq | []]]; discriminate.
Qed.

Lemma C3_missing_crs_not_rejected_witness :
  source_crs_label nocrs_source = "EPSG:4326"%string.
Proof.
  apply (proj1 (proj2 C3_missing_crs_not_rejected)
           (small_env flat_read) small_job empty_dir nocrs_source);
    reflexivity.
Defined.

(* ----------------------------------------------------------------- *)
(** ** Runs that complete *)

Section Totality.

Lemma insert_by_key_total (x : pykey * json) (l : list (pykey * json)) :
  (exists n, fst x = KStr n) ->
  Forall (fun kv => exists n, fst kv = KStr n) l ->
  exists r, insert_by_key x l = Ok r /\
            Forall (fun kv : pykey * json => exists n, fst kv = KStr n) r.
Proof.
  intros Hx Hl. induction l as [| y l IH]; simpl.
  - exists [x]. split; [reflexivity | now repeat constructor].
  - inversion Hl as [| ? ? Hy Hl']; subst.
    destruct Hx as (n & Hn), Hy as (n' & Hn'). rewrite Hn, Hn'. simpl.
    destruct (String.ltb n' n).
    + destruct (IH Hl') as (r & -> & Hr). simpl. exists (y :: r).
      split; [reflexivity |]. constructor; [now exists n' | exact Hr].
    + eexists. split; [reflexivity |].
      constructor; [now exists n |]. constructor; [now exists n' | exact Hl'].
Qed.

Lemma sort_pairs_total (l : list (pykey * json)) :
  Forall (fun kv => exists n, fst kv = KStr n) l ->
  exists r, sort_pairs l = Ok r /\
            Forall (fun kv : pykey * json => exists n, fst kv = KStr n) r.
Proof.
  induction l as [| x l IH]; intros Hl; simpl.
  - exists []. split; [reflexivity | constructor].
  - inversion Hl as [| ? ? Hx Hl']; subst.
    destruct (IH Hl') as (r & -> & Hr). simpl. now apply insert_by_key_total.
Qed.

Lemma dict_set_str_keys (n : string) (e : json) (d : pydict) :
  Forall (fun kv => exists n, fst kv = KStr n) d ->
  Forall (fun kv : pykey * json => exists n, fst kv = KStr n) (dict_set (KStr n) e d).
Proof.
  induction d as [| [k v] d IH]; intros Hd; simpl.
  - repeat constructor. now exists n.
  - inversion Hd as [| ? ? Hk Hd']; subst.
    destruct (key_eqb k (KStr n)); constructor; auto.
Qed.

Lemma apply_upserts_str_keys (us : list (string * json)) (d : pydict) :
  Forall (fun kv => exists n, fst kv = KStr n) d ->
  Forall (fun kv : pykey * json => exists n, fst kv = KStr n) (apply_upserts us d).
Proof.
  revert d. induction us as [| [n e] us IH]; intros d Hd; simpl; [exact Hd |].
  apply IH. now apply dict_set_str_keys.
Qed.

Lemma tile_loop_total (env : Env) (job : Job) (vrt : VRT)
      (tiles : list (Z * Z)) (m : pydict) (s : state) :
  vrt_dtype vrt = InexactKind ->
  (forall w, exists data, vrt_read vrt w = Ok data) ->
  (forall n img, exists u, png_save env n img = Ok u) ->
  exists m1 s1, tile_loop env job vrt tiles m s = (Ok m1, s1).
Proof.
  intros Hkind Hread Hsave. revert m s.
  induction tiles as [| [ty tx] tiles IH]; intros m [dir out]; cbn [tile_loop].
  - now exists m, (dir, out).
  - unfold bind.
    pose proof (process_tile_cases env job vrt m ty tx dir out) as Hc.
    destruct (tile_window (vrt_width vrt) (vrt_height vrt) (tile_size job) ty tx)
      as [window |]; [| rewrite Hc; apply IH].
    cbv zeta in Hc. destruct (file_present _ (tile_files dir)); [rewrite Hc; apply IH |].
    rewrite (read_filled_inexact vrt window Hkind) in Hc.
    destruct (Hread window) as (data & Hdata). rewrite Hdata in Hc.
    destruct (Hsave (fst (tile_entry job vrt ty tx window)) (classify_block data))
      as (u & Hu).
    rewrite Hu in Hc. rewrite Hc. apply IH.
Qed.

(** With a readable floating raster, a tile size other than zero,
    collaborators that do not fail and a previous manifest (if any) whose
    filenames are strings, the run completes. *)
Lemma run_completes (env : Env) (job : Job) (dir : outdir) (src : Source) (vrt : VRT) :
  rasterio_open env = Ok src ->
  warped_vrt env src (nodata_value src) (target_res job) = Ok vrt ->
  vrt_dtype vrt = InexactKind ->
  (forall w, exists data, vrt_read vrt w = Ok data) ->
  (forall n img, exists u, png_save env n img = Ok u) ->
  tile_size job <> 0%Z ->
  Forall (fun kv => exists n, fst kv = KStr n) (fst (load_manifest (manifest_file dir))) ->
  exists dir' out, run env job dir = (Ok tt, dir', out).
Proof.
  intros Hopen Hvrt Hkind Hread Hsave Hsize Hkeys.
  rewrite run_unfold. cbv zeta. rewrite Hopen, Hvrt.
  unfold n_tiles, floordiv. destruct (Z.eqb_spec (tile_size job) 0) as [H0 | _];
    [contradiction |].
  match goal with
  | |- context [tile_loop env job vrt ?tiles ?m ?s] =>
      destruct (tile_loop_total env job vrt tiles m s Hkind Hread Hsave)
        as (m1 & [d1 o1] & Hloop)
  end.
  rewrite Hloop. apply tile_loop_ok in Hloop. destruct Hloop as [-> _].
  match goal with
  | |- context [apply_upserts ?us ?m] =>
      pose proof (apply_upserts_str_keys us m Hkeys) as Hstr;
      assert (Hwf : wf_dict (apply_upserts us m))
        by (apply apply_upserts_wf; [apply load_manifest_wf | apply planned_upserts_keyed])
  end.
  unfold sort_by_filename. rewrite (keyed_values _ (proj2 Hwf)). simpl.
  destruct (sort_pairs_total _ Hstr) as (r & -> & _). simpl. eauto.
Qed.

End Totality.

(* ================================================================= *)
(** * Further properties of the tile pipeline *)

(* ----------------------------------------------------------------- *)
(** ** Colour literals *)

Section HexFacts.

Lemma hex_digit_range (c : ascii) (d : Z) :
  hex_digit c = Some d -> (0 <= d <= 15)%Z.
Proof.
  unfold hex_digit.
  destruct (Z.leb_spec 48 (Z.of_nat (nat_of_ascii c)));
    destruct (Z.leb_spec (Z.of_nat (nat_of_ascii c)) 57); simpl;
    try (intros Heq; injection Heq as <-; lia);
    destruct (Z.leb_spec 97 (Z.of_nat (nat_of_ascii c)));
    destruct (Z.leb_spec (Z.of_nat (nat_of_ascii c)) 102); simpl;
    try (intros Heq; injection Heq as <-; lia);
    destruct (Z.leb_spec 65 (Z.of_nat (nat_of_ascii c)));
    destruct (Z.leb_spec (Z.of_nat (nat_of_ascii c)) 70); simpl;
    try (intros Heq; injection Heq as <-; lia); discriminate.
Qed.

Lemma hex_digit_not_hash (c : ascii) (d : Z) :
  hex_digit c = Some d -> Ascii.eqb c "#" = false.
Proof.
  intros Hd. destruct (Ascii.eqb_spec c "#") as [-> | _]; [discriminate | reflexivity].
Qed.

Lemma lstrip_hash_repeat (n : nat) (h : string) :
  lstrip_hash (string_of_list_ascii (repeat "#"%char n) ++ h) = lstrip_hash h.
Proof. induction n as [| n IH]; [reflexivity | exact IH]. Qed.

Lemma substring_short (s : string) :
  (String.length s <= 4)%nat -> substring 4 2 s = EmptyString.
Proof.
  do 5 (destruct s as [| ? s]; [reflexivity |]). simpl. lia.
Qed.

Lemma int16_raises (s : string) (e : exn) : int16 s = Raise e -> e = ValueError.
Proof.
  unfold int16. destruct s as [| c1 [| c2 [| c3 s]]]; try congruence.
  - destruct (hex_digit c1); congruence.
  - destruct (hex_digit c1), (hex_digit c2); try congruence.
    + destruct (is_space c2); congruence.
    + destruct (is_space c1 || Ascii.eqb c1 "+"); [congruence |].
      destruct (Ascii.eqb c1 "-"); congruence.
Qed.

End HexFacts.

(** X1. [hex_to_rgb] on a colour literal: any number of leading [#] is
    ignored, six hexadecimal digits of either case give the three bytes
    they spell, each within 0..255, and whatever follows the sixth digit is
    ignored; a literal with fewer than five characters after the [#] is
    refused with [ValueError]. *)
Theorem X1_hex_to_rgb_literal :
  (forall (hashes : nat) (c1 c2 c3 c4 c5 c6 : ascii) (d1 d2 d3 d4 d5 d6 : Z)
          (rest : string),
      hex_digit c1 = Some d1 -> hex_digit c2 = Some d2 ->
      hex_digit c3 = Some d3 -> hex_digit c4 = Some d4 ->
      hex_digit c5 = Some d5 -> hex_digit c6 = Some d6 ->
      hex_to_rgb (string_of_list_ascii (repeat "#"%char hashes)
                  ++ String c1 (String c2 (String c3 (String c4
                       (String c5 (String c6 rest))))))
      = Ok (16 * d1 + d2, 16 * d3 + d4, 16 * d5 + d6)%Z /\
      (0 <= 16 * d1 + d2 <= 255)%Z /\ (0 <= 16 * d3 + d4 <= 255)%Z /\
      (0 <= 16 * d5 + d6 <= 255)%Z) /\
  (forall h : string,
      (String.length (lstrip_hash h) <= 4)%nat -> hex_to_rgb h = Raise ValueError).
Proof.
  split.
  - intros hashes c1 c2 c3 c4 c5 c6 d1 d2 d3 d4 d5 d6 rest H1 H2 H3 H4 H5 H6.
    pose proof (hex_digit_range _ _ H1). pose proof (hex_digit_range _ _ H2).
    pose proof (hex_digit_range _ _ H3). pose proof (hex_digit_range _ _ H4).
    pose proof (hex_digit_range _ _ H5). pose proof (hex_digit_range _ _ H6).
    split; [| lia].
    unfold hex_to_rgb. rewrite lstrip_hash_repeat.
    cbn [lstrip_hash]. rewrite (hex_digit_not_hash _ _ H1).
    assert (Hrest : forall s : string, substring 0 0 s = EmptyString)
      by (intros s; destruct s; reflexivity).
    cbn [substring]. rewrite !Hrest. cbn [int16 rbind]. rewrite H1, H2. cbn [rbind].
    rewrite H3, H4. cbn [rbind]. rewrite H5, H6. reflexivity.
  - intros h Hlen. unfold hex_to_rgb.
    rewrite (substring_short _ Hlen).
    destruct (int16 (substring 0 2 (lstrip_hash h))) as [r | e] eqn:Hr; simpl;
      [| now rewrite (int16_raises _ _ Hr)].
    destruct (int16 (substring 2 2 (lstrip_hash h))) as [g | e] eqn:Hg; simpl;
      [reflexivity | now rewrite (int16_raises _ _ Hg)].
Qed.

Lemma X1_hex_to_rgb_literal_witness :
  hex_to_rgb "##1F78b4ff" = Ok (31, 120, 180)%Z /\
  hex_to_rgb "#fff" = Raise ValueError.
Proof.
  split.
  - apply (proj1 X1_hex_to_rgb_literal 2%nat "1"%char "F"%char "7"%char "8"%char
             "b"%char "4"%char 1%Z 15%Z 7%Z 8%Z 11%Z 4%Z "ff"%string); reflexivity.
  - apply (proj2 X1_hex_to_rgb_literal "#fff"%string). simpl. lia.
Defined.

(* ----------------------------------------------------------------- *)
(** ** Tile names and URLs *)

Section NamingFacts.

Local Open Scope string_scope.

Lemma append_inj_l (a x y : string) : a ++ x = a ++ y -> x = y.
Proof.
  induction a as [| c a IH]; simpl; [auto |].
  intros Heq. injection Heq as Heq. auto.
Qed.

Lemma all_digits_string_of_uint (d : Decimal.uint) :
  all_digits (NilEmpty.string_of_uint d).
Proof. induction d; simpl; auto; (split; [eexists; reflexivity | assumption]). Qed.

Lemma all_digits_zeros (k : nat) (s : string) :
  all_digits s -> all_digits (string_of_list_ascii (repeat "0"%char k) ++ s).
Proof.
  intros Hs. induction k as [| k IH]; simpl; [exact Hs |].
  split; [eexists; reflexivity | exact IH].
Qed.

Lemma all_digits_format (n : Z) : (0 <= n)%Z -> all_digits (format_04d n).
Proof.
  intros Hn. unfold format_04d, zfill.
  destruct (Z.ltb_spec n 0) as [Hneg | _]; [lia |].
  apply all_digits_zeros. unfold NilZero.string_of_uint.
  destruct (N.to_uint (Z.to_N n)) eqn:Hd;
    try (rewrite <- Hd; apply all_digits_string_of_uint).
  simpl. split; [eexists; reflexivity | exact I].
Qed.

(** A run of digits followed by a character that is no digit ends where
    that character stands. *)
Lemma digits_split (sep : ascii) (a a' r r' : string) :
  uint_of_char sep (Some Decimal.Nil) = None ->
  all_digits a -> all_digits a' ->
  a ++ String sep r = a' ++ String sep r' -> a = a' /\ r = r'.
Proof.
  intros Hsep. revert a'. induction a as [| c a IH]; intros [| c' a'] Ha Ha'; simpl.
  - intros Heq. injection Heq as <-. auto.
  - intros Heq. injection Heq as <- _. destruct Ha' as [(u & Hu) _]. congruence.
  - intros Heq. injection Heq as -> _. destruct Ha as [(u & Hu) _]. congruence.
  - intros Heq. injection Heq as <- Heq.
    destruct Ha as [_ Ha], Ha' as [_ Ha'].
    destruct (IH a' Ha Ha' Heq) as [-> ->]. auto.
Qed.

(** Reading back a zero-padded decimal. *)
Lemma decode_padded (k : nat) (n : N) :
  option_map N.of_uint
    (NilEmpty.uint_of_string
       (string_of_list_ascii (repeat "0"%char k)
        ++ NilZero.string_of_uint (N.to_uint n)))
  = Some n.
Proof.
  induction k as [| k IH].
  - simpl. unfold NilZero.string_of_uint.
    destruct (N.to_uint n) eqn:Hd;
      try (rewrite <- Hd, NilEmpty.usu; simpl; now rewrite DecimalN.Unsigned.of_to).
    simpl. rewrite <- (DecimalN.Unsigned.of_to n), Hd. reflexivity.
  - cbn [repeat string_of_list_ascii append NilEmpty.uint_of_string].
    destruct (NilEmpty.uint_of_string _) as [u |]; [| discriminate].
    simpl in *. exact IH.
Qed.

Lemma format_04d_inj (n n' : Z) :
  (0 <= n)%Z -> (0 <= n')%Z -> format_04d n = format_04d n' -> n = n'.
Proof.
  intros Hn Hn'. unfold format_04d, zfill.
  destruct (Z.ltb_spec n 0); [lia |]. destruct (Z.ltb_spec n' 0); [lia |].
  intros Heq.
  pose proof (decode_padded
                (4 - String.length
                       (NilZero.string_of_uint (N.to_uint (Z.to_N n))))
                (Z.to_N n)) as Hd.
  rewrite Heq, decode_padded in Hd. injection Hd as Hd. lia.
Qed.

End NamingFacts.

Lemma tile_name_inj :
  forall (stem : string) (res : Q) (ty tx ty' tx' : Z),
    (0 <= ty)%Z -> (0 <= tx)%Z -> (0 <= ty')%Z -> (0 <= tx')%Z ->
    tile_name stem res ty tx = tile_name stem res ty' tx' ->
    ty = ty' /\ tx = tx'.
Proof.
  intros stem res ty tx ty' tx' Hy Hx Hy' Hx'. unfold tile_name. intros Heq.
  apply append_inj_l in Heq. apply (append_inj_l "_3857_res") in Heq.
  apply append_inj_l in Heq. apply (append_inj_l "m_") in Heq.
  apply (append_inj_l "tile_y") in Heq.
  change ("_x" ++ format_04d tx ++ ".png")%string
    with (String "_" (String "x" (format_04d tx ++ String "." "png")))%string in Heq.
  change ("_x" ++ format_04d tx' ++ ".png")%string
    with (String "_" (String "x" (format_04d tx' ++ String "." "png")))%string in Heq.
  apply digits_split in Heq;
    [| reflexivity | now apply all_digits_format | now apply all_digits_format].
  destruct Heq as [Hfy Heq]. injection Heq as Heq.
  apply digits_split in Heq;
    [| reflexivity | now apply all_digits_format | now apply all_digits_format].
  destruct Heq as [Hfx _].
  split; now apply format_04d_inj.
Qed.

(** X2. Tile names are unambiguous: for one source stem and resolution, two
    tiles with non-negative coordinates have the same file name only when
    they are the same tile, so no two tiles of a run share an image file or
    a manifest entry. *)
Theorem X2_tile_name_injective :
  forall (stem : string) (res : Q) (ty tx ty' tx' : Z),
    (0 <= ty)%Z -> (0 <= tx)%Z -> (0 <= ty')%Z -> (0 <= tx')%Z ->
    tile_name stem res ty tx = tile_name stem res ty' tx' ->
    ty = ty' /\ tx = tx'.
Proof. exact tile_name_inj. Qed.

Lemma X2_tile_name_injective_witness :
  12%Z = 12%Z /\ 10000%Z = 10000%Z.
Proof.
  apply (X2_tile_name_injective "msa"%string (150 # 1) 12 10000 12 10000);
    try lia; reflexivity.
Defined.

Section UrlFacts.

Local Open Scope string_scope.

Lemma rstrip_slash_app_slash (s : string) :
  rstrip_slash (s ++ "/") = rstrip_slash s.
Proof.
  induction s as [| c s IH]; [reflexivity |].
  cbn [append rstrip_slash]. now rewrite IH.
Qed.

Lemma rstrip_slash_no_trailing (s t : string) : rstrip_slash s <> t ++ "/".
Proof.
  revert t. induction s as [| c s IH]; intros t; cbn [rstrip_slash].
  - destruct t; discriminate.
  - destruct (rstrip_slash s) as [| c' r] eqn:Hr.
    + destruct (Ascii.eqb_spec c "/") as [-> | Hne].
      * destruct t; discriminate.
      * destruct t as [| c0 [| c1 t]]; simpl; try congruence.
    + destruct t as [| c0 t]; simpl; [discriminate |].
      intros Heq. injection Heq as _ Heq. exact (IH t Heq).
Qed.

Lemma append_empty_l (a b : string) : a ++ b = "" -> a = "".
Proof. destruct a; [reflexivity | discriminate]. Qed.

End UrlFacts.

(** X3. Tile URLs: without a base URL, or with the empty one, the URL is
    the bare file name; otherwise it is the base URL without its trailing
    slashes, one slash, and the file name, so the number of slashes that end
    the configured base URL makes no difference and the name is never
    preceded by a double slash. *)
Theorem X3_tile_url :
  forall (name : string),
    tile_url None name = name /\
    tile_url (Some ""%string) name = name /\
    (forall b : string,
        b <> ""%string ->
        tile_url (Some b) name = (rstrip_slash b ++ "/" ++ name)%string /\
        (forall t : string, rstrip_slash b <> (t ++ "/")%string) /\
        tile_url (Some (b ++ "/")%string) name = tile_url (Some b) name).
Proof.
  intros name. split; [reflexivity |]. split; [reflexivity |].
  intros b Hb. unfold tile_url.
  apply String.eqb_neq in Hb. rewrite Hb.
  split; [reflexivity |]. split; [apply rstrip_slash_no_trailing |].
  destruct (String.eqb_spec (b ++ "/") "") as [Hemp | _].
  - apply append_empty_l in Hemp. subst b. discriminate.
  - now rewrite rstrip_slash_app_slash.
Qed.

Lemma X3_tile_url_witness :
  tile_url (Some "http://h/geo-png//"%string) "t.png" = "http://h/geo-png/t.png"%string.
Proof.
  destruct (X3_tile_url "t.png"%string) as (_ & _ & Hb).
  destruct (Hb "http://h/geo-png//"%string) as (Hurl & _); [discriminate |].
  rewrite Hurl. reflexivity.
Defined.

(* ----------------------------------------------------------------- *)
(** ** Manifest round trip, files on disk *)

(** X4. Persist, then load: the manifest a run writes for a well-formed
    mapping is read back by the next load without a warning, and the mapping
    read back holds the same entry under every key, now in filename order. *)
Theorem X4_persist_load_round_trip :
  forall (d : pydict) (dir dir' : outdir) (out out' : list event),
    wf_dict d ->
    persist d (dir, out) = (Ok tt, (dir', out')) ->
    exists s,
      load_step (dir', out') = (Ok s, (dir', out' ++ [LoadedManifest (List.length d)])) /\
      manifest_file dir' = Some (JsonText (JArr (dict_values s))) /\
      Permutation d s /\ key_sorted s /\
      (forall k, dict_get k s = dict_get k d).
Proof.
  intros d dir dir' out out' Hwf. unfold persist, bind, lift, write_manifest.
  destruct (sort_by_filename (dict_values d)) as [L | e] eqn:Hsort; [| discriminate].
  intros Heq. injection Heq as <- <-.
  destruct (sort_by_filename_wf d L Hwf Hsort) as (s & _ & -> & Hperm & Hsorted).
  destruct Hwf as [Hnd Hall].
  assert (Hnds : NoDup (dict_keys s)).
  { apply (Permutation_NoDup (l := dict_keys d)); [| exact Hnd].
    unfold dict_keys. now apply Permutation_map. }
  assert (Halls : Forall (fun kv => keyed_by (fst kv) (snd kv)) s).
  { rewrite Forall_forall in *. intros kv Hin. apply Hall.
    now apply (Permutation_in _ (Permutation_sym Hperm)). }
  exists s. split.
  - unfold load_step, bind, read_manifest_file, emit_all, ret. cbn [fst snd manifest_file].
    change (map snd s) with (dict_values s).
    rewrite (load_manifest_persisted s Hnds Halls). cbn [fst snd].
    now rewrite (Permutation_length Hperm).
  - split; [reflexivity |]. split; [exact Hperm |]. split; [exact Hsorted |].
    intros k. now apply dict_get_perm.
Qed.

Lemma X4_persist_load_round_trip_witness :
  let ea := make_entry "a.png" "a.png" (1, 0, 2, 1) in
  let eb := make_entry "b.png" "b.png" (0, 0, 1, 1) in
  let dir' := mkOutdir (Some (JsonText (JArr [ea; eb]))) [] in
  exists s,
    load_step (dir', []) = (Ok s, (dir', [LoadedManifest 2])) /\
    dict_get (KStr "b.png") s = Some eb.
Proof.
  intros ea eb dir'.
  destruct (X4_persist_load_round_trip
              [(KStr "b.png", eb); (KStr "a.png", ea)] empty_dir dir' [] [])
    as (s & Hload & _ & _ & _ & Hget).
  - split.
    + repeat constructor; simpl; intuition discriminate.
    + repeat constructor; simpl; eexists _, _; repeat split; reflexivity.
  - reflexivity.
  - exists s. split; [exact Hload |]. rewrite Hget. reflexivity.
Defined.

Section FilesKept.

Variable env : Env.
Variable job : Job.
Variable vrt : VRT.

Lemma process_tile_keeps_files (m : pydict) (t : Z * Z) (dir dir' : outdir)
      (out out' : list event) (r : result pydict) (n : string) (img : image) :
  process_tile env job vrt m t (dir, out) = (r, (dir', out')) ->
  lookup_file n (tile_files dir) = Some img ->
  lookup_file n (tile_files dir') = Some img.
Proof.
  destruct t as [ty tx]. pose proof (process_tile_cases env job vrt m ty tx dir out) as Hc.
  destruct (tile_window (vrt_width vrt) (vrt_height vrt) (tile_size job) ty tx)
    as [window |]; [| rewrite Hc; intros Heq; injection Heq as <- <- <-; auto].
  cbv zeta in Hc. unfold file_present in Hc.
  remember (fst (tile_entry job vrt ty tx window)) as name eqn:Hname.
  destruct (lookup_file name (tile_files dir)) as [old |] eqn:Hold;
    [rewrite Hc; intros Heq; injection Heq as <- <- <-; auto |].
  destruct (rbind (vrt_read vrt window) (filled_nan (vrt_dtype vrt))) as [data | e];
    [| rewrite Hc; intros Heq; injection Heq as <- <- <-; auto].
  destruct (png_save env _ (classify_block data)) as [u | e];
    [| rewrite Hc; intros Heq; injection Heq as <- <- <-; auto].
  rewrite Hc. intros Heq. injection Heq as <- <- <-. intros Hn. cbn [tile_files lookup_file].
  destruct (String.eqb_spec name n) as [Hsame | _]; [| exact Hn].
  rewrite Hsame in Hold. congruence.
Qed.

Lemma tile_loop_keeps_files (tiles : list (Z * Z)) (m : pydict) (dir dir' : outdir)
      (out out' : list event) (r : result pydict) (n : string) (img : image) :
  tile_loop env job vrt tiles m (dir, out) = (r, (dir', out')) ->
  lookup_file n (tile_files dir) = Some img ->
  lookup_file n (tile_files dir') = Some img.
Proof.
  revert m dir out. induction tiles as [| t tiles IH]; intros m dir out; cbn [tile_loop].
  - unfold ret. intros Heq. injection Heq as <- <- <-. auto.
  - unfold bind.
    destruct (process_tile env job vrt m t (dir, out)) as [[m1 | e] [dir1 out1]] eqn:Hstep.
    + intros Hloop Hn. apply (IH _ _ _ Hloop).
      exact (process_tile_keeps_files _ _ _ _ _ _ _ _ _ Hstep Hn).
    + intros Heq. injection Heq as <- <- <-.
      exact (process_tile_keeps_files _ _ _ _ _ _ _ _ _ Hstep).
Qed.

End FilesKept.

(** X5. What a run does to the files that exist.  The files of the
    output directory other than the manifest, tile images among them, are
    never rewritten: whatever the outcome of a run, every such file that was
    there before the run is there afterwards with the content it had.  The
    manifest [tile_manifest.json] is the one file that is replaced, by a
    run that completes; a run that ends with an exception leaves it as it
    was. *)
Theorem X5_existing_files_untouched :
  forall (env : Env) (job : Job) (dir dir' : outdir) (r : result unit)
         (out : list event),
    run env job dir = (r, dir', out) ->
    (forall n img,
        lookup_file n (tile_files dir) = Some img ->
        lookup_file n (tile_files dir') = Some img) /\
    (r <> Ok tt -> manifest_file dir' = manifest_file dir) /\
    (r = Ok tt -> exists L, manifest_file dir' = Some (JsonText (JArr L))).
Proof.
  intros env job dir dir' r out Hrun. split; [| split].
  - revert Hrun. rewrite run_unfold. cbv zeta.
    destruct (rasterio_open env) as [src | e];
      [| intros Heq; injection Heq as <- <- <-; auto].
    destruct (warped_vrt env src (nodata_value src) (target_res job)) as [vrt | e];
      [| intros Heq; injection Heq as <- <- <-; auto].
    destruct (n_tiles (vrt_width vrt) (tile_size job)) as [nx | e];
      [| intros Heq; injection Heq as <- <- <-; auto].
    destruct (n_tiles (vrt_height vrt) (tile_size job)) as [ny | e];
      [| intros Heq; injection Heq as <- <- <-; auto].
    destruct (tile_loop env job vrt (tile_coords ny nx) _ _)
      as [[m1 | e] [dirL outL]] eqn:Hloop.
    + destruct (sort_by_filename (dict_values m1)) as [L | e];
        intros Heq; injection Heq as <- <- <-; intros n img Hn; cbn [tile_files];
        exact (tile_loop_keeps_files env job vrt _ _ _ _ _ _ _ _ _ Hloop Hn).
    + intros Heq. injection Heq as <- <- <-. intros n img.
      exact (tile_loop_keeps_files env job vrt _ _ _ _ _ _ _ _ _ Hloop).
  - destruct (run_files env job dir dir' r out Hrun) as (_ & _ & _ & Hman). exact Hman.
  - intros ->.
    destruct (run_ok_inv env job dir dir' out Hrun)
      as (_ & _ & _ & _ & dirL & L & _ & _ & _ & _ & _ & _ & ->).
    now exists L.
Qed.

Lemma X5_existing_files_untouched_witness :
  exists dir' out L,
    run (small_env flat_read) small_job one_tile_dir = (Ok tt, dir', out) /\
    lookup_file "msa_3857_res150m_tile_y0000_x0000.png" (tile_files dir') = Some [] /\
    manifest_file dir' = Some (JsonText (JArr L)).
Proof.
  destruct (run (small_env flat_read) small_job one_tile_dir) as [[r dir'] out] eqn:Hrun.
  destruct (X5_existing_files_untouched _ _ _ _ _ _ Hrun) as (Hkept & _ & Hman).
  specialize (Hkept "msa_3857_res150m_tile_y0000_x0000.png"%string [] eq_refl).
  vm_compute in Hrun. injection Hrun as <- <- <-.
  destruct (Hman eq_refl) as (L & HL).
  eexists _, _, L. split; [reflexivity |]. split; [exact Hkept | exact HL].
Defined.

(* ----------------------------------------------------------------- *)
(** ** Tile sizes that are not positive *)

Lemma tile_window_negative_size (W H E ty tx : Z) :
  (E < 0)%Z -> tile_window W H E ty tx = None.
Proof.
  intros HE. unfold tile_window.
  destruct (Z.leb_spec (Z.min E (W - tx * E)) 0) as [_ | Hpos]; [reflexivity | lia].
Qed.

Lemma planned_upserts_negative_size (job : Job) (vrt : VRT) (tiles : list (Z * Z)) :
  (tile_size job < 0)%Z -> planned_upserts job vrt tiles = [].
Proof.
  intros HE. induction tiles as [| [ty tx] tiles IH]; [reflexivity |].
  cbn [planned_upserts]. now rewrite tile_window_negative_size.
Qed.

(** X6. Tile sizes that are not positive.  With [tile_size = 0] the run
    stops with [ZeroDivisionError] once the reprojection view is built,
    before any tile is read, and the output directory is left as it was.
    With a negative [tile_size] every window the loops reach is skipped: no
    tile is read or written and no descriptor is made, and the run only
    rewrites the manifest with the entries it loaded, sorted. *)
Theorem X6_nonpositive_tile_size :
  forall (env : Env) (job : Job) (dir : outdir) (src : Source) (vrt : VRT),
    rasterio_open env = Ok src ->
    warped_vrt env src (nodata_value src) (target_res job) = Ok vrt ->
    (tile_size job = 0%Z ->
     exists out, run env job dir = (Raise ZeroDivisionError, dir, out) /\
                 written_names out = []) /\
    ((tile_size job < 0)%Z ->
     exists out,
       written_names out = [] /\
       run env job dir
       = match sort_by_filename
                 (dict_values (fst (load_manifest (manifest_file dir)))) with
         | Ok L => (Ok tt, mkOutdir (Some (JsonText (JArr L))) (tile_files dir), out)
         | Raise e => (Raise e, dir, out)
         end).
Proof.
  intros env job dir src vrt Hopen Hvrt.
  pose proof (written_names_load (manifest_file dir)) as Hmsgs.
  assert (Hout : written_names
                   (if String.eqb (source_crs_label src) "EPSG:4326"
                    then snd (load_manifest (manifest_file dir))
                    else snd (load_manifest (manifest_file dir))
                           ++ [WarnSourceCRS (source_crs_label src)]) = []).
  { destruct (String.eqb (source_crs_label src) "EPSG:4326"); [exact Hmsgs |].
    now rewrite written_names_app, Hmsgs. }
  split.
  - intros H0. eexists. rewrite run_unfold. cbv zeta. rewrite Hopen, Hvrt.
    unfold n_tiles, floordiv. rewrite H0. cbn [Z.eqb].
    split; [reflexivity | exact Hout].
  - intros Hneg. eexists. split; [exact Hout |].
    rewrite run_unfold. cbv zeta. rewrite Hopen, Hvrt.
    unfold n_tiles, floordiv.
    destruct (Z.eqb_spec (tile_size job) 0) as [H0 | _]; [lia |].
    rewrite tile_loop_all_present
      by (rewrite planned_upserts_negative_size by exact Hneg; contradiction).
    rewrite planned_upserts_negative_size by exact Hneg. cbn [apply_upserts].
    destruct (sort_by_filename _); reflexivity.
Qed.

Lemma X6_nonpositive_tile_size_witness :
  (exists out,
      run (small_env flat_read) (mkJob "msa" 0 (150 # 1) None) one_tile_dir
      = (Raise ZeroDivisionError, one_tile_dir, out)) /\
  (exists out,
      run (small_env flat_read) (mkJob "msa" (-2) (150 # 1) None) one_tile_dir
      = (Ok tt, mkOutdir (Some (JsonText (JArr []))) (tile_files one_tile_dir), out)).
Proof.
  destruct (X6_nonpositive_tile_size (small_env flat_read)
              (mkJob "msa" 0 (150 # 1) None) one_tile_dir nocrs_source
              (small_vrt flat_read) eq_refl eq_refl) as [Hzero _].
  destruct (X6_nonpositive_tile_size (small_env flat_read)
              (mkJob "msa" (-2) (150 # 1) None) one_tile_dir nocrs_source
              (small_vrt flat_read) eq_refl eq_refl) as [_ Hneg].
  split.
  - destruct (Hzero eq_refl) as (out & Hrun & _). now exists out.
  - destruct (Hneg ltac:(simpl; lia)) as (out & _ & Hrun). exists out. exact Hrun.
Defined.

(* ----------------------------------------------------------------- *)
(** ** The classifier on whole intervals *)

Section IntervalFacts.

Ltac sf_order :=
  unfold SFleb, SFltb, SFcompare;
  repeat match goal with
         | |- context [Z.compare ?a ?b] => destruct (Z.compare_spec a b)
         end;
  repeat match goal with
         | |- context [PosDef.Pos.compare_cont Eq ?a ?b] =>
             progress (change (PosDef.Pos.compare_cont Eq a b) with (Pos.compare a b));
             destruct (Pos.compare_spec a b)
         end;
  simpl; intros; try discriminate; try reflexivity; try lia.

Lemma SFltb_SFleb (a v : f32) : SFltb a v = true -> SFleb a v = true.
Proof.
  unfold SFltb, SFleb. destruct (SFcompare a v) as [[| |] |]; congruence.
Qed.

(** Below a threshold is below every larger threshold. *)
Lemma le_le_not_lt (a b v : f32) :
  nonneg_threshold a -> nonneg_threshold b ->
  SFleb a b = true -> SFleb b v = true -> SFltb v a = false.
Proof.
  destruct a as [[|] | sa | | [|] ma ea]; try contradiction;
    destruct b as [[|] | sb | | [|] mb eb]; try contradiction;
    intros _ _;
    destruct v as [[|] | [|] | | [|] m e]; sf_order.
Qed.

(** Clipping a value that is not below zero. *)
Lemma clip_cases (v : f32) :
  SFleb f32_0 v = true ->
  (SFltb f32_1 v = true /\ np_clip v f32_0 f32_1 = f32_1) \/
  (SFltb f32_1 v = false /\ np_clip v f32_0 f32_1 = v).
Proof.
  destruct v as [[|] | [|] | | [|] m e]; try discriminate; intros _;
    try (right; split; reflexivity); try (left; split; reflexivity).
  unfold np_clip, np_maximum, np_minimum; simpl.
  destruct (SFltb f32_1 (S754_finite false m e)); auto.
Qed.

Lemma clip_not_below_threshold (v : f32) :
  is_finite v = true ->
  SFltb v f32_0_001 = false ->
  SFltb (np_clip v f32_0 f32_1) f32_0_001 = false.
Proof.
  destruct v as [s | s | | s m e]; intros Hfin Hge; try discriminate Hfin.
  - destruct s; vm_compute in Hge; discriminate Hge.
  - destruct s; [vm_compute in Hge; discriminate Hge |].
    destruct (clip_cases (S754_finite false m e) eq_refl) as [[_ ->] | [_ ->]];
      [reflexivity | exact Hge].
Qed.

End IntervalFacts.


(** X8. Interval contract of the classifier: any value that lies in
    [[bins[k], bins[k+1])], for [k] from 0 to 9, is put into bucket [k],
    also after clipping (values in the last interval above 1.0 are clipped to
    1.0 and stay in bucket 9); if the pixel is not masked and not below the
    significance threshold, its colour is [palette[k]]. *)
Theorem X8_bucket_by_interval :
  forall (k : nat) (v : f32),
    (k <= 9)%nat ->
    SFleb (nth k bins S754_nan) v = true ->
    SFltb v (nth (S k) bins S754_nan) = true ->
    bucket_index (np_clip v f32_0 f32_1) = Z.of_nat k /\
    (SFltb v f32_0_001 = false ->
     classify_pixel (mkSample v false) = nth k palette (0, 0, 0)%Z).
Proof.
  intros k v Hk Hle Hlt.
  assert (Hfin : is_finite v = true).
  { destruct v as [s | [|] | | s m e]; try reflexivity;
      destruct k as [| [| [| [| [| [| [| [| [| [| k]]]]]]]]]]; try lia;
      vm_compute in Hle; vm_compute in Hlt;
      first [discriminate Hle | discriminate Hlt]. }
  assert (H0 : SFleb f32_0 v = true).
  { destruct v as [[|] | [|] | | [|] m e]; try reflexivity;
      try discriminate Hfin;
      destruct k as [| [| [| [| [| [| [| [| [| [| k]]]]]]]]]]; try lia;
      vm_compute in Hle; discriminate Hle. }
  assert (Hbucket : bucket_index (np_clip v f32_0 f32_1) = Z.of_nat k).
  { unfold bucket_index. rewrite palette_length.
    destruct (clip_cases v H0) as [[H1 ->] | [H1 ->]].
    - apply SFltb_SFleb in H1.
      destruct k as [| [| [| [| [| [| [| [| [| [| k]]]]]]]]]]; try lia;
        try reflexivity;
        unfold bins in Hlt; cbn [nth] in Hlt;
        match type of Hlt with
        | SFltb v ?b = true =>
            rewrite (le_le_not_lt b f32_1 v I I eq_refl H1) in Hlt; discriminate Hlt
        end.
    - destruct k as [| [| [| [| [| [| [| [| [| [| k]]]]]]]]]]; try lia;
        unfold bins in *; cbn [nth] in Hle, Hlt; cbn [digitize];
        match type of Hle with
        | SFleb ?bk v = true =>
            repeat match goal with
                   | |- context [SFltb v ?b] =>
                       first [ rewrite Hlt
                             | rewrite (le_le_not_lt b bk v I I eq_refl Hle) ]
                   end
        end; reflexivity. }
  split; [exact Hbucket |].
  intros Hge. unfold classify_pixel. cbn [masked value]. rewrite Hfin.
  cbn [negb orb]. rewrite (clip_not_below_threshold v Hfin Hge), Hbucket.
  now rewrite Nat2Z.id.
Qed.

Lemma X8_bucket_by_interval_witness :
  classify_pixel (mkSample (f32_pos 12582912 (-24)) false) = (35, 139, 69)%Z.
Proof.
  destruct (X8_bucket_by_interval 7 (f32_pos 12582912 (-24))) as [_ Hcolor];
    [lia | reflexivity | reflexivity |].
  apply Hcolor. reflexivity.
Defined.

(** X9. Land and background are told apart by colour: a pixel is rendered
    in the ocean colour exactly when it is masked, not finite or below the
    significance threshold; every other pixel gets one of the ten palette
    colours, none of which is the ocean colour. *)
Theorem X9_ocean_iff_background :
  forall s : sample,
    (classify_pixel s = ocean_color <->
     masked s = true \/ is_finite (value s) = false \/
     SFltb (value s) f32_0_001 = true) /\
    (classify_pixel s <> ocean_color -> In (classify_pixel s) palette) /\
    ~ In ocean_color palette.
Proof.
  intros s.
  assert (Hnot : ~ In ocean_color palette).
  { vm_compute. intuition discriminate. }
  assert (Hland : masked s = false -> is_finite (value s) = true ->
                  SFltb (value s) f32_0_001 = false ->
                  In (classify_pixel s) palette).
  { intros Hm Hf Hge. unfold classify_pixel. rewrite Hm, Hf.
    cbn [negb orb]. rewrite (clip_not_below_threshold _ Hf Hge).
    apply nth_In. rewrite palette_length.
    pose proof (bucket_index_range (np_clip (value s) f32_0 f32_1)). lia. }
  split; [| split; [| exact Hnot]].
  - split; [| apply background_pixel].
    intros Hocean.
    destruct (masked s) eqn:Hm; [now left |].
    destruct (is_finite (value s)) eqn:Hf; [| now right; left].
    destruct (SFltb (value s) f32_0_001) eqn:Hge; [now right; right |].
    exfalso. apply Hnot. rewrite <- Hocean. now apply Hland.
  - intros Hne.
    destruct (masked s) eqn:Hm;
      [exfalso; apply Hne, background_pixel; now left |].
    destruct (is_finite (value s)) eqn:Hf;
      [| exfalso; apply Hne, background_pixel; now right; left].
    destruct (SFltb (value s) f32_0_001) eqn:Hge;
      [exfalso; apply Hne, background_pixel; now right; right |].
    now apply Hland.
Qed.

Lemma X9_ocean_iff_background_witness :
  classify_pixel (mkSample f32_0_15 false) <> ocean_color /\
  In (classify_pixel (mkSample f32_0_15 false)) palette.
Proof.
  destruct (X9_ocean_iff_background (mkSample f32_0_15 false)) as (Hiff & Hland & _).
  assert (Hne : classify_pixel (mkSample f32_0_15 false) <> ocean_color).
  { intros Heq. apply Hiff in Heq. destruct Heq as [Hm | [Hf | Hlt]];
      [discriminate Hm | discriminate Hf | discriminate Hlt]. }
  split; [exact Hne | exact (Hland Hne)].
Defined.

(* ----------------------------------------------------------------- *)
(** ** What loading keeps *)

Section LoadFacts.

Lemma load_entry_by_key (e : json) (d d' : pydict) :
  load_entry e d = Ok d' ->
  (entry_key e = None /\ d' = d) \/
  (exists k, entry_key e = Some k /\ d' = dict_set k e d).
Proof.
  unfold load_entry, entry_key.
  destruct e as [| b | q | s | items | fields]; try discriminate.
  destruct (obj_get "filename" fields) as [fn |]; simpl.
  - destruct (truthy fn).
    + destruct (as_key fn) as [k | ex]; simpl; [| discriminate].
      intros Heq. injection Heq as <-. right. now exists k.
    + intros Heq. injection Heq as <-. now left.
  - intros Heq. injection Heq as <-. now left.
Qed.

Lemma load_entries_lookup (items : list json) (d0 d : pydict) (k : pykey) :
  load_entries items d0 = (d, None) ->
  dict_get k d = match last_under k items with
                 | Some e => Some e
                 | None => dict_get k d0
                 end.
Proof.
  revert d0. induction items as [| e items IH]; intros d0; cbn [load_entries last_under].
  - intros Heq. injection Heq as <-. reflexivity.
  - destruct (load_entry e d0) as [d1 | ex] eqn:Hload; [| discriminate].
    intros Hrest. rewrite (IH _ Hrest).
    destruct (last_under k items) as [e' |]; [reflexivity |].
    destruct (load_entry_by_key _ _ _ Hload) as [[-> ->] | (k' & -> & ->)];
      [reflexivity |].
    destruct (key_eqb k' k) eqn:Hk.
    + apply key_eqb_eq in Hk. subst k'. apply dict_get_set_same.
    + apply key_eqb_neq in Hk. now apply dict_get_set_other.
Qed.

End LoadFacts.

(** X10. What a clean load keeps: when a manifest list loads without a
    warning, the mapping has distinct keys, the number it reports is the
    number of distinct filenames, and under every key stands the last entry
    of the file with that filename; objects whose ["filename"] is missing,
    null, empty or zero are dropped without a warning. *)
Theorem X10_load_last_entry_wins :
  forall (items : list json) (d : pydict) (n : nat),
    load_manifest (Some (JsonText (JArr items))) = (d, [LoadedManifest n]) ->
    n = List.length d /\
    NoDup (dict_keys d) /\
    (forall k, dict_get k d = last_under k items) /\
    (forall fields d0,
        (forall fn, obj_get "filename" fields = Some fn -> truthy fn = false) ->
        load_entry (JObj fields) d0 = Ok d0).
Proof.
  intros items d n. cbn [load_manifest iter_items].
  destruct (load_entries items []) as [d' [ex |]] eqn:Hload; [discriminate |].
  intros Heq. injection Heq as <- <-.
  split; [reflexivity |]. split.
  - pose proof (load_entries_wf items [] wf_dict_nil) as Hwf.
    rewrite Hload in Hwf. exact (proj1 Hwf).
  - split.
    + intros k. rewrite (load_entries_lookup items [] d' k Hload).
      destruct (last_under k items); reflexivity.
    + intros fields d0 Hfalsy. unfold load_entry.
      destruct (obj_get "filename" fields) as [fn |]; [| reflexivity].
      now rewrite (Hfalsy fn eq_refl).
Qed.

Lemma X10_load_last_entry_wins_witness :
  let first := JObj [("filename"%string, JStr "a.png"); ("url"%string, JStr "old")] in
  let second := JObj [("filename"%string, JStr "a.png"); ("url"%string, JStr "new")] in
  let nameless := JObj [("url"%string, JStr "x")] in
  dict_get (KStr "a.png")
           (fst (load_manifest (Some (JsonText (JArr [first; nameless; second])))))
  = Some second.
Proof.
  intros first second nameless.
  destruct (X10_load_last_entry_wins [first; nameless; second]
              [(KStr "a.png", second)] 1 eq_refl) as (_ & _ & Hget & _).
  exact (Hget (KStr "a.png")).
Defined.

(* ----------------------------------------------------------------- *)
(** ** The manifest and the files a run leaves behind *)

Section PlannedFacts.

Variable job : Job.
Variable vrt : VRT.

Lemma planned_upserts_inv (tiles : list (Z * Z)) (n : string) (e : json) :
  In (n, e) (planned_upserts job vrt tiles) ->
  exists ty tx window,
    In (ty, tx) tiles /\
    tile_window (vrt_width vrt) (vrt_height vrt) (tile_size job) ty tx = Some window /\
    (n, e) = tile_entry job vrt ty tx window.
Proof.
  induction tiles as [| [ty tx] tiles IH]; [contradiction |].
  cbn [planned_upserts].
  destruct (tile_window (vrt_width vrt) (vrt_height vrt) (tile_size job) ty tx)
    as [window |] eqn:Hwin.
  - intros [Heq | Hin].
    + exists ty, tx, window. split; [now left |]. split; [exact Hwin | now symmetry].
    + destruct (IH Hin) as (ty' & tx' & w' & Hin' & Hw' & Heq).
      exists ty', tx', w'. split; [now right | auto].
  - intros Hin. destruct (IH Hin) as (ty' & tx' & w' & Hin' & Hw' & Heq).
    exists ty', tx', w'. split; [now right | auto].
Qed.

Lemma planned_names_NoDup_gen (tiles : list (Z * Z)) :
  NoDup tiles ->
  (forall ty tx, In (ty, tx) tiles -> (0 <= ty)%Z /\ (0 <= tx)%Z) ->
  NoDup (map fst (planned_upserts job vrt tiles)).
Proof.
  induction tiles as [| [ty tx] tiles IH]; intros Hnd Hpos; [constructor |].
  cbn [planned_upserts]. inversion Hnd as [| ? ? Hnotin Hnd']; subst.
  assert (IH' : NoDup (map fst (planned_upserts job vrt tiles))).
  { apply IH; [exact Hnd' |]. intros y x Hin. apply Hpos. now right. }
  destruct (tile_window (vrt_width vrt) (vrt_height vrt) (tile_size job) ty tx)
    as [window |]; [| exact IH'].
  cbn [map]. constructor; [| exact IH'].
  intros Hin. apply in_map_iff in Hin. destruct Hin as ([n e] & Hn & Hin).
  destruct (planned_upserts_inv _ _ _ Hin) as (ty' & tx' & w' & Hin' & _ & Heq).
  unfold tile_entry in Heq, Hn. cbn [fst] in Hn. injection Heq as Hname _.
  rewrite Hname in Hn.
  destruct (Hpos ty tx (or_introl eq_refl)) as [Hy Hx].
  destruct (Hpos ty' tx' (or_intror Hin')) as [Hy' Hx'].
  destruct (tile_name_inj _ _ _ _ _ _ Hy' Hx' Hy Hx Hn) as [-> ->].
  contradiction.
Qed.

Lemma planned_names_NoDup (ny nx : Z) :
  NoDup (map fst (planned_upserts job vrt (tile_coords ny nx))).
Proof.
  apply planned_names_NoDup_gen; [apply tile_coords_NoDup |].
  intros ty tx Hin. apply in_tile_coords in Hin. lia.
Qed.

End PlannedFacts.

Section LatestFacts.

Lemma latest_none (k : pykey) (us : list (string * json)) :
  (forall n e, In (n, e) us -> KStr n <> k) -> latest k us = None.
Proof.
  induction us as [| [n e] us IH]; intros Hne; [reflexivity |].
  cbn [latest]. rewrite IH by (intros n' e' Hin; apply (Hne n' e'); now right).
  assert (Hk : KStr n <> k) by (apply (Hne n e); now left).
  apply key_eqb_neq in Hk. now rewrite Hk.
Qed.

Lemma latest_some_in (k : pykey) (us : list (string * json)) (e : json) :
  latest k us = Some e -> exists n, In (n, e) us /\ KStr n = k.
Proof.
  induction us as [| [n0 e0] us IH]; [discriminate |].
  cbn [latest]. destruct (latest k us) as [e' |].
  - intros Heq. injection Heq as ->. destruct (IH eq_refl) as (n & Hin & Hk).
    exists n. split; [now right | exact Hk].
  - destruct (key_eqb (KStr n0) k) eqn:Hk; [| discriminate].
    intros Heq. injection Heq as ->. apply key_eqb_eq in Hk.
    exists n0. split; [now left | exact Hk].
Qed.

Lemma latest_NoDup (us : list (string * json)) (n : string) (e : json) :
  NoDup (map fst us) -> In (n, e) us -> latest (KStr n) us = Some e.
Proof.
  induction us as [| [n0 e0] us IH]; [contradiction |].
  cbn [map fst latest]. intros Hnd Hin. inversion Hnd as [| ? ? Hnotin Hnd']; subst.
  destruct Hin as [Heq | Hin].
  - injection Heq as -> ->.
    rewrite latest_none, key_eqb_refl; [reflexivity |].
    intros n' e' Hin' Hk. injection Hk as ->. apply Hnotin.
    apply in_map_iff. now exists (n, e').
  - now rewrite (IH Hnd' Hin).
Qed.

End LatestFacts.

Section DescriptorFacts.

Variable job : Job.
Variable vrt : VRT.

(** The descriptor of lines 179-189, field by field. *)
Lemma tile_entry_fields (ty tx : Z) (window : Window) :
  tile_entry job vrt ty tx window
  = (tile_name (in_stem job) (target_res job) ty tx,
     JObj [("filename"%string, JStr (tile_name (in_stem job) (target_res job) ty tx));
           ("url"%string,
            JStr (tile_url (base_url job)
                           (tile_name (in_stem job) (target_res job) ty tx)));
           ("bbox"%string,
            let '(west, south, east, north) :=
              array_bounds (win_height window) (win_width window)
                           (window_transform (vrt_transform vrt) window) in
            JArr [JNum (Q_of_f64 west); JNum (Q_of_f64 south);
                  JNum (Q_of_f64 east); JNum (Q_of_f64 north)]);
           ("crs"%string, JStr "EPSG:3857")]).
Proof.
  unfold tile_entry, make_entry, box_values.
  destruct (array_bounds (win_height window) (win_width window)
                         (window_transform (vrt_transform vrt) window))
    as [[[west south] east] north].
  reflexivity.
Qed.

(** What is sorted and written at the end of a run holds the descriptor of
    every tile that has a window. *)
Lemma persisted_has_descriptor (m0 : pydict) (ny nx : Z) (L : list json)
      (ty tx : Z) (window : Window) :
  wf_dict m0 ->
  sort_by_filename
    (dict_values (apply_upserts (planned_upserts job vrt (tile_coords ny nx)) m0)) = Ok L ->
  In (ty, tx) (tile_coords ny nx) ->
  tile_window (vrt_width vrt) (vrt_height vrt) (tile_size job) ty tx = Some window ->
  In (snd (tile_entry job vrt ty tx window)) L.
Proof.
  intros Hm0 Hsort Hin Hwin.
  set (us := planned_upserts job vrt (tile_coords ny nx)) in *.
  assert (Hwf : wf_dict (apply_upserts us m0)).
  { apply apply_upserts_wf; [exact Hm0 | apply planned_upserts_keyed]. }
  destruct (sort_by_filename_wf _ _ Hwf Hsort) as (s & _ & -> & Hperm & _).
  pose proof (planned_upserts_in job vrt _ ty tx window Hin Hwin) as Hplanned.
  fold us in Hplanned.
  destruct (tile_entry job vrt ty tx window) as [n e] eqn:Hte. cbn [snd].
  apply in_map_iff. exists (KStr n, e). split; [reflexivity |].
  apply (Permutation_in _ Hperm). apply dict_get_in. rewrite apply_upserts_get.
  now rewrite (latest_NoDup us n e (planned_names_NoDup job vrt ny nx) Hplanned).
Qed.

End DescriptorFacts.

Section RerunFacts.

Variable env : Env.
Variable job : Job.

(** Running the loop again in the directory it left behind: every tile it
    wrote or found is skipped, and a tile step that failed fails again in
    the same way; nothing is written. *)
Lemma tile_loop_rerun (vrt : VRT) (tiles : list (Z * Z)) :
  forall (m : pydict) (dir dir' : outdir) (out out' : list event) (r : result pydict),
    tile_loop env job vrt tiles m (dir, out) = (r, (dir', out')) ->
    forall (m2 : pydict) (out2 : list event),
      tile_loop env job vrt tiles m2 (dir', out2)
      = (match r with
         | Ok _ => Ok (apply_upserts (planned_upserts job vrt tiles) m2)
         | Raise e => Raise e
         end, (dir', out2)).
Proof.
  induction tiles as [| [ty tx] tiles IH]; intros m dir dir' out out' r Hloop m2 out2.
  - cbn in Hloop. injection Hloop as <- <- <-. reflexivity.
  - cbn [tile_loop planned_upserts] in *. unfold bind in *.
    pose proof (process_tile_cases env job vrt m ty tx dir out) as Hc.
    pose proof (process_tile_cases env job vrt m2 ty tx dir' out2) as Hc2.
    destruct (tile_window (vrt_width vrt) (vrt_height vrt) (tile_size job) ty tx)
      as [window |].
    + cbv zeta in Hc, Hc2.
      destruct (tile_entry job vrt ty tx window) as [name entry] eqn:Hte.
      cbn [fst snd apply_upserts] in *.
      destruct (file_present name (tile_files dir)) eqn:Hp.
      * rewrite Hc in Hloop.
        destruct (tile_loop_effect env job vrt _ _ _ _ _ _ _ Hloop)
          as (_ & written & Hfiles & _).
        rewrite Hfiles, (file_present_app name written _ Hp) in Hc2. rewrite Hc2.
        exact (IH _ _ _ _ _ _ Hloop _ _).
      * destruct (rbind (vrt_read vrt window) (filled_nan (vrt_dtype vrt)))
          as [data | e].
        -- destruct (png_save env name (classify_block data)) as [u | e].
           ++ rewrite Hc in Hloop.
              destruct (tile_loop_effect env job vrt _ _ _ _ _ _ _ Hloop)
                as (_ & written & Hfiles & _).
              cbn [tile_files] in Hfiles.
              assert (Hp' : file_present name (tile_files dir') = true).
              { rewrite Hfiles. apply file_present_app.
                unfold file_present. cbn [lookup_file]. now rewrite String.eqb_refl. }
              rewrite Hp' in Hc2. rewrite Hc2.
              exact (IH _ _ _ _ _ _ Hloop _ _).
           ++ rewrite Hc in Hloop. injection Hloop as <- <- <-.
              rewrite Hp in Hc2. rewrite Hc2. reflexivity.
        -- rewrite Hc in Hloop. injection Hloop as <- <- <-.
           rewrite Hp in Hc2. rewrite Hc2. reflexivity.
    + rewrite Hc in Hloop. rewrite Hc2. exact (IH _ _ _ _ _ _ Hloop _ _).
Qed.

(** A second run in the directory the first one left behind ends as the
    first one did, leaves the directory as it is and writes no image. *)
Lemma run_rerun (dir dir1 : outdir) (r : result unit) (out1 : list event) :
  run env job dir = (r, dir1, out1) ->
  exists out2, run env job dir1 = (r, dir1, out2) /\ written_names out2 = [].
Proof.
  intros Hrun. pose proof Hrun as Hrun0. rewrite run_unfold in Hrun. cbv zeta in Hrun.
  assert (Hmsgs : forall d, written_names (snd (load_manifest (manifest_file d))) = [])
    by (intros d; apply written_names_load).
  assert (Hout : forall d src,
             written_names
               (if String.eqb (source_crs_label src) "EPSG:4326"
                then snd (load_manifest (manifest_file d))
                else snd (load_manifest (manifest_file d))
                       ++ [WarnSourceCRS (source_crs_label src)]) = []).
  { intros d src. destruct (String.eqb (source_crs_label src) "EPSG:4326");
      [apply Hmsgs |]. rewrite written_names_app, Hmsgs. reflexivity. }
  destruct (rasterio_open env) as [src | e] eqn:Hopen.
  2:{ injection Hrun as <- <- <-. eexists. split; [exact Hrun0 | apply Hmsgs]. }
  destruct (warped_vrt env src (nodata_value src) (target_res job)) as [vrt | e] eqn:Hvrt.
  2:{ injection Hrun as <- <- <-. eexists. split; [exact Hrun0 | apply Hout]. }
  destruct (n_tiles (vrt_width vrt) (tile_size job)) as [nx | e] eqn:Hnx.
  2:{ injection Hrun as <- <- <-. eexists. split; [exact Hrun0 | apply Hout]. }
  destruct (n_tiles (vrt_height vrt) (tile_size job)) as [ny | e] eqn:Hny.
  2:{ injection Hrun as <- <- <-. eexists. split; [exact Hrun0 | apply Hout]. }
  set (m0 := fst (load_manifest (manifest_file dir))) in *.
  destruct (tile_loop env job vrt (tile_coords ny nx) m0 _)
    as [rl [dirL outL]] eqn:Hloop.
  destruct (tile_loop_effect env job vrt _ _ _ _ _ _ _ Hloop) as (Hman & _).
  pose proof (tile_loop_rerun vrt _ _ _ _ _ _ _ Hloop) as Hagain.
  destruct rl as [m1 | e].
  - destruct (tile_loop_ok env job vrt _ _ _ _ _ _ _ Hloop) as [-> Hfiles].
    set (us := planned_upserts job vrt (tile_coords ny nx)) in *.
    destruct (sort_by_filename (dict_values (apply_upserts us m0))) as [L | e] eqn:Hsort.
    + injection Hrun as <- <- <-.
      assert (Hwf : wf_dict (apply_upserts us m0)).
      { apply apply_upserts_wf; [apply load_manifest_wf | apply planned_upserts_keyed]. }
      destruct (sort_by_filename_wf _ _ Hwf Hsort) as (s & Hs & -> & Hperm & Hsorted).
      destruct Hwf as [Hnd Hall].
      assert (Hnds : NoDup (dict_keys s)).
      { apply (Permutation_NoDup (l := dict_keys (apply_upserts us m0))); [| exact Hnd].
        unfold dict_keys. now apply Permutation_map. }
      assert (Halls : Forall (fun kv => keyed_by (fst kv) (snd kv)) s).
      { rewrite Forall_forall in *. intros kv Hin. apply Hall.
        now apply (Permutation_in _ (Permutation_sym Hperm)). }
      rewrite run_unfold. cbv zeta. cbn [manifest_file tile_files].
      change (map snd s) with (dict_values s).
      rewrite (load_manifest_persisted s Hnds Halls). cbn [fst snd].
      rewrite Hopen, Hvrt, Hnx, Hny.
      rewrite tile_loop_all_present by (cbn [tile_files]; exact Hfiles).
      fold us. rewrite (apply_upserts_replay us m0 s Hnd Hperm).
      assert (Hsort2 : sort_by_filename (dict_values s) = Ok (dict_values s)).
      { unfold sort_by_filename. rewrite (keyed_values s Halls). simpl.
        rewrite (sort_pairs_sorted_id s Hsorted). reflexivity. }
      rewrite Hsort2. eexists. split; [reflexivity |].
      destruct (String.eqb (source_crs_label src) "EPSG:4326"); reflexivity.
    + injection Hrun as <- <- <-.
      rewrite run_unfold. cbv zeta. rewrite Hopen, Hvrt, Hnx, Hny, Hman.
      rewrite Hagain. fold m0 us. rewrite Hsort.
      eexists. split; [reflexivity | apply Hout].
  - injection Hrun as <- <- <-.
    rewrite run_unfold. cbv zeta. rewrite Hopen, Hvrt, Hnx, Hny, Hman.
    rewrite Hagain. eexists. split; [reflexivity | apply Hout].
Qed.

End RerunFacts.

(** C1. Resumability idempotence: when nothing is deleted after a run, a
    second run with the same source and configuration ends as the first one
    did, leaves the output directory as it is (the same manifest document,
    the same files) and writes no image.  The manifest a completed run
    persists depends on the previous manifest only, not on which images
    were present: for every tile that has a window, the step of the loop
    stores the tile's descriptor (its file name, its URL, the bounding box
    of its window and the CRS) in the mapping also when the image exists,
    in which case it does nothing else, and the persisted manifest holds
    that descriptor. *)
Theorem C1_resumability_idempotence :
  forall (env : Env) (job : Job) (dir dir1 : outdir) (r : result unit)
         (out1 : list event),
    run env job dir = (r, dir1, out1) ->
    (exists out2,
        run env job dir1 = (r, dir1, out2) /\ written_names out2 = []) /\
    (r = Ok tt ->
     (forall dir' dir1' out1',
         manifest_file dir' = manifest_file dir ->
         run env job dir' = (Ok tt, dir1', out1') ->
         manifest_file dir1' = manifest_file dir1) /\
     (exists src vrt nx ny L,
         rasterio_open env = Ok src /\
         warped_vrt env src (nodata_value src) (target_res job) = Ok vrt /\
         n_tiles (vrt_width vrt) (tile_size job) = Ok nx /\
         n_tiles (vrt_height vrt) (tile_size job) = Ok ny /\
         manifest_file dir1 = Some (JsonText (JArr L)) /\
         forall ty tx window,
           In (ty, tx) (tile_coords ny nx) ->
           tile_window (vrt_width vrt) (vrt_height vrt) (tile_size job) ty tx
             = Some window ->
           let name := tile_name (in_stem job) (target_res job) ty tx in
           let descriptor :=
             JObj [("filename"%string, JStr name);
                   ("url"%string, JStr (tile_url (base_url job) name));
                   ("bbox"%string,
                    let '(west, south, east, north) :=
                      array_bounds (win_height window) (win_width window)
                                   (window_transform (vrt_transform vrt) window) in
                    JArr [JNum (Q_of_f64 west); JNum (Q_of_f64 south);
                          JNum (Q_of_f64 east); JNum (Q_of_f64 north)]);
                   ("crs"%string, JStr "EPSG:3857")] in
           (forall m d out,
               file_present name (tile_files d) = true ->
               process_tile env job vrt m (ty, tx) (d, out)
               = (Ok (dict_set (KStr name) descriptor m), (d, out))) /\
           In descriptor L)).
Proof.
  intros env job dir dir1 r out1 Hrun.
  split; [exact (run_rerun env job dir dir1 r out1 Hrun) |].
  intros ->.
  destruct (run_ok_inv env job dir dir1 out1 Hrun)
    as (src & vrt & nx & ny & dirL & L & Hopen & Hvrt & Hnx & Hny & Hfiles & Hsort & ->).
  set (us := planned_upserts job vrt (tile_coords ny nx)) in *.
  set (m0 := fst (load_manifest (manifest_file dir))) in *.
  split.
  - intros dir' dir1' out1' Hsame Hrun'.
    destruct (run_ok_inv env job dir' dir1' out1' Hrun')
      as (src' & vrt' & nx' & ny' & dirL' & L' & Hopen' & Hvrt' & Hnx' & Hny'
          & _ & Hsort' & ->).
    rewrite Hopen in Hopen'. injection Hopen' as <-.
    rewrite Hvrt in Hvrt'. injection Hvrt' as <-.
    rewrite Hnx in Hnx'. injection Hnx' as <-.
    rewrite Hny in Hny'. injection Hny' as <-.
    rewrite Hsame in Hsort'. fold m0 us in Hsort'. rewrite Hsort in Hsort'.
    injection Hsort' as <-. reflexivity.
  - exists src, vrt, nx, ny, L.
    split; [exact Hopen |]. split; [exact Hvrt |]. split; [exact Hnx |].
    split; [exact Hny |]. split; [reflexivity |].
    intros ty tx window Hin Hwin name descriptor.
    pose proof (tile_entry_fields job vrt ty tx window) as Hte.
    fold name in Hte. fold descriptor in Hte. split.
    + intros m d out Hpresent.
      pose proof (process_tile_cases env job vrt m ty tx d out) as Hc.
      rewrite Hwin in Hc. cbv zeta in Hc. rewrite Hte in Hc. cbn [fst snd] in Hc.
      now rewrite Hpresent in Hc.
    + replace descriptor with (snd (tile_entry job vrt ty tx window))
        by (now rewrite Hte).
      exact (persisted_has_descriptor job vrt m0 ny nx L ty tx window
               (load_manifest_wf _) Hsort Hin Hwin).
Qed.

Lemma C1_resumability_idempotence_witness :
  (exists dir1 out1 out2 dir1' out1',
      run (small_env flat_read) small_job empty_dir = (Ok tt, dir1, out1) /\
      run (small_env flat_read) small_job dir1 = (Ok tt, dir1, out2) /\
      written_names out1 = ["msa_3857_res150m_tile_y0000_x0000.png";
                            "msa_3857_res150m_tile_y0000_x0001.png"]%string /\
      written_names out2 = [] /\
      run (small_env flat_read) small_job one_tile_dir = (Ok tt, dir1', out1') /\
      written_names out1' = ["msa_3857_res150m_tile_y0000_x0001.png"]%string /\
      manifest_file dir1' = manifest_file dir1 /\
      manifest_file dir1
      = Some (JsonText (JArr
          [JObj [("filename"%string, JStr "msa_3857_res150m_tile_y0000_x0000.png");
                 ("url"%string,
                  JStr "http://h/geo/msa_3857_res150m_tile_y0000_x0000.png");
                 ("bbox"%string, JArr [JNum (-1000 # 1); JNum (1700 # 1);
                                       JNum (-700 # 1); JNum (2000 # 1)]);
                 ("crs"%string, JStr "EPSG:3857")];
           JObj [("filename"%string, JStr "msa_3857_res150m_tile_y0000_x0001.png");
                 ("url"%string,
                  JStr "http://h/geo/msa_3857_res150m_tile_y0000_x0001.png");
                 ("bbox"%string, JArr [JNum (-700 # 1); JNum (1700 # 1);
                                       JNum (-550 # 1); JNum (2000 # 1)]);
                 ("crs"%string, JStr "EPSG:3857")]]))) /\
  (exists dirF outF out2,
      run (small_env failing_read) small_job empty_dir
        = (Raise RasterioIOError, dirF, outF) /\
      written_names outF = ["msa_3857_res150m_tile_y0000_x0000.png"%string] /\
      run (small_env failing_read) small_job dirF
        = (Raise RasterioIOError, dirF, out2) /\
      written_names out2 = []).
Proof.
  split.
  - destruct (run (small_env flat_read) small_job empty_dir)
      as [[r dir1] out1] eqn:Hrun.
    vm_compute in Hrun. injection Hrun as <- <- <-.
    destruct (C1_resumability_idempotence (small_env flat_read) small_job empty_dir
                _ _ _ eq_refl) as ((out2 & Hrun2 & Hnone) & Hdone).
    destruct (Hdone eq_refl) as (Hindep & _).
    eexists _, _, out2, _, _. split; [reflexivity |]. split; [exact Hrun2 |].
    split; [reflexivity |]. split; [exact Hnone |].
    split; [vm_compute; reflexivity |]. split; [reflexivity |].
    split; [| reflexivity].
    eapply (Hindep one_tile_dir _ _ eq_refl). lazy. reflexivity.
  - destruct (run (small_env failing_read) small_job empty_dir)
      as [[r dirF] outF] eqn:Hrun.
    vm_compute in Hrun. injection Hrun as <- <- <-.
    destruct (C1_resumability_idempotence (small_env failing_read) small_job empty_dir
                _ _ _ eq_refl) as ((out2 & Hrun2 & Hnone) & _).
    eexists _, _, out2. split; [reflexivity |]. split; [reflexivity |].
    split; [exact Hrun2 | exact Hnone].
Defined.

(** X11. What the persisted manifest holds after a completed run: the
    descriptor of every tile whose window the loops reached, every entry of
    the previous manifest whose filename is not one of these tiles' names,
    and nothing else; a run never drops what an earlier run recorded. *)
Theorem X11_manifest_content :
  forall (env : Env) (job : Job) (dir dir1 : outdir) (out1 : list event)
         (src : Source) (vrt : VRT) (nx ny : Z),
    run env job dir = (Ok tt, dir1, out1) ->
    rasterio_open env = Ok src ->
    warped_vrt env src (nodata_value src) (target_res job) = Ok vrt ->
    n_tiles (vrt_width vrt) (tile_size job) = Ok nx ->
    n_tiles (vrt_height vrt) (tile_size job) = Ok ny ->
    exists L,
      manifest_file dir1 = Some (JsonText (JArr L)) /\
      (forall ty tx window,
          In (ty, tx) (tile_coords ny nx) ->
          tile_window (vrt_width vrt) (vrt_height vrt) (tile_size job) ty tx
            = Some window ->
          In (snd (tile_entry job vrt ty tx window)) L) /\
      (forall k e,
          dict_get k (fst (load_manifest (manifest_file dir))) = Some e ->
          (forall ty tx, In (ty, tx) (tile_coords ny nx) ->
                         k <> KStr (tile_name (in_stem job) (target_res job) ty tx)) ->
          In e L) /\
      (forall e,
          In e L ->
          (exists ty tx window,
              In (ty, tx) (tile_coords ny nx) /\
              tile_window (vrt_width vrt) (vrt_height vrt) (tile_size job) ty tx
                = Some window /\
              e = snd (tile_entry job vrt ty tx window)) \/
          (exists k, dict_get k (fst (load_manifest (manifest_file dir))) = Some e)).
Proof.
  intros env job dir dir1 out1 src vrt nx ny Hrun Hopen Hvrt Hnx Hny.
  destruct (run_ok_inv env job dir dir1 out1 Hrun)
    as (src' & vrt' & nx' & ny' & dirL & L & Hopen' & Hvrt' & Hnx' & Hny' & _ & Hsort & ->).
  rewrite Hopen in Hopen'. injection Hopen' as <-.
  rewrite Hvrt in Hvrt'. injection Hvrt' as <-.
  rewrite Hnx in Hnx'. injection Hnx' as <-.
  rewrite Hny in Hny'. injection Hny' as <-.
  set (us := planned_upserts job vrt (tile_coords ny nx)) in *.
  set (m0 := fst (load_manifest (manifest_file dir))) in *.
  assert (Hwf : wf_dict (apply_upserts us m0)).
  { apply apply_upserts_wf; [apply load_manifest_wf | apply planned_upserts_keyed]. }
  destruct (sort_by_filename_wf _ _ Hwf Hsort) as (s & _ & -> & Hperm & _).
  destruct Hwf as [Hnd _].
  assert (Hin_L : forall k e, dict_get k (apply_upserts us m0) = Some e -> In e (map snd s)).
  { intros k e Hget. apply in_map_iff. exists (k, e). split; [reflexivity |].
    apply (Permutation_in _ Hperm). now apply dict_get_in. }
  exists (map snd s). split; [reflexivity |]. split; [| split].
  - intros ty tx window Hin Hwin.
    pose proof (planned_upserts_in job vrt _ ty tx window Hin Hwin) as Hplanned.
    fold us in Hplanned.
    destruct (tile_entry job vrt ty tx window) as [n e] eqn:Hte. cbn [snd].
    apply (Hin_L (KStr n)). rewrite apply_upserts_get.
    now rewrite (latest_NoDup us n e (planned_names_NoDup job vrt ny nx) Hplanned).
  - intros k e Hget Hne. apply (Hin_L k). rewrite apply_upserts_get, latest_none;
      [exact Hget |].
    intros n e' Hin Hk.
    destruct (planned_upserts_inv job vrt _ _ _ Hin) as (ty & tx & w & Hin' & _ & Heq).
    unfold tile_entry in Heq. injection Heq as Hname _.
    apply (Hne ty tx Hin'). now rewrite <- Hk, Hname.
  - intros e Hin. apply in_map_iff in Hin. destruct Hin as ([k e'] & He & Hin).
    cbn [snd] in He. subst e'.
    apply (Permutation_in _ (Permutation_sym Hperm)) in Hin.
    apply (dict_in_get _ _ _ Hnd) in Hin. rewrite apply_upserts_get in Hin.
    destruct (latest k us) as [e' |] eqn:Hlatest.
    + injection Hin as ->. left.
      destruct (latest_some_in _ _ _ Hlatest) as (n & Hplanned & _).
      destruct (planned_upserts_inv job vrt _ _ _ Hplanned)
        as (ty & tx & w & Hin' & Hw & Heq).
      exists ty, tx, w. split; [exact Hin' |]. split; [exact Hw |].
      now rewrite <- Heq.
    + right. now exists k.
Qed.

Lemma X11_manifest_content_witness :
  exists L,
    manifest_file (snd (fst (run (small_env flat_read) small_job
                                 (mkOutdir (Some half_good_manifest) []))))
    = Some (JsonText (JArr L)) /\
    In (JObj [("filename"%string, JStr "a.png")]) L /\
    List.length L = 3%nat.
Proof.
  destruct (run (small_env flat_read) small_job (mkOutdir (Some half_good_manifest) []))
    as [[r dir1] out1] eqn:Hrun.
  assert (Hr : r = Ok tt) by (vm_compute in Hrun; now injection Hrun as <- _ _).
  subst r.
  destruct (X11_manifest_content (small_env flat_read) small_job
              (mkOutdir (Some half_good_manifest) []) dir1 out1
              nocrs_source (small_vrt flat_read) 2 1 Hrun eq_refl eq_refl eq_refl eq_refl)
    as (L & Hfile & _ & Hold & _).
  exists L. cbn [fst snd]. split; [exact Hfile |]. split.
  - apply (Hold (KStr "a.png")); [reflexivity |].
    intros ty tx Hin Heq. vm_compute in Hin.
    destruct Hin as [Hin | [Hin | []]]; injection Hin as <- <-; discriminate Heq.
  - vm_compute in Hrun. injection Hrun as <- _. cbn [manifest_file] in Hfile.
    injection Hfile as <-. reflexivity.
Defined.

(* ----------------------------------------------------------------- *)
(** ** Which tiles a run writes, in which order, and with what content *)

Section TraceFacts.

Variable env : Env.
Variable job : Job.
Variable vrt : VRT.

Lemma file_present_cons_other (n n0 : string) (img : image)
      (files : list (string * image)) :
  n0 <> n -> file_present n ((n0, img) :: files) = file_present n files.
Proof.
  intros Hne. unfold file_present. cbn [lookup_file].
  destruct (String.eqb_spec n0 n) as [Heq | _]; [contradiction | reflexivity].
Qed.

Lemma file_present_cons_false (n n0 : string) (img : image)
      (files : list (string * image)) :
  file_present n ((n0, img) :: files) = false -> file_present n files = false.
Proof.
  unfold file_present. cbn [lookup_file].
  destruct (String.eqb n0 n); [discriminate | auto].
Qed.

Lemma tile_entry_name (ty tx : Z) (window : Window) :
  fst (tile_entry job vrt ty tx window)
  = tile_name (in_stem job) (target_res job) ty tx.
Proof. reflexivity. Qed.

(** When the window of every missing tile can be read and filled and its
    image saved, the loop completes and reports exactly the missing tiles, in the
    order of the enumeration. *)
Lemma tile_loop_trace (tiles : list (Z * Z)) :
  NoDup (map fst (planned_upserts job vrt tiles)) ->
  forall (m : pydict) (dir : outdir) (out : list event),
    (forall ty tx window,
        In (ty, tx) tiles ->
        tile_window (vrt_width vrt) (vrt_height vrt) (tile_size job) ty tx = Some window ->
        file_present (tile_name (in_stem job) (target_res job) ty tx) (tile_files dir)
          = false ->
        exists data u,
          rbind (vrt_read vrt window) (filled_nan (vrt_dtype vrt)) = Ok data /\
          png_save env (tile_name (in_stem job) (target_res job) ty tx)
                   (classify_block data) = Ok u) ->
    exists dir',
      tile_loop env job vrt tiles m (dir, out)
      = (Ok (apply_upserts (planned_upserts job vrt tiles) m),
         (dir',
          out ++ map Writing
                     (filter (fun n => negb (file_present n (tile_files dir)))
                             (map fst (planned_upserts job vrt tiles))))).
Proof.
  induction tiles as [| [ty tx] tiles IH]; intros Hnd m dir out Hio.
  - exists dir. cbn. now rewrite app_nil_r.
  - cbn [tile_loop planned_upserts] in *. unfold bind.
    pose proof (process_tile_cases env job vrt m ty tx dir out) as Hc.
    pose proof (Hio ty tx) as Hhere.
    destruct (tile_window (vrt_width vrt) (vrt_height vrt) (tile_size job) ty tx)
      as [window |].
    + cbv zeta in Hc. specialize (Hhere window (or_introl eq_refl) eq_refl).
      rewrite <- (tile_entry_name ty tx window) in Hhere.
      destruct (tile_entry job vrt ty tx window) as [name entry] eqn:Hte.
      cbn [fst snd map filter apply_upserts] in *.
      inversion Hnd as [| ? ? Hnotin Hnd']; subst.
      destruct (file_present name (tile_files dir)) eqn:Hp.
      * rewrite Hc. cbn [negb]. apply (IH Hnd').
        intros y x w Hin. apply Hio. now right.
      * destruct (Hhere eq_refl) as (data & u & Hdata & Hu).
        rewrite Hdata, Hu in Hc. rewrite Hc. cbn [negb].
        destruct (IH Hnd' (dict_set (KStr name) entry m)
                     (mkOutdir (manifest_file dir)
                               ((name, classify_block data) :: tile_files dir))
                     (out ++ [Writing name])) as (dir' & Hloop).
        { intros y x w Hin Hw Habs. apply (Hio y x w); [now right | exact Hw |].
          cbn [tile_files] in Habs. exact (file_present_cons_false _ _ _ _ Habs). }
        exists dir'. rewrite Hloop. cbn [tile_files]. rewrite <- app_assoc. cbn [app map].
        do 5 f_equal. apply filter_ext_in. intros n Hin.
        rewrite file_present_cons_other; [reflexivity |].
        intros Heq. subst n. contradiction.
    + rewrite Hc. apply (IH Hnd). intros y x w Hin. apply Hio. now right.
Qed.

(** In a completed loop a tile whose image was missing got the
    classification of its own window. *)
Lemma tile_loop_content (tiles : list (Z * Z)) :
  NoDup (map fst (planned_upserts job vrt tiles)) ->
  forall (m m' : pydict) (dir dir' : outdir) (out out' : list event)
         (ty tx : Z) (window : Window) (data : block),
    tile_loop env job vrt tiles m (dir, out) = (Ok m', (dir', out')) ->
    In (ty, tx) tiles ->
    tile_window (vrt_width vrt) (vrt_height vrt) (tile_size job) ty tx = Some window ->
    file_present (tile_name (in_stem job) (target_res job) ty tx) (tile_files dir) = false ->
    rbind (vrt_read vrt window) (filled_nan (vrt_dtype vrt)) = Ok data ->
    lookup_file (tile_name (in_stem job) (target_res job) ty tx) (tile_files dir')
    = Some (classify_block data).
Proof.
  induction tiles as [| [y0 x0] tiles IH];
    intros Hnd m m' dir dir' out out' ty tx window data Hloop Hin Hwin Habs Hdata;
    [contradiction |].
  cbn [tile_loop planned_upserts] in *. unfold bind in Hloop.
  pose proof (process_tile_cases env job vrt m y0 x0 dir out) as Hc.
  destruct Hin as [Heq | Hin].
  - injection Heq as -> ->. rewrite Hwin in Hc, Hnd. cbv zeta in Hc.
    rewrite (tile_entry_name ty tx window) in Hc. rewrite Habs, Hdata in Hc.
    destruct (png_save env _ (classify_block data)) as [u | e];
      rewrite Hc in Hloop; [| discriminate].
    apply (tile_loop_keeps_files env job vrt _ _ _ _ _ _ _ _ _ Hloop).
    cbn [tile_files lookup_file]. now rewrite String.eqb_refl.
  - pose proof (planned_upserts_in job vrt tiles ty tx window Hin Hwin) as Hplanned.
    apply (in_map fst) in Hplanned. rewrite (tile_entry_name ty tx window) in Hplanned.
    destruct (tile_window (vrt_width vrt) (vrt_height vrt) (tile_size job) y0 x0)
      as [w0 |].
    + cbv zeta in Hc. cbn [map] in Hnd. inversion Hnd as [| ? ? Hnotin Hnd']; subst.
      remember (fst (tile_entry job vrt y0 x0 w0)) as name0 eqn:Hname0.
      destruct (file_present name0 (tile_files dir)).
      * rewrite Hc in Hloop.
        exact (IH Hnd' _ _ _ _ _ _ _ _ _ _ Hloop Hin Hwin Habs Hdata).
      * destruct (rbind (vrt_read vrt w0) (filled_nan (vrt_dtype vrt))) as [d0 | e];
          [| rewrite Hc in Hloop; discriminate].
        destruct (png_save env name0 (classify_block d0)) as [u | e];
          rewrite Hc in Hloop; [| discriminate].
        apply (IH Hnd' _ _ _ _ _ _ _ _ _ _ Hloop Hin Hwin); [| exact Hdata].
        cbn [tile_files]. rewrite file_present_cons_other; [exact Habs |].
        intros Heq. apply Hnotin. rewrite Hname0 in Heq.
        rewrite (tile_entry_name y0 x0 w0) in Heq. now rewrite Heq.
    + rewrite Hc in Hloop.
      exact (IH Hnd _ _ _ _ _ _ _ _ _ _ Hloop Hin Hwin Habs Hdata).
Qed.

(** On an integer raster the fill of line 202 fails: the loop gets past
    the tiles whose image exists and stops at the first missing one, having
    written nothing. *)
Lemma tile_loop_integer (tiles : list (Z * Z)) :
  vrt_dtype vrt = IntegerKind ->
  (forall w, exists data, vrt_read vrt w = Ok data) ->
  forall (m : pydict) (dir : outdir) (out : list event),
    tile_loop env job vrt tiles m (dir, out)
    = (if forallb (fun n => file_present n (tile_files dir))
                  (map fst (planned_upserts job vrt tiles))
       then Ok (apply_upserts (planned_upserts job vrt tiles) m)
       else Raise TypeError,
       (dir, out)).
Proof.
  intros Hkind Hread. induction tiles as [| [ty tx] tiles IH]; intros m dir out;
    [reflexivity |].
  cbn [tile_loop planned_upserts]. unfold bind.
  pose proof (process_tile_cases env job vrt m ty tx dir out) as Hc.
  destruct (tile_window (vrt_width vrt) (vrt_height vrt) (tile_size job) ty tx)
    as [window |]; [| rewrite Hc; apply IH].
  cbv zeta in Hc.
  destruct (tile_entry job vrt ty tx window) as [name entry] eqn:Hte.
  cbn [fst snd map forallb apply_upserts] in *.
  destruct (file_present name (tile_files dir)).
  - rewrite Hc. cbn [andb]. apply IH.
  - destruct (Hread window) as (data & Hdata).
    rewrite Hdata, Hkind in Hc. cbn [rbind filled_nan] in Hc. rewrite Hc. reflexivity.
Qed.

Lemma forallb_missing {A : Type} (f : A -> bool) (l : list A) :
  filter (fun x => negb (f x)) l <> [] -> forallb f l = false.
Proof.
  induction l as [| a l IH]; cbn [filter forallb]; [congruence |].
  destruct (f a); cbn [negb andb]; auto.
Qed.

End TraceFacts.

(** With a positive tile size every enumerated tile has a window, so the
    planned names are the names of the enumerated tiles. *)
Lemma planned_names_positive_size (job : Job) (vrt : VRT) :
  (1 <= tile_size job)%Z ->
  map fst (planned_upserts job vrt
             (tile_coords (ceil_div (vrt_height vrt) (tile_size job))
                          (ceil_div (vrt_width vrt) (tile_size job))))
  = map (fun t => tile_name (in_stem job) (target_res job) (fst t) (snd t))
        (tile_coords (ceil_div (vrt_height vrt) (tile_size job))
                     (ceil_div (vrt_width vrt) (tile_size job))).
Proof.
  intros HE.
  assert (Hgen : forall tiles,
             (forall ty tx, In (ty, tx) tiles ->
                            (0 <= ty < ceil_div (vrt_height vrt) (tile_size job))%Z /\
                            (0 <= tx < ceil_div (vrt_width vrt) (tile_size job))%Z) ->
             map fst (planned_upserts job vrt tiles)
             = map (fun t => tile_name (in_stem job) (target_res job) (fst t) (snd t))
                   tiles).
  { induction tiles as [| [ty tx] tiles IH]; intros Hin; [reflexivity |].
    cbn [planned_upserts map fst snd].
    destruct (Hin ty tx (or_introl eq_refl)) as [Hy Hx].
    pose proof (ceil_div_bounds (vrt_height vrt) (tile_size job) HE) as Hbh.
    pose proof (ceil_div_bounds (vrt_width vrt) (tile_size job) HE) as Hbw.
    unfold tile_window.
    destruct (Z.leb_spec (Z.min (tile_size job) (vrt_width vrt - tx * tile_size job)) 0);
      [nia |].
    destruct (Z.leb_spec (Z.min (tile_size job) (vrt_height vrt - ty * tile_size job)) 0);
      [nia |].
    cbn [orb map fst]. f_equal. apply IH. intros y x Hyx. apply Hin. now right. }
  apply Hgen. intros ty tx Hin. now apply in_tile_coords.
Qed.

(** X12. Which tiles a run writes.  Take a positive tile size, windows
    that can be read and an encoder that does not fail.  On a floating
    raster the loop reaches the end and the tiles it writes are exactly the
    enumerated tiles whose image was missing, each written once, in
    row-major order (rows outermost); every tile whose image was missing
    then holds the classification of its own window.  On an integer raster
    the fill with NaN of line 202 raises [TypeError]: as soon as one image
    is missing the run stops there, with nothing written and the output
    directory as it was. *)
Theorem X12_missing_tiles_written_in_order :
  forall (env : Env) (job : Job) (dir : outdir) (src : Source) (vrt : VRT),
    rasterio_open env = Ok src ->
    warped_vrt env src (nodata_value src) (target_res job) = Ok vrt ->
    (1 <= tile_size job)%Z ->
    (forall w, exists data, vrt_read vrt w = Ok data) ->
    (forall n img, exists u, png_save env n img = Ok u) ->
    let tiles := tile_coords (ceil_div (vrt_height vrt) (tile_size job))
                             (ceil_div (vrt_width vrt) (tile_size job)) in
    let missing :=
      filter (fun n => negb (file_present n (tile_files dir)))
             (map (fun t => tile_name (in_stem job) (target_res job) (fst t) (snd t))
                  tiles) in
    (vrt_dtype vrt = InexactKind ->
     exists r dir' out,
       run env job dir = (r, dir', out) /\
       written_names out = missing /\
       (forall ty tx window data,
           In (ty, tx) tiles ->
           tile_window (vrt_width vrt) (vrt_height vrt) (tile_size job) ty tx
             = Some window ->
           file_present (tile_name (in_stem job) (target_res job) ty tx)
                        (tile_files dir) = false ->
           vrt_read vrt window = Ok data ->
           lookup_file (tile_name (in_stem job) (target_res job) ty tx)
                       (tile_files dir')
           = Some (classify_block data))) /\
    (vrt_dtype vrt = IntegerKind ->
     missing <> [] ->
     exists out,
       run env job dir = (Raise TypeError, dir, out) /\ written_names out = []).
Proof.
  intros env job dir src vrt Hopen Hvrt HE Hread Hsave tiles missing.
  rewrite run_unfold. cbv zeta. rewrite Hopen, Hvrt.
  rewrite !(n_tiles_is_ceiling _ _ HE). fold tiles.
  pose proof (written_names_load (manifest_file dir)) as Hmsgs.
  set (m0 := fst (load_manifest (manifest_file dir))).
  set (out1 := if String.eqb (source_crs_label src) "EPSG:4326"
               then snd (load_manifest (manifest_file dir))
               else snd (load_manifest (manifest_file dir))
                      ++ [WarnSourceCRS (source_crs_label src)]).
  assert (Hout1 : written_names out1 = []).
  { unfold out1. destruct (String.eqb (source_crs_label src) "EPSG:4326");
      [exact Hmsgs |]. rewrite written_names_app, Hmsgs. reflexivity. }
  assert (Hplanned : map fst (planned_upserts job vrt tiles)
                     = map (fun t => tile_name (in_stem job) (target_res job)
                                               (fst t) (snd t)) tiles)
    by exact (planned_names_positive_size job vrt HE).
  split.
  - intros Hkind.
    destruct (tile_loop_trace env job vrt tiles (planned_names_NoDup job vrt _ _)
                m0 dir out1) as (dir' & Hloop).
    { intros ty tx window _ _ _. rewrite (read_filled_inexact vrt window Hkind).
      destruct (Hread window) as (data & Hdata).
      destruct (Hsave (tile_name (in_stem job) (target_res job) ty tx)
                      (classify_block data)) as (u & Hu).
      now exists data, u. }
    rewrite Hloop.
    assert (Hnames :
              written_names
                (out1 ++ map Writing
                           (filter (fun n => negb (file_present n (tile_files dir)))
                                   (map fst (planned_upserts job vrt tiles))))
              = missing).
    { rewrite written_names_app, Hout1, written_names_writing. cbn [app].
      now rewrite Hplanned. }
    pose proof (fun ty tx window data =>
                  tile_loop_content env job vrt tiles (planned_names_NoDup job vrt _ _)
                    _ _ _ _ _ _ ty tx window data Hloop) as Hcontent.
    destruct (sort_by_filename _) as [L | e];
      eexists _, _, _; (split; [reflexivity |]); (split; [exact Hnames |]);
      intros ty tx window data Hin Hwin Habs Hdata; cbn [tile_files];
      apply (Hcontent ty tx window data Hin Hwin Habs);
      rewrite (read_filled_inexact vrt window Hkind); exact Hdata.
  - intros Hkind Hmissing.
    rewrite (tile_loop_integer env job vrt tiles Hkind Hread).
    rewrite Hplanned, (forallb_missing _ _ Hmissing).
    exists out1. split; [reflexivity | exact Hout1].
Qed.

Lemma X12_missing_tiles_written_in_order_witness :
  (exists r dir' out,
      run (small_env flat_read) small_job one_tile_dir = (r, dir', out) /\
      written_names out = ["msa_3857_res150m_tile_y0000_x0001.png"%string] /\
      lookup_file "msa_3857_res150m_tile_y0000_x0001.png" (tile_files dir')
      = Some [[(247, 252, 245)%Z]; [(247, 252, 245)%Z]]) /\
  (exists out,
      run integer_env small_job one_tile_dir = (Raise TypeError, one_tile_dir, out)).
Proof.
  split.
  - destruct (X12_missing_tiles_written_in_order
                (small_env flat_read) small_job one_tile_dir
                nocrs_source (small_vrt flat_read) eq_refl eq_refl)
      as [Hfloat _].
    + cbn. lia.
    + intros w. eexists. reflexivity.
    + intros n img. exists tt. reflexivity.
    + destruct (Hfloat eq_refl) as (r & dir' & out & Hrun & Hnames & Hcontent).
      exists r, dir', out. split; [exact Hrun |]. split; [exact Hnames |].
      assert (Hin : In (0, 1)%Z
                       (tile_coords
                          (ceil_div (vrt_height (small_vrt flat_read))
                                    (tile_size small_job))
                          (ceil_div (vrt_width (small_vrt flat_read))
                                    (tile_size small_job))))
        by (vm_compute; right; now left).
      pose proof (Hcontent 0%Z 1%Z (mkWindow 2 0 1 2)
                    [[mkSample f32_0_15 false]; [mkSample f32_0_15 false]]
                    Hin eq_refl eq_refl eq_refl) as Hfile.
      vm_compute in Hfile. exact Hfile.
  - destruct (X12_missing_tiles_written_in_order
                integer_env small_job one_tile_dir
                nocrs_source integer_vrt eq_refl eq_refl)
      as [_ Hint].
    + cbn. lia.
    + intros w. eexists. reflexivity.
    + intros n img. exists tt. reflexivity.
    + destruct (Hint eq_refl) as (out & Hrun & _).
      * vm_compute. discriminate.
      * exists out. exact Hrun.
Defined.

(* ----------------------------------------------------------------- *)
(** ** Deleting a tile image between two runs *)

Section DeleteFacts.

Lemma lookup_file_delete_same (n : string) (files : list (string * image)) :
  lookup_file n (filter (fun f => negb (String.eqb (fst f) n)) files) = None.
Proof.
  induction files as [| [n0 img] files IH]; [reflexivity |].
  cbn [filter fst]. destruct (String.eqb n0 n) eqn:Hn; cbn [negb]; [exact IH |].
  cbn [lookup_file]. now rewrite Hn.
Qed.

Lemma lookup_file_delete_other (n n0 : string) (files : list (string * image)) :
  n <> n0 ->
  lookup_file n (filter (fun f => negb (String.eqb (fst f) n0)) files)
  = lookup_file n files.
Proof.
  intros Hne. induction files as [| [n1 img] files IH]; [reflexivity |].
  cbn [filter fst lookup_file].
  destruct (String.eqb_spec n1 n0) as [-> | _]; cbn [negb].
  - destruct (String.eqb_spec n0 n) as [Heq | _]; [now elim Hne | exact IH].
  - cbn [lookup_file]. now rewrite IH.
Qed.

Lemma filter_single {A : Type} (f : A -> bool) (x : A) (l : list A) :
  NoDup l -> In x l -> f x = true ->
  (forall y, In y l -> y <> x -> f y = false) ->
  filter f l = [x].
Proof.
  induction l as [| a l IH]; [contradiction |].
  intros Hnd Hin Hx Hother. inversion Hnd as [| ? ? Hnotin Hnd']; subst.
  assert (Hnone : forall l', (forall y, In y l' -> f y = false) -> filter f l' = []).
  { induction l' as [| b l' IH']; [reflexivity |]. intros Hall. cbn [filter].
    rewrite (Hall b (or_introl eq_refl)). apply IH'. intros y Hy. apply Hall. now right. }
  cbn [filter]. destruct Hin as [-> | Hin].
  - rewrite Hx. f_equal. apply Hnone. intros y Hy. apply Hother; [now right |].
    intros ->. contradiction.
  - rewrite (Hother a (or_introl eq_refl)) by (intros ->; contradiction).
    apply IH; auto. intros y Hy. apply Hother. now right.
Qed.

End DeleteFacts.

(** X13. Resuming after one tile image was deleted.  After a completed
    run on a floating raster, delete the image of one tile and run again
    with the same source and configuration: if that tile's window can be
    read and its image saved, the second run completes, reads and writes
    that one tile only, gives it the classification of its window, leaves
    every other image as it is and persists the same manifest document. *)
Theorem X13_deleted_tile_is_regenerated :
  forall (env : Env) (job : Job) (dir dir1 : outdir) (out1 : list event)
         (src : Source) (vrt : VRT) (nx ny ty tx : Z) (window : Window)
         (data : block) (u : unit),
    run env job dir = (Ok tt, dir1, out1) ->
    rasterio_open env = Ok src ->
    warped_vrt env src (nodata_value src) (target_res job) = Ok vrt ->
    vrt_dtype vrt = InexactKind ->
    n_tiles (vrt_width vrt) (tile_size job) = Ok nx ->
    n_tiles (vrt_height vrt) (tile_size job) = Ok ny ->
    In (ty, tx) (tile_coords ny nx) ->
    tile_window (vrt_width vrt) (vrt_height vrt) (tile_size job) ty tx = Some window ->
    vrt_read vrt window = Ok data ->
    png_save env (tile_name (in_stem job) (target_res job) ty tx) (classify_block data)
      = Ok u ->
    exists dir2 out2,
      run env job (delete_file (tile_name (in_stem job) (target_res job) ty tx) dir1)
        = (Ok tt, dir2, out2) /\
      written_names out2 = [tile_name (in_stem job) (target_res job) ty tx] /\
      manifest_file dir2 = manifest_file dir1 /\
      lookup_file (tile_name (in_stem job) (target_res job) ty tx) (tile_files dir2)
        = Some (classify_block data) /\
      (forall n, n <> tile_name (in_stem job) (target_res job) ty tx ->
                 lookup_file n (tile_files dir2) = lookup_file n (tile_files dir1)).
Proof.
  intros env job dir dir1 out1 src vrt nx ny ty tx window data u
         Hrun Hopen Hvrt Hkind Hnx Hny Hin Hwin Hdata Hsave.
  assert (Hfilled : rbind (vrt_read vrt window) (filled_nan (vrt_dtype vrt)) = Ok data)
    by (now rewrite (read_filled_inexact vrt window Hkind)).
  destruct (run_ok_inv env job dir dir1 out1 Hrun)
    as (src' & vrt' & nx' & ny' & dirL & L & Hopen' & Hvrt' & Hnx' & Hny' & Hfiles
        & Hsort & ->).
  rewrite Hopen in Hopen'. injection Hopen' as <-.
  rewrite Hvrt in Hvrt'. injection Hvrt' as <-.
  rewrite Hnx in Hnx'. injection Hnx' as <-.
  rewrite Hny in Hny'. injection Hny' as <-.
  set (us := planned_upserts job vrt (tile_coords ny nx)) in *.
  set (m0 := fst (load_manifest (manifest_file dir))) in *.
  set (n0 := tile_name (in_stem job) (target_res job) ty tx) in *.
  assert (Hwf : wf_dict (apply_upserts us m0)).
  { apply apply_upserts_wf; [apply load_manifest_wf | apply planned_upserts_keyed]. }
  destruct (sort_by_filename_wf _ _ Hwf Hsort) as (s & Hs & -> & Hperm & Hsorted).
  destruct Hwf as [Hnd Hall].
  assert (Hnds : NoDup (dict_keys s)).
  { apply (Permutation_NoDup (l := dict_keys (apply_upserts us m0))); [| exact Hnd].
    unfold dict_keys. now apply Permutation_map. }
  assert (Halls : Forall (fun kv => keyed_by (fst kv) (snd kv)) s).
  { rewrite Forall_forall in *. intros kv Hkv. apply Hall.
    now apply (Permutation_in _ (Permutation_sym Hperm)). }
  set (kept := filter (fun f : string * image => negb (String.eqb (fst f) n0))
                      (tile_files dirL)).
  assert (Hpresent : forall n, In n (map fst us) -> n <> n0 ->
                               file_present n kept = true).
  { intros n Hn Hne. apply in_map_iff in Hn. destruct Hn as ([n' e] & <- & Hn).
    unfold file_present, kept. rewrite (lookup_file_delete_other _ _ _ Hne).
    exact (Hfiles n' e Hn). }
  assert (Habsent : file_present n0 kept = false).
  { unfold file_present, kept. now rewrite lookup_file_delete_same. }
  assert (Hplanned : In n0 (map fst us)).
  { apply in_map_iff. exists (tile_entry job vrt ty tx window).
    split; [reflexivity | now apply planned_upserts_in]. }
  assert (Hfilter : filter (fun n => negb (file_present n kept)) (map fst us) = [n0]).
  { apply filter_single.
    - apply planned_names_NoDup.
    - exact Hplanned.
    - now rewrite Habsent.
    - intros n Hn Hne. now rewrite (Hpresent n Hn Hne). }
  rewrite run_unfold. cbv zeta. unfold delete_file. cbn [manifest_file tile_files].
  change (map snd s) with (dict_values s).
  rewrite (load_manifest_persisted s Hnds Halls). cbn [fst snd].
  rewrite Hopen, Hvrt, Hnx, Hny. fold n0 kept.
  set (outS := if String.eqb (source_crs_label src) "EPSG:4326"
               then [LoadedManifest (List.length s)]
               else [LoadedManifest (List.length s)]
                      ++ [WarnSourceCRS (source_crs_label src)]).
  assert (HoutS : written_names outS = []).
  { unfold outS. destruct (String.eqb (source_crs_label src) "EPSG:4326"); reflexivity. }
  destruct (tile_loop_trace env job vrt (tile_coords ny nx)
              (planned_names_NoDup job vrt ny nx) s
              (mkOutdir (Some (JsonText (JArr (dict_values s)))) kept) outS)
    as (dir' & Hloop).
  { intros y x w Hyx Hw Habs. cbn [tile_files] in Habs.
    assert (Hname : tile_name (in_stem job) (target_res job) y x = n0).
    { destruct (string_dec (tile_name (in_stem job) (target_res job) y x) n0)
        as [Heq | Hne]; [exact Heq |].
      rewrite Hpresent in Habs; [discriminate Habs | | exact Hne].
      apply in_map_iff. exists (tile_entry job vrt y x w).
      split; [reflexivity | now apply planned_upserts_in]. }
    apply in_tile_coords in Hyx, Hin.
    destruct (tile_name_inj (in_stem job) (target_res job) y x ty tx
                ltac:(lia) ltac:(lia) ltac:(lia) ltac:(lia) Hname) as [-> ->].
    rewrite Hwin in Hw. injection Hw as <-. rewrite Hname. now exists data, u. }
  fold us in Hloop. cbn [tile_files] in Hloop. rewrite Hfilter in Hloop.
  rewrite (apply_upserts_replay us m0 s Hnd Hperm) in Hloop.
  rewrite Hloop.
  assert (Hsort2 : sort_by_filename (dict_values s) = Ok (dict_values s)).
  { unfold sort_by_filename. rewrite (keyed_values s Halls). simpl.
    rewrite (sort_pairs_sorted_id s Hsorted). reflexivity. }
  rewrite Hsort2. eexists _, _. split; [reflexivity |].
  split; [now rewrite written_names_app, HoutS |].
  split; [reflexivity |]. cbn [tile_files].
  split.
  - apply (tile_loop_content env job vrt (tile_coords ny nx)
             (planned_names_NoDup job vrt ny nx) _ _ _ _ _ _ ty tx window data Hloop
             Hin Hwin Habsent Hfilled).
  - intros n Hne.
    destruct (tile_loop_effect env job vrt _ _ _ _ _ _ _ Hloop)
      as (_ & written & Hwritten & Hout).
    cbn [tile_files] in Hwritten. apply app_inv_head in Hout.
    apply (f_equal written_names) in Hout. rewrite !written_names_writing in Hout.
    apply (f_equal (@rev string)) in Hout. rewrite rev_involutive in Hout.
    cbn [rev app] in Hout.
    destruct written as [| [n1 img1] [| f written]]; try discriminate Hout.
    cbn [map fst] in Hout. injection Hout as <-.
    rewrite Hwritten. cbn [app lookup_file].
    destruct (String.eqb_spec n0 n) as [Heq | _]; [now elim Hne |].
    unfold kept. now apply lookup_file_delete_other.
Qed.

Lemma X13_deleted_tile_is_regenerated_witness :
  exists dir1 out1 dir2 out2,
    run (small_env flat_read) small_job empty_dir = (Ok tt, dir1, out1) /\
    run (small_env flat_read) small_job
        (delete_file "msa_3857_res150m_tile_y0000_x0001.png" dir1)
      = (Ok tt, dir2, out2) /\
    written_names out2 = ["msa_3857_res150m_tile_y0000_x0001.png"%string] /\
    manifest_file dir2 = manifest_file dir1.
Proof.
  destruct (run (small_env flat_read) small_job empty_dir) as [[r dir1] out1] eqn:Hrun.
  vm_compute in Hrun. injection Hrun as <- <- <-.
  destruct (X13_deleted_tile_is_regenerated
              (small_env flat_read) small_job empty_dir _ _
              nocrs_source (small_vrt flat_read) 2%Z 1%Z 0%Z 1%Z (mkWindow 2 0 1 2)
              [[mkSample f32_0_15 false]; [mkSample f32_0_15 false]] tt
              eq_refl eq_refl eq_refl eq_refl eq_refl eq_refl)
    as (dir2 & out2 & Hrun2 & Hnames & Hman & _).
  - vm_compute. right. now left.
  - reflexivity.
  - reflexivity.
  - reflexivity.
  - eexists _, _, dir2, out2. split; [reflexivity |].
    split; [exact Hrun2 |]. split; [exact Hnames | exact Hman].
Defined.

(* ----------------------------------------------------------------- *)
(** ** The colour mapping of the land-use script *)

Section LandUseFacts.

Lemma assign_row_map (f : cell -> bool) (g : cell -> rgba) (color : rgba)
      (row : list cell) :
  assign_row (map f row) color (map g row)
  = map (fun c => if f c then color else g c) row.
Proof.
  induction row as [| c row IH]; [reflexivity |]. cbn [map assign_row]. now rewrite IH.
Qed.

(** Assigning under a mask computed cell by cell from the raster, to an
    image computed cell by cell from the raster. *)
Lemma assign_map (f : cell -> bool) (g : cell -> rgba) (color : rgba) (arr : raster) :
  assign (map (map f) arr) color (map (map g) arr)
  = map (map (fun c => if f c then color else g c)) arr.
Proof.
  induction arr as [| row arr IH]; [reflexivity |].
  cbn [map assign]. now rewrite assign_row_map, IH.
Qed.

Lemma Qeq_bool_two (q a b : Q) :
  Qeq_bool q a = true -> Qeq_bool q b = true -> Qeq_bool a b = true.
Proof.
  intros Ha Hb. apply Qeq_bool_iff in Ha, Hb. apply Qeq_bool_iff.
  now rewrite <- Ha, <- Hb.
Qed.

Lemma class_colour_passes (nodata : option cell) (c : cell) :
  (if is_nodata nodata c then NO_DATA_COLOR
   else if cell_eqb c (Fin (50 # 1)) then (254, 224, 139, 255)%Z
   else if cell_eqb c (Fin (70 # 1)) then (0, 104, 55, 255)%Z
   else if cell_eqb c (Fin (30 # 1)) then (173, 221, 142, 255)%Z
   else if cell_eqb c (Fin (20 # 1)) then (120, 198, 121, 255)%Z
   else if cell_eqb c (Fin (100 # 1)) then (65, 171, 93, 255)%Z
   else if cell_eqb c (Fin (90 # 1)) then (35, 132, 67, 255)%Z
   else if cell_eqb c (Fin (10 # 1)) then (0, 69, 41, 255)%Z
   else if cell_eqb c (Fin (60 # 1)) then OCEAN
   else if cell_eqb c (Fin (40 # 1)) then URBAN
   else if cell_eqb c (Fin (80 # 1)) then SNOW
   else OCEAN)
  = class_colour nodata c.
Proof.
  unfold class_colour, NO_DATA_COLOR.
  destruct (is_nodata nodata c); [reflexivity |].
  destruct c as [q | s |]; cbn [cell_eqb]; [| reflexivity | reflexivity].
  repeat match goal with
         | |- context [Qeq_bool q ?k] =>
             let H := fresh "Hq" in destruct (Qeq_bool q k) eqn:H
         end;
    try reflexivity;
    exfalso;
    match goal with
    | H1 : Qeq_bool q ?a = true, H2 : Qeq_bool q ?b = true |- _ =>
        pose proof (Qeq_bool_two q a b H1 H2) as Hab; vm_compute in Hab; discriminate Hab
    end.
Qed.

Lemma landuse_to_rgba_pointwise (arr : raster) (nodata : option cell) :
  landuse_to_rgba arr nodata = map (map (class_colour nodata)) arr.
Proof.
  unfold landuse_to_rgba, eq_mask. cbn [LU_TO_ADV fold_left paint_class].
  cbn [ADVANCED_COLORS lookup_level Z.eqb Pos.eqb]. unfold eq_mask.
  rewrite !assign_map.
  assert (Hmask : nodata_mask arr nodata = map (map (is_nodata nodata)) arr).
  { unfold nodata_mask, is_nodata. destruct nodata; reflexivity. }
  rewrite Hmask, assign_map.
  apply map_ext. intros row. apply map_ext. intros c.
  apply class_colour_passes.
Qed.

End LandUseFacts.

(** X14. The colour mapping of [landuse_to_rgba] cell by cell.  The
    successive masked assignments give every cell a colour that depends on
    its own value only: ocean blue for a cell that equals the no-data value
    or is not finite, even when the no-data value is a class code; otherwise
    white for 80, grey for 40, the vegetation colour of the class for 10, 20,
    30, 50, 70, 90 and 100, and ocean blue for 60 and every other value.
    The image has the shape of the raster, every pixel is opaque, and the
    palette levels 7, 9 and 10 are never used. *)
Theorem X14_landuse_colour_table :
  forall (arr : raster) (nodata : option cell),
    landuse_to_rgba arr nodata = map (map (class_colour nodata)) arr /\
    map (@List.length rgba) (landuse_to_rgba arr nodata)
      = map (@List.length cell) arr /\
    (forall row p,
        In row (landuse_to_rgba arr nodata) -> In p row ->
        snd p = 255%Z /\
        lookup_level 7 ADVANCED_COLORS <> Some p /\
        lookup_level 9 ADVANCED_COLORS <> Some p /\
        lookup_level 10 ADVANCED_COLORS <> Some p).
Proof.
  intros arr nodata. rewrite landuse_to_rgba_pointwise.
  split; [reflexivity |]. split.
  - rewrite map_map. apply map_ext. intros row. apply length_map.
  - intros row p Hrow Hp. apply in_map_iff in Hrow. destruct Hrow as (cells & <- & _).
    apply in_map_iff in Hp. destruct Hp as (c & <- & _).
    unfold class_colour. destruct (is_nodata nodata c);
      [repeat split; discriminate |].
    destruct c as [q | s |]; [| repeat split; discriminate | repeat split; discriminate].
    repeat match goal with
           | |- context [Qeq_bool q ?k] => destruct (Qeq_bool q k)
           end; repeat split; discriminate.
Qed.

Lemma X14_landuse_colour_table_witness :
  landuse_to_rgba [[Fin (10 # 1); Fin (80 # 1); NaN; Fin (7 # 1); Fin (30 # 1)]]
                  (Some (Fin (30 # 1)))
  = [[(0, 69, 41, 255)%Z; SNOW; OCEAN; OCEAN; OCEAN]] /\
  snd (0, 69, 41, 255)%Z = 255%Z.
Proof.
  destruct (X14_landuse_colour_table
              [[Fin (10 # 1); Fin (80 # 1); NaN; Fin (7 # 1); Fin (30 # 1)]]
              (Some (Fin (30 # 1)))) as (Htable & _ & Hpixel).
  split; [rewrite Htable; reflexivity |].
  apply (Hpixel [(0, 69, 41, 255)%Z; SNOW; OCEAN; OCEAN; OCEAN]).
  - rewrite Htable. now left.
  - now left.
Defined.

(* ----------------------------------------------------------------- *)
(** ** Order of the classes *)

Section OrderFacts.

Ltac sf_cases :=
  unfold SFleb, SFltb, SFcompare;
  repeat match goal with
         | |- context [Z.compare ?a ?b] => destruct (Z.compare_spec a b)
         end;
  repeat match goal with
         | |- context [PosDef.Pos.compare_cont Eq ?a ?b] =>
             progress (change (PosDef.Pos.compare_cont Eq a b) with (Pos.compare a b));
             destruct (Pos.compare_spec a b)
         end;
  simpl; intros; try discriminate; try reflexivity; try lia.

Lemma SF_le_lt_trans (x y z : f32) :
  SFleb x y = true -> SFltb y z = true -> SFltb x z = true.
Proof.
  destruct x as [[|] | [|] | | [|] mx ex];
    destruct y as [[|] | [|] | | [|] my ey];
    destruct z as [[|] | [|] | | [|] mz ez]; sf_cases.
Qed.

Lemma SF_lt_le_trans (x y z : f32) :
  SFltb x y = true -> SFleb y z = true -> SFltb x z = true.
Proof.
  destruct x as [[|] | [|] | | [|] mx ex];
    destruct y as [[|] | [|] | | [|] my ey];
    destruct z as [[|] | [|] | | [|] mz ez]; sf_cases.
Qed.

Lemma SF_total (x y : f32) :
  is_nan x = false -> is_nan y = false -> SFltb x y = false -> SFleb y x = true.
Proof.
  destruct x as [[|] | [|] | | [|] mx ex];
    destruct y as [[|] | [|] | | [|] my ey]; try discriminate; intros _ _; sf_cases.
Qed.

Lemma SF_le_refl (x : f32) : is_nan x = false -> SFleb x x = true.
Proof.
  destruct x as [[|] | [|] | | [|] mx ex]; try discriminate; intros _; sf_cases.
Qed.

Lemma SF_le_not_nan (x y : f32) :
  SFleb x y = true -> is_nan x = false /\ is_nan y = false.
Proof.
  destruct x as [[|] | [|] | | [|] mx ex];
    destruct y as [[|] | [|] | | [|] my ey]; try discriminate; auto.
Qed.

Lemma np_maximum_mono (x y c : f32) :
  is_nan c = false -> SFleb x y = true ->
  SFleb (np_maximum x c) (np_maximum y c) = true.
Proof.
  intros Hc Hle. destruct (SF_le_not_nan x y Hle) as [Hx Hy].
  unfold np_maximum. rewrite Hx, Hy, Hc.
  destruct (SFltb x c) eqn:Hxc, (SFltb y c) eqn:Hyc.
  - now apply SF_le_refl.
  - now apply SF_total.
  - rewrite (SF_le_lt_trans x y c Hle Hyc) in Hxc. discriminate Hxc.
  - exact Hle.
Qed.

Lemma np_minimum_mono (x y c : f32) :
  is_nan c = false -> SFleb x y = true ->
  SFleb (np_minimum x c) (np_minimum y c) = true.
Proof.
  intros Hc Hle. destruct (SF_le_not_nan x y Hle) as [Hx Hy].
  unfold np_minimum. rewrite Hx, Hy, Hc.
  destruct (SFltb c x) eqn:Hcx, (SFltb c y) eqn:Hcy.
  - now apply SF_le_refl.
  - rewrite (SF_lt_le_trans c x y Hcx Hle) in Hcy. discriminate Hcy.
  - now apply SF_total.
  - exact Hle.
Qed.

Lemma np_clip_mono (x y : f32) :
  SFleb x y = true -> SFleb (np_clip x f32_0 f32_1) (np_clip y f32_0 f32_1) = true.
Proof.
  intros Hle. unfold np_clip.
  apply np_minimum_mono; [reflexivity |]. now apply np_maximum_mono.
Qed.

Lemma digitize_nonneg (x : f32) (bs : list f32) : (0 <= digitize x bs)%Z.
Proof.
  induction bs as [| b bs IH]; cbn [digitize]; [lia |].
  destruct (SFltb x b); lia.
Qed.

Lemma digitize_mono (x y : f32) (bs : list f32) :
  SFleb x y = true -> (digitize x bs <= digitize y bs)%Z.
Proof.
  intros Hle. induction bs as [| b bs IH]; cbn [digitize]; [lia |].
  destruct (SFltb y b) eqn:Hyb.
  - now rewrite (SF_le_lt_trans x y b Hle Hyb).
  - pose proof (digitize_nonneg y bs). destruct (SFltb x b); lia.
Qed.

End OrderFacts.

(** X15. The class index is monotone in the value: of two values, the
    larger one is never put into a lower class, also when either of them is
    clipped to [0, 1] first. *)
Theorem X15_class_index_monotone :
  forall (v w : f32),
    SFleb v w = true ->
    (bucket_index (np_clip v f32_0 f32_1) <= bucket_index (np_clip w f32_0 f32_1))%Z.
Proof.
  intros v w Hle. unfold bucket_index, clip_int.
  pose proof (digitize_mono _ _ bins (np_clip_mono v w Hle)). lia.
Qed.

Lemma X15_class_index_monotone_witness :
  SFleb f32_0_15 (f32_pos 12582912 (-22)) = true /\
  (1 <= 9)%Z.
Proof.
  split; [reflexivity |].
  exact (X15_class_index_monotone f32_0_15 (f32_pos 12582912 (-22)) eq_refl).
Defined.

(* ----------------------------------------------------------------- *)
(** ** Filenames that cannot be ordered *)

Section MixedKeys.

Lemma insert_by_key_raises (x : pykey * json) (l : list (pykey * json)) (e : exn) :
  insert_by_key x l = Raise e -> e = TypeError.
Proof.
  induction l as [| y l IH]; cbn [insert_by_key]; [discriminate |].
  destruct (key_lt (fst y) (fst x)) as [[|] | ex] eqn:Hlt; cbn [rbind].
  - destruct (insert_by_key x l) as [r | ex]; cbn [rbind]; [discriminate |].
    intros Heq. injection Heq as <-. now apply IH.
  - discriminate.
  - intros Heq. injection Heq as <-.
    destruct (fst y), (fst x); cbn [key_lt] in Hlt; congruence.
Qed.

Lemma sort_pairs_raises (l : list (pykey * json)) (e : exn) :
  sort_pairs l = Raise e -> e = TypeError.
Proof.
  induction l as [| x l IH]; cbn [sort_pairs]; [discriminate |].
  destruct (sort_pairs l) as [s | ex]; cbn [rbind].
  - apply insert_by_key_raises.
  - intros Heq. injection Heq as <-. now apply IH.
Qed.

(** In a list whose neighbours could all be compared, the keys are all
    strings or all numbers. *)
Lemma key_sorted_one_kind (l : list (pykey * json)) (q : Q) (s : string) (a b : json) :
  key_sorted l -> In (KNum q, a) l -> In (KStr s, b) l -> False.
Proof.
  assert (Hnum : forall l p v,
             key_sorted ((KNum p, v) :: l) -> forall s b, ~ In (KStr s, b) l).
  { induction l0 as [| [k w] l0 IH]; intros p v Hs s0 b0; [auto |].
    destruct Hs as [Hhead Hs]. cbn [fst] in Hhead.
    destruct k as [| t | p']; cbn [key_lt] in Hhead; try discriminate Hhead.
    intros [Heq | Hin]; [discriminate Heq |]. exact (IH p' w Hs s0 b0 Hin). }
  assert (Hstr : forall l t v,
             key_sorted ((KStr t, v) :: l) -> forall q a, ~ In (KNum q, a) l).
  { induction l0 as [| [k w] l0 IH]; intros t v Hs q0 a0; [auto |].
    destruct Hs as [Hhead Hs]. cbn [fst] in Hhead.
    destruct k as [| t' | p']; cbn [key_lt] in Hhead; try discriminate Hhead.
    intros [Heq | Hin]; [discriminate Heq |]. exact (IH t' w Hs q0 a0 Hin). }
  destruct l as [| [k v] l]; [contradiction |].
  intros Hs Hq Ht. destruct k as [| t | p].
  - destruct l as [| [k' w] l].
    + destruct Hq as [Hq | []]. discriminate Hq.
    + destruct Hs as [Hhead _]. cbn [fst] in Hhead.
      destruct k'; discriminate Hhead.
  - destruct Hq as [Hq | Hq]; [discriminate Hq |]. exact (Hstr l t v Hs q a Hq).
  - destruct Ht as [Ht | Ht]; [discriminate Ht |]. exact (Hnum l p v Hs s b Ht).
Qed.

Lemma sort_pairs_mixed (l : list (pykey * json)) (q : Q) (s : string) (a b : json) :
  In (KNum q, a) l -> In (KStr s, b) l -> sort_pairs l = Raise TypeError.
Proof.
  intros Hq Hs. destruct (sort_pairs l) as [r | e] eqn:Hsort.
  - exfalso. apply (key_sorted_one_kind r q s a b).
    + exact (sort_pairs_sorted l r Hsort).
    + exact (Permutation_in _ (sort_pairs_perm l r Hsort) Hq).
    + exact (Permutation_in _ (sort_pairs_perm l r Hsort) Hs).
  - now rewrite (sort_pairs_raises l e Hsort).
Qed.

End MixedKeys.

(** X16. A filename that is a number makes the final sort fail.  When the
    previous manifest holds an entry stored under a number (a ["filename"]
    that is a non-zero number or [true]) and at least one tile has a window,
    then, with a readable floating raster and an encoder that does not
    fail, the run writes every missing tile and then stops with [TypeError]
    in the sort of line 251, which cannot order a number against a tile
    name: all images are there, the manifest file is left as it was. *)
Theorem X16_numeric_filename_breaks_sort :
  forall (env : Env) (job : Job) (dir : outdir) (src : Source) (vrt : VRT)
         (nx ny : Z) (q : Q) (old : json) (ty0 tx0 : Z) (window0 : Window),
    rasterio_open env = Ok src ->
    warped_vrt env src (nodata_value src) (target_res job) = Ok vrt ->
    n_tiles (vrt_width vrt) (tile_size job) = Ok nx ->
    n_tiles (vrt_height vrt) (tile_size job) = Ok ny ->
    vrt_dtype vrt = InexactKind ->
    (forall w, exists data, vrt_read vrt w = Ok data) ->
    (forall n img, exists u, png_save env n img = Ok u) ->
    dict_get (KNum q) (fst (load_manifest (manifest_file dir))) = Some old ->
    In (ty0, tx0) (tile_coords ny nx) ->
    tile_window (vrt_width vrt) (vrt_height vrt) (tile_size job) ty0 tx0
      = Some window0 ->
    exists dir' out,
      run env job dir = (Raise TypeError, dir', out) /\
      manifest_file dir' = manifest_file dir /\
      (forall ty tx window,
          In (ty, tx) (tile_coords ny nx) ->
          tile_window (vrt_width vrt) (vrt_height vrt) (tile_size job) ty tx
            = Some window ->
          file_present (tile_name (in_stem job) (target_res job) ty tx)
                       (tile_files dir') = true).
Proof.
  intros env job dir src vrt nx ny q old ty0 tx0 window0
         Hopen Hvrt Hnx Hny Hkind Hread Hsave Hold Hin0 Hwin0.
  rewrite run_unfold. cbv zeta. rewrite Hopen, Hvrt, Hnx, Hny.
  set (m0 := fst (load_manifest (manifest_file dir))) in *.
  match goal with
  | |- context [tile_loop env job vrt ?tiles m0 ?s] =>
      destruct (tile_loop_total env job vrt tiles m0 s Hkind Hread Hsave)
        as (m1 & [dir1 out1] & Hloop)
  end.
  rewrite Hloop.
  destruct (tile_loop_effect env job vrt _ _ _ _ _ _ _ Hloop) as (Hman & _).
  destruct (tile_loop_ok env job vrt _ _ _ _ _ _ _ Hloop) as [-> Hfiles].
  set (us := planned_upserts job vrt (tile_coords ny nx)) in *.
  assert (Hwf : wf_dict (apply_upserts us m0)).
  { apply apply_upserts_wf; [apply load_manifest_wf | apply planned_upserts_keyed]. }
  assert (Hnum : In (KNum q, old) (apply_upserts us m0)).
  { apply dict_get_in. rewrite apply_upserts_get, latest_none; [exact Hold |].
    intros n e _ Heq. discriminate Heq. }
  assert (Hstr : In (KStr (tile_name (in_stem job) (target_res job) ty0 tx0),
                     snd (tile_entry job vrt ty0 tx0 window0))
                    (apply_upserts us m0)).
  { apply dict_get_in. rewrite apply_upserts_get.
    rewrite (latest_NoDup us _ (snd (tile_entry job vrt ty0 tx0 window0))
               (planned_names_NoDup job vrt ny nx)); [reflexivity |].
    exact (planned_upserts_in job vrt _ ty0 tx0 window0 Hin0 Hwin0). }
  unfold sort_by_filename. rewrite (keyed_values _ (proj2 Hwf)). cbn [rbind].
  rewrite (sort_pairs_mixed _ _ _ _ _ Hnum Hstr). cbn [rbind].
  exists dir1, out1. split; [reflexivity |]. split; [exact Hman |].
  intros ty tx window Hin Hwin.
  exact (Hfiles _ _ (planned_upserts_in job vrt _ ty tx window Hin Hwin)).
Qed.

Lemma X16_numeric_filename_breaks_sort_witness :
  exists dir' out,
    run (small_env flat_read) small_job
        (mkOutdir (Some (JsonText (JArr [JObj [("filename"%string, JNum (5 # 1))]]))) [])
    = (Raise TypeError, dir', out) /\
    manifest_file dir'
    = Some (JsonText (JArr [JObj [("filename"%string, JNum (5 # 1))]])) /\
    file_present "msa_3857_res150m_tile_y0000_x0001.png" (tile_files dir') = true.
Proof.
  destruct (X16_numeric_filename_breaks_sort
              (small_env flat_read) small_job
              (mkOutdir (Some (JsonText (JArr [JObj [("filename"%string, JNum (5 # 1))]])))
                        [])
              nocrs_source (small_vrt flat_read) 2%Z 1%Z (5 # 1)
              (JObj [("filename"%string, JNum (5 # 1))]) 0%Z 0%Z (mkWindow 0 0 2 2)
              eq_refl eq_refl eq_refl eq_refl eq_refl)
    as (dir' & out & Hrun & Hman & Hfiles).
  - intros w. eexists. reflexivity.
  - intros n img. exists tt. reflexivity.
  - reflexivity.
  - vm_compute. now left.
  - reflexivity.
  - exists dir', out. split; [exact Hrun |]. split; [exact Hman |].
    apply (Hfiles 0%Z 1%Z (mkWindow 2 0 1 2)); [| reflexivity].
    vm_compute. right. now left.
Defined.
